(** * Verification of the windowing and alignment pipeline of [data/datasets.py]

    The development embeds the pure parts of [src/data/datasets.py]:
    [shift_brain_signal], [Brennan2018Dataset.batchfy],
    [Gwilliams2022Dataset.batchfy], [trim_nosound_regions],
    [update_real_durations], the cut of [audio_preproc] and [ToyDataset].

    Tensors (torch tensors and numpy arrays alike) are a shape together with
    the elements in row-major order; Python integers are [Z]; Python floats
    are the kernel's binary64 floats; a raised exception is a value of
    [result].

    Around them it embeds the drivers: [brain_preproc] of both datasets
    and the two constructors with their cache files, where the functions
    of mne, scikit-learn and torchaudio are parameters. *)

From Stdlib Require Import String Ascii.
From Stdlib Require Import ZArith List Lia Bool Arith PeanoNat.
From Stdlib Require Import Floats.PrimFloat Floats.FloatOps Floats.SpecFloat.
From Stdlib Require Import Floats.FloatAxioms.
From Stdlib Require Numbers.Cyclic.Int63.Uint63.
Import ListNotations.

Set Implicit Arguments.
Set Warnings "-inexact-float".

(** ** Exceptions *)

Inductive exn : Type :=
| AssertionError
| IndexError
| KeyError
| ValueError
| OverflowError
| ZeroDivisionError
| UnboundLocalError
| TypeError
| RuntimeError.

Inductive result (A : Type) : Type :=
| Ok (a : A)
| Raise (e : exn).

Arguments Ok {A} a.
Arguments Raise {A} e.

Definition bind {A B : Type} (c : result A) (k : A -> result B) : result B :=
  match c with
  | Ok a => k a
  | Raise e => Raise e
  end.

Notation "x <- c ;; k" := (bind c (fun x => k))
  (at level 61, c at next level, right associativity).
Notation "' pat <- c ;; k" := (bind c (fun x => match x with pat => k end))
  (at level 61, pat pattern, c at next level, right associativity).

(** [assert b] *)
Definition py_assert (b : bool) : result unit :=
  if b then Ok tt else Raise AssertionError.

(** Monadic map over a list, left to right: a [for] loop that appends. *)
Fixpoint mapM {A B : Type} (f : A -> result B) (l : list A) : result (list B) :=
  match l with
  | [] => Ok []
  | a :: l' => b <- f a ;; bs <- mapM f l' ;; Ok (b :: bs)
  end.

(** ** Python integer arithmetic and slices *)

(** [a % b] on Python ints: the sign of the result follows the divisor, as
    [Z.modulo] does; a zero divisor raises. *)
Definition py_mod (a b : Z) : result Z :=
  if (b =? 0)%Z then Raise ZeroDivisionError else Ok (a mod b)%Z.

(** One bound of a slice [start:stop] over an axis of length [d]: a missing
    bound takes its default, a negative one counts from the end, and the
    result is clamped to [0, d]. *)
Definition slice_index (d : nat) (i : option Z) (dflt : nat) : nat :=
  match i with
  | None => dflt
  | Some z =>
      if (z <? 0)%Z then Z.to_nat (Z.max 0 (z + Z.of_nat d))
      else Nat.min (Z.to_nat z) d
  end.

(** ** Tensors *)

Record tensor (A : Type) : Type := Tensor { shape : list nat; flat : list A }.

Arguments Tensor {A} shape flat.

Fixpoint numel (sh : list nat) : nat :=
  match sh with
  | [] => 1
  | d :: sh' => d * numel sh'
  end.

(** Offset of a multi-index in row-major order, and its inverse. *)
Fixpoint ravel (sh idx : list nat) : nat :=
  match sh, idx with
  | _ :: sh', i :: idx' => i * numel sh' + ravel sh' idx'
  | _, _ => 0
  end.

Fixpoint unravel (sh : list nat) (k : nat) : list nat :=
  match sh with
  | [] => []
  | _ :: sh' => k / numel sh' :: unravel sh' (k mod numel sh')
  end.

Fixpoint in_boundsb (sh idx : list nat) : bool :=
  match sh, idx with
  | [], [] => true
  | d :: sh', i :: idx' => (i <? d) && in_boundsb sh' idx'
  | _, _ => false
  end.

Definition in_bounds (sh idx : list nat) : Prop := in_boundsb sh idx = true.

Definition wf {A} (t : tensor A) : Prop := length (flat t) = numel (shape t).

(** Element at a multi-index. *)
Definition get {A} (t : tensor A) (idx : list nat) : option A :=
  if in_boundsb (shape t) idx then nth_error (flat t) (ravel (shape t) idx)
  else None.

(** The tensor of shape [sh'] whose element at [idx] is the element of [t]
    at [src idx]: what indexing, permuting and broadcasting compute. *)
Definition gather {A} (sh' : list nat) (src : list nat -> list nat)
    (t : tensor A) : tensor A :=
  Tensor sh'
    match flat t with
    | [] => []
    | d :: _ =>
        map (fun k => nth (ravel (shape t) (src (unravel sh' k))) (flat t) d)
            (seq 0 (numel sh'))
    end.

(** Update of one position of a list; nothing happens out of range. *)
Fixpoint upd {B} (n : nat) (f : B -> B) (l : list B) : list B :=
  match l, n with
  | [], _ => []
  | b :: l', O => f b :: l'
  | b :: l', S n' => b :: upd n' f l'
  end.

Definition tmap {A B} (f : A -> B) (t : tensor A) : tensor B :=
  Tensor (shape t) (map f (flat t)).

(** [t.shape[-1]] and [t.shape[k]]. *)
Definition shape_last {A} (t : tensor A) : result Z :=
  match rev (shape t) with
  | [] => Raise IndexError
  | d :: _ => Ok (Z.of_nat d)
  end.

Definition shape_at {A} (t : tensor A) (k : nat) : result Z :=
  match nth_error (shape t) k with
  | None => Raise IndexError
  | Some d => Ok (Z.of_nat d)
  end.

(** [t[:, ..., start:stop]] with the slice on axis [ax] and full slices
    before it. *)
Definition slice_axis {A} (ax : nat) (start stop : option Z) (t : tensor A)
  : result (tensor A) :=
  match nth_error (shape t) ax with
  | None => Raise IndexError
  | Some d =>
      let lo := slice_index d start 0 in
      let hi := slice_index d stop d in
      Ok (gather (upd ax (fun _ => hi - lo) (shape t))
                 (upd ax (fun i => i + lo)) t)
  end.

(** Shape inference of [reshape]: at most one dimension is [-1]; it is
    inferred when the other dimensions have a positive product that divides
    the number of elements. *)
Definition known_size (dims : list Z) : nat :=
  numel (map Z.to_nat (filter (fun z => negb (z =? -1)%Z) dims)).

Definition infer_shape (n : nat) (dims : list Z) : result (list nat) :=
  if existsb (fun z => (z <? -1)%Z) dims then Raise RuntimeError else
  let known := known_size dims in
  match List.length (filter (fun z => (z =? -1)%Z) dims) with
  | 0 => if n =? known then Ok (map Z.to_nat dims) else Raise RuntimeError
  | 1 =>
      if (0 <? known) && (n mod known =? 0)
      then Ok (map (fun z => if (z =? -1)%Z then n / known else Z.to_nat z)
                   dims)
      else Raise RuntimeError
  | _ => Raise RuntimeError
  end.

Definition reshape {A} (dims : list Z) (t : tensor A) : result (tensor A) :=
  sh <- infer_shape (numel (shape t)) dims ;;
  Ok (Tensor sh (flat t)).

(** numpy raises [ValueError] where torch raises [RuntimeError]. *)
Definition as_numpy {B} (r : result B) : result B :=
  match r with
  | Raise RuntimeError => Raise ValueError
  | _ => r
  end.

Fixpoint index_of (b : nat) (p : list nat) : nat :=
  match p with
  | [] => 0
  | a :: p' => if a =? b then 0 else S (index_of b p')
  end.

Definition is_perm (n : nat) (p : list nat) : bool :=
  (List.length p =? n) && forallb (fun b => existsb (Nat.eqb b) p) (seq 0 n).

(** [t.permute(p0, p1, ...)], numpy's [t.transpose(p0, p1, ...)]: axis [a]
    of the result is axis [p[a]] of [t]. *)
Definition permute {A} (p : list nat) (t : tensor A) : result (tensor A) :=
  if is_perm (List.length (shape t)) p then
    Ok (gather (map (fun a => nth a (shape t) 0) p)
               (fun idx' => map (fun b => nth (index_of b p) idx' 0)
                                (seq 0 (List.length p)))
               t)
  else Raise RuntimeError.

(** [t.unsqueeze(ax)] *)
Fixpoint insert_at {B} (n : nat) (b : B) (l : list B) : list B :=
  match n, l with
  | O, _ => b :: l
  | S n', [] => [b]
  | S n', x :: l' => x :: insert_at n' b l'
  end.

Definition unsqueeze {A} (ax : nat) (t : tensor A) : result (tensor A) :=
  if ax <=? List.length (shape t)
  then Ok (Tensor (insert_at ax 1 (shape t)) (flat t))
  else Raise IndexError.

(** [t.expand(s0, s1, ...)] for as many sizes as [t] has axes: [-1] keeps an
    axis, an axis of length 1 is repeated, any other axis must keep its
    length. *)
Fixpoint expand_shape (sizes : list Z) (sh : list nat) : result (list nat) :=
  match sizes, sh with
  | [], [] => Ok []
  | z :: sizes', d :: sh' =>
      rest <- expand_shape sizes' sh' ;;
      if (z =? -1)%Z then Ok (d :: rest)
      else if (z =? Z.of_nat d)%Z then Ok (d :: rest)
      else if (d =? 1) && (0 <=? z)%Z then Ok (Z.to_nat z :: rest)
      else Raise RuntimeError
  | _, _ => Raise RuntimeError
  end.

Fixpoint expand_src (sh idx : list nat) : list nat :=
  match sh, idx with
  | d :: sh', i :: idx' => (if d =? 1 then 0 else i) :: expand_src sh' idx'
  | _, _ => []
  end.

Definition expand {A} (sizes : list Z) (t : tensor A) : result (tensor A) :=
  sh <- expand_shape sizes (shape t) ;;
  Ok (gather sh (expand_src (shape t)) t).

(** [t.flatten()] *)
Definition flatten {A} (t : tensor A) : tensor A :=
  Tensor [numel (shape t)] (flat t).

(** [torch.arange(n)] *)
Definition arange (n : Z) : tensor Z :=
  Tensor [Z.to_nat n] (map Z.of_nat (seq 0 (Z.to_nat n))).

(** [torch.cat(ts, dim=0)]: the list is not empty and the tensors agree on
    every axis but the first. *)
Definition list_eqb (l1 l2 : list nat) : bool :=
  if list_eq_dec Nat.eq_dec l1 l2 then true else false.

Definition cat0 {A} (ts : list (tensor A)) : result (tensor A) :=
  match ts with
  | [] => Raise RuntimeError
  | t :: _ =>
      match shape t with
      | [] => Raise RuntimeError
      | _ :: sh =>
          if forallb (fun u => list_eqb (tl (shape u)) sh
                               && negb (list_eqb (shape u) [])) ts
          then Ok (Tensor (list_sum (map (fun u => hd 0 (shape u)) ts) :: sh)
                          (concat (map (@flat A) ts)))
          else Raise RuntimeError
      end
  end.

(** [t[i]] on the first axis, with Python's negative indices. *)
Definition select0 {A} (i : Z) (t : tensor A) : result (tensor A) :=
  match shape t with
  | [] => Raise IndexError
  | d :: sh =>
      let j := if (i <? 0)%Z then (i + Z.of_nat d)%Z else i in
      if (0 <=? j)%Z && (j <? Z.of_nat d)%Z
      then Ok (Tensor sh (firstn (numel sh)
                                 (skipn (Z.to_nat j * numel sh) (flat t))))
      else Raise IndexError
  end.

(** [len(t)]; a tensor without axes has no length. *)
Definition py_len {A} (t : tensor A) : result Z :=
  match shape t with
  | [] => Raise TypeError
  | d :: _ => Ok (Z.of_nat d)
  end.

(** [t.shape[-k]], [k >= 1]. *)
Definition shape_from_end {A} (t : tensor A) (k : nat) : result Z :=
  match nth_error (rev (shape t)) (k - 1) with
  | None => Raise IndexError
  | Some d => Ok (Z.of_nat d)
  end.

(** Concatenation along axis [ax] ([torch.cat(ts, dim)],
    [np.concatenate(ts, axis)]): the tensors agree on every other axis; the
    result interleaves, for each index before [ax], the blocks of the
    tensors in order. *)
Definition cat_axis {A} (ax : nat) (ts : list (tensor A)) : result (tensor A) :=
  match ts with
  | [] => Raise RuntimeError
  | t :: _ =>
      let sh := shape t in
      if (ax <? List.length sh)
         && forallb (fun u => list_eqb (upd ax (fun _ => 0) (shape u))
                                       (upd ax (fun _ => 0) sh)) ts
      then
        let block u := numel (skipn ax (shape u)) in
        Ok (Tensor
              (upd ax (fun _ => list_sum (map (fun u => nth ax (shape u) 0) ts)) sh)
              (concat (map (fun o =>
                              concat (map (fun u => firstn (block u)
                                                      (skipn (o * block u) (flat u)))
                                          ts))
                           (seq 0 (numel (firstn ax sh))))))
      else Raise RuntimeError
  end.

(** ** Python floats *)

Local Open Scope float_scope.

(** [float(z)] for an int of magnitude below [2^63]. *)
Definition float_of_Z (z : Z) : float :=
  if (z <? 0)%Z then - of_uint63 (Uint63.of_Z (- z))
  else of_uint63 (Uint63.of_Z z).

(** [int(x)] on a float: truncation toward zero; NaN and the infinities
    raise. *)
Definition py_int (x : float) : result Z :=
  match Prim2SF x with
  | S754_zero _ => Ok 0%Z
  | S754_finite s m e =>
      let v := (if (0 <=? e)%Z then Z.pos m * 2 ^ e
                else Z.pos m / 2 ^ (- e))%Z in
      Ok (if s then (- v)%Z else v)
  | S754_infinity _ => Raise OverflowError
  | S754_nan => Raise ValueError
  end.

Definition is_finite (x : float) : bool :=
  match Prim2SF x with
  | S754_zero _ | S754_finite _ _ _ => true
  | _ => false
  end.

(** [numpy.isclose(x, y)] on scalars with the default tolerances. *)
Definition isclose (x y : float) : bool :=
  (abs (x - y) <=? 1e-8 + 1e-5 * abs y) && is_finite y || (x =? y).

(** [numpy.allclose(a, b)] on two sequences: the shapes are broadcast
    (equal lengths, or one of them of length one), else [ValueError]. *)
Definition np_allclose (a b : list float) : result bool :=
  if Nat.eqb (List.length a) (List.length b) then
    Ok (forallb (fun p => isclose (fst p) (snd p)) (combine a b))
  else match a, b with
       | [x], _ => Ok (forallb (fun y => isclose x y) b)
       | _, [y] => Ok (forallb (fun x => isclose x y) a)
       | _, _ => Raise ValueError
       end.

Local Close Scope float_scope.

(** ** Python strings *)

Local Open Scope string_scope.

Fixpoint split_chars (sep : ascii) (cur : list ascii) (s : list ascii)
  : list (list ascii) :=
  match s with
  | [] => [rev cur]
  | c :: s' =>
      if Ascii.eqb c sep then rev cur :: split_chars sep [] s'
      else split_chars sep (c :: cur) s'
  end.

(** [s.split(sep)] for a separator of one character. *)
Definition split (sep : ascii) (s : string) : list string :=
  map string_of_list_ascii (split_chars sep [] (list_ascii_of_string s)).

(** [s[start:stop]] *)
Definition str_slice (start stop : option Z) (s : string) : string :=
  let l := list_ascii_of_string s in
  let d := List.length l in
  let lo := slice_index d start 0 in
  let hi := slice_index d stop d in
  string_of_list_ascii (firstn (hi - lo) (skipn lo l)).

Definition is_digit (c : ascii) : bool :=
  ((48 <=? nat_of_ascii c) && (nat_of_ascii c <=? 57))%nat.

Definition is_space (c : ascii) : bool :=
  let n := nat_of_ascii c in
  ((9 <=? n) && (n <=? 13) || (28 <=? n) && (n <=? 32))%nat.

(** Digits of a decimal literal; single underscores may separate digits. *)
Fixpoint parse_digits (acc : Z) (after_digit : bool) (s : list ascii)
  : option Z :=
  match s with
  | [] => if after_digit then Some acc else None
  | c :: s' =>
      if is_digit c
      then parse_digits (10 * acc + Z.of_nat (nat_of_ascii c - 48)) true s'
      else if Ascii.eqb c "_" && after_digit then parse_digits acc false s'
      else None
  end.

Fixpoint lstrip (s : list ascii) : list ascii :=
  match s with
  | c :: s' => if is_space c then lstrip s' else s
  | [] => []
  end.

(** [int(s)] on an ASCII string: surrounding white space, an optional
    sign, decimal digits. *)
Definition int_of_str (s : string) : result Z :=
  let body := rev (lstrip (rev (lstrip (list_ascii_of_string s)))) in
  let signed :=
    match body with
    | c :: rest =>
        if Ascii.eqb c "-" then (true, rest)
        else if Ascii.eqb c "+" then (false, rest)
        else (false, body)
    | [] => (false, [])
    end in
  match parse_digits 0 false (snd signed) with
  | Some v => Ok (if fst signed then (- v)%Z else v)
  | None => Raise ValueError
  end.

(** [str(n)] for an int [n >= 0]. *)
Fixpoint digits_of (fuel : nat) (n : nat) (acc : list ascii) : list ascii :=
  match fuel with
  | O => acc
  | S fuel' =>
      let acc' := ascii_of_nat (48 + n mod 10) :: acc in
      if (n / 10 =? 0)%nat then acc' else digits_of fuel' (n / 10) acc'
  end.

Definition str_of_nat (n : nat) : string :=
  string_of_list_ascii (digits_of (S n) n []).

(** [s.zfill(width)] for a string without sign. *)
Definition zfill (width : nat) (s : string) : string :=
  string_of_list_ascii (repeat "0"%char (width - String.length s)) ++ s.

Local Close Scope string_scope.

(** ** Dictionaries

    A Python [dict] keeps its keys in insertion order, which the loops over
    [keys()] observe: an association list with unique keys. *)

Definition dict (V : Type) : Type := list (string * V).

Fixpoint dict_find {V} (k : string) (d : dict V) : option V :=
  match d with
  | [] => None
  | (k', v) :: d' => if String.eqb k' k then Some v else dict_find k d'
  end.

(** [d[k]] *)
Definition dict_get {V} (k : string) (d : dict V) : result V :=
  match dict_find k d with
  | Some v => Ok v
  | None => Raise KeyError
  end.

(** [d.update({k: v})]: an existing key keeps its place. *)
Fixpoint dict_update {V} (k : string) (v : V) (d : dict V) : dict V :=
  match d with
  | [] => [(k, v)]
  | (k', v') :: d' =>
      if String.eqb k' k then (k, v) :: d' else (k', v') :: dict_update k v d'
  end.

Definition dict_keys {V} (d : dict V) : list string := map fst d.

(** ** [shift_brain_signal] *)

Section ShiftBrainSignal.
Variables A B : Type.

(** [srate] and [shift] are taken as floats: an int argument enters the
    product and the true division through its float value. *)
Definition shift_brain_signal (X : tensor A) (Y : tensor B)
    (srate shift : float) : result (tensor A * tensor B) :=
  shift <- py_int (srate * (shift / 1000))%float ;;
  X <- slice_axis 2 (Some shift) None X ;;
  Y <- slice_axis 1 None (Some (- shift)%Z) Y ;;
  Ok (X, Y).
End ShiftBrainSignal.

(** ** The dataset interface: [__len__] and [__getitem__] *)

Section Items.
Variables A B : Type.

Record dataset : Type := Dataset {
  ds_X : tensor A;
  ds_Y : tensor B;
  ds_subject_idxs : tensor Z
}.

Definition len (ds : dataset) : result Z := py_len (ds_X ds).

Definition getitem (ds : dataset) (i : Z)
  : result (tensor A * tensor B * tensor Z) :=
  x <- select0 i (ds_X ds) ;;
  y <- select0 i (ds_Y ds) ;;
  s <- select0 i (ds_subject_idxs ds) ;;
  Ok (x, y, s).
End Items.

(** ** [Brennan2018Dataset] *)

  Module Brennan2018Dataset.
Section Batchfy.
Variables A B : Type.

Definition batchfy (X : tensor A) (Y : tensor B) (seq_len : Z)
  : result (dataset A B) :=
  xl <- shape_last X ;;
  yl <- shape_last Y ;;
  _ <- py_assert (xl =? yl)%Z ;;
  r <- py_mod xl seq_len ;;
  let trim_len := (xl - r)%Z in
  X <- slice_axis 2 None (Some trim_len) X ;;
  Y <- slice_axis 1 None (Some trim_len) Y ;;
  x0 <- shape_at X 0 ;;
  x1 <- shape_at X 1 ;;
  X <- reshape [x0; x1; -1; seq_len]%Z X ;;
  y0 <- shape_at Y 0 ;;
  Yw <- reshape [y0; -1; seq_len]%Z Y ;;
  Y <- unsqueeze 0 Yw ;;
  x0 <- shape_at X 0 ;;
  Y <- expand (x0 :: map Z.of_nat (shape Yw)) Y ;;
  X <- permute [0; 2; 1; 3] X ;;
  Y <- permute [0; 2; 1; 3] Y ;;
  x0 <- shape_at X 0 ;;
  x1 <- shape_at X 1 ;;
  subject_idxs <- unsqueeze 1 (arange x0) ;;
  subject_idxs <- expand [-1; x1]%Z subject_idxs ;;
  let subject_idxs := flatten subject_idxs in
  xc <- shape_from_end X 2 ;;
  xw <- shape_from_end X 1 ;;
  X <- reshape [-1; xc; xw]%Z X ;;
  yc <- shape_from_end Y 2 ;;
  yw <- shape_from_end Y 1 ;;
  Y <- reshape [-1; yc; yw]%Z Y ;;
  Ok (Dataset X Y subject_idxs).
End Batchfy.
End Brennan2018Dataset.

(** ** [Gwilliams2022Dataset] *)

Module Gwilliams2022Dataset.

(** The key of a recording, as [brain_preproc] writes it. *)
Definition description (subject_idx session_idx task_idx : nat) : string :=
  ("subject" ++ zfill 2 (str_of_nat (subject_idx + 1))
   ++ "_sess" ++ str_of_nat session_idx
   ++ "_task" ++ str_of_nat task_idx)%string.

(** The first field of a key, [subjectNN]. *)
Definition subject_field (subject_idx : nat) : string :=
  ("subject" ++ zfill 2 (str_of_nat (subject_idx + 1)))%string.

(** [int(key.split("_")[0][-2:]) - 1] *)
Definition subject_of_key (key : string) : result Z :=
  n <- int_of_str (str_slice (Some (-2)%Z) None
                             (hd EmptyString (split "_" key))) ;;
  Ok (n - 1)%Z.

(** The subject field holds no separator and its last two characters read
    back as the subject number: a check that runs. *)
Definition subject_field_ok (subject_idx : nat) : bool :=
  forallb (fun c => negb (Ascii.eqb c "_"))
          (list_ascii_of_string (subject_field subject_idx))
  && match int_of_str (str_slice (Some (-2)%Z) None
                                 (subject_field subject_idx)) with
     | Ok v => (v =? Z.of_nat subject_idx + 1)%Z
     | Raise _ => false
     end.

(** [key.split("_")[-1]] *)
Definition task_of_key (key : string) : string :=
  last (split "_" key) EmptyString.

(** [z * torch.ones(n, dtype=torch.uint8)]: the product stays in [uint8]
    and wraps around. *)
Definition scalar_times_ones_uint8 (z : Z) (n : Z) : tensor Z :=
  Tensor [Z.to_nat n] (repeat ((z * 1) mod 256)%Z (Z.to_nat n)).

Section Batchfy.
Variables A B : Type.
(** [astype(np.float32)] on one element. *)
Variable as_float32 : A -> A.

(** The windows of one recording: the brain part of the loop body. *)
Definition window_brain (meg_len : Z) (X : tensor A) : result (tensor A) :=
  xl <- shape_last X ;;
  trim_len <- py_mod xl meg_len ;;
  X <- slice_axis 1 None (Some (- trim_len)%Z) X ;;
  x0 <- shape_at X 0 ;;
  X <- as_numpy (reshape [x0; -1; meg_len]%Z X) ;;
  as_numpy (permute [1; 0; 2] X).

(** The windows of the audio of one task: the audio part of the loop
    body. *)
Definition window_audio (audio_len : Z) (Y : tensor B) : result (tensor B) :=
  yl <- shape_last Y ;;
  trim_len <- py_mod yl audio_len ;;
  Y <- slice_axis 1 None (Some (- trim_len)%Z) Y ;;
  reshape [-1; audio_len]%Z Y.

(** The body of the loop of [batchfy] for one key. *)
Definition batchfy_key (meg_len audio_len : Z)
    (Xs : dict (tensor A)) (Ys : dict (tensor B)) (key : string)
  : result (tensor A * tensor B * tensor Z) :=
  X <- dict_get key Xs ;;
  X <- window_brain meg_len X ;;
  let X_item := tmap as_float32 X in
  Y <- dict_get (task_of_key key) Ys ;;
  Y <- window_audio audio_len Y ;;
  xn <- shape_at X 0 ;;
  yn <- shape_at Y 0 ;;
  _ <- py_assert (xn =? yn)%Z ;;
  subj_idx <- subject_of_key key ;;
  let subj_idx := scalar_times_ones_uint8 subj_idx xn in
  Ok (X_item, Y, subj_idx).

Definition batchfy (meg_len audio_len : Z)
    (Xs : dict (tensor A)) (Ys : dict (tensor B))
  : result (dataset A B) :=
  items <- mapM (batchfy_key meg_len audio_len Xs Ys) (dict_keys Xs) ;;
  X <- cat0 (map (fun it => fst (fst it)) items) ;;
  Y <- cat0 (map (fun it => snd (fst it)) items) ;;
  subject_idxs <- cat0 (map snd items) ;;
  Ok (Dataset X Y subject_idxs).
End Batchfy.
End Gwilliams2022Dataset.

(** ** Silence trimming, real durations and the audio cut of
       [Gwilliams2022Dataset] *)

(** The fields of a pandas [Timestamp] that [to_second] reads. *)
Record timestamp : Type := Timestamp {
  minute : Z;
  second : Z;
  microsecond : Z
}.

(** A row of [raw.annotations.to_data_frame()]; [sound_id] is the value of
    [ast.literal_eval(description)['sound_id']]. *)
Record annotation : Type := Annotation {
  onset : timestamp;
  duration : float;
  sound_id : float
}.

(** What [print] wrote. *)
Inductive printed : Type :=
| Text (s : string)
| Durations (l : list float).

Definition to_second (onset : timestamp) : float :=
  (float_of_Z (minute onset * 60 + second onset)
   + float_of_Z (microsecond onset) * 1e-6)%float.

(** [series[i]] on a column with the default integer index. *)
Definition series_get {V} (rows : list V) (i : Z) : result V :=
  if (0 <=? i)%Z then
    match nth_error rows (Z.to_nat i) with
    | Some v => Ok v
    | None => Raise KeyError
    end
  else Raise KeyError.

(** [l[i]] on a list, [i >= 0]. *)
Definition list_get {V} (l : list V) (i : nat) : result V :=
  match nth_error l i with
  | Some v => Ok v
  | None => Raise IndexError
  end.

(** The first loop of [trim_nosound_regions]: at every change of sound
    identifier, [t - 1] and [t] are appended. *)
Fixpoint scan_boundaries (prev_sound_id : float) (t : Z)
    (rows : list annotation) : list Z :=
  match rows with
  | [] => []
  | desc :: rows' =>
      if negb (sound_id desc =? prev_sound_id)%float
      then (t - 1)%Z :: t :: scan_boundaries (sound_id desc) (t + 1) rows'
      else scan_boundaries prev_sound_id (t + 1) rows'
  end.

Fixpoint pair_rows (l : list Z) : list (Z * Z) :=
  match l with
  | a :: b :: l' => (a, b) :: pair_rows l'
  | _ => []
  end.

(** The rows of [np.reshape(l, (-1, 2))]. *)
Definition reshape_pairs (l : list Z) : result (list (Z * Z)) :=
  t <- as_numpy (reshape [-1; 2]%Z (Tensor [List.length l] l)) ;;
  Ok (pair_rows (flat t)).

Section TrimNosoundRegions.
Variable A : Type.

(** The body of the second loop: one segment and its real duration. *)
Definition trim_segment (meg_raw : tensor A) (df_annot : list annotation)
    (start_end : Z * Z) : result (tensor A * float) :=
  let '(start_t, end_t) := start_end in
  first <- series_get df_annot start_t ;;
  let start := to_second (onset first) in
  final <- series_get df_annot end_t ;;
  let end_ := (to_second (onset final) + duration final)%float in
  lo <- py_int (start * 1000)%float ;;
  hi <- py_int (end_ * 1000)%float ;;
  seg <- slice_axis 1 (Some lo) (Some hi) meg_raw ;;
  Ok (seg, (end_ - start)%float).

Definition trim_nosound_regions (meg_raw : tensor A)
    (df_annot : list annotation) : result (tensor A * list float) :=
  let starts_ends_t := scan_boundaries (-1)%float 0 df_annot in
  t <- match df_annot with
       | [] => Raise UnboundLocalError
       | _ => Ok (Z.of_nat (List.length df_annot) - 1)%Z
       end ;;
  let starts_ends_t := tl starts_ends_t ++ [t] in
  starts_ends_t <- reshape_pairs starts_ends_t ;;
  segments <- mapM (trim_segment meg_raw df_annot) starts_ends_t ;;
  meg_trimmed <- as_numpy (cat_axis 1 (map fst segments)) ;;
  Ok (meg_trimmed, map snd segments).
End TrimNosoundRegions.

(** *** The segments, as the specification describes them *)

(** The maximal runs of consecutive equal sound identifiers: the first and
    the last position of each run; [x] is the identifier at position
    [cur]. *)
Fixpoint runs_from (start cur : nat) (x : float) (ids : list float)
  : list (nat * nat) :=
  match ids with
  | [] => [(start, cur)]
  | y :: ids' =>
      if (y =? x)%float then runs_from start (S cur) y ids'
      else (start, cur) :: runs_from (S cur) (S cur) y ids'
  end.

Definition runs (ids : list float) : list (nat * nat) :=
  match ids with
  | [] => []
  | x :: ids' => runs_from 0 0 x ids'
  end.

(** The cut of a run: from the onset of its first annotation to the end of
    its last one, both in seconds times 1000, and the real duration. *)
Definition segment_of_run (df_annot : list annotation) (run : nat * nat)
  : result (Z * Z * float) :=
  first <- series_get df_annot (Z.of_nat (fst run)) ;;
  final <- series_get df_annot (Z.of_nat (snd run)) ;;
  let start := to_second (onset first) in
  let end_ := (to_second (onset final) + duration final)%float in
  lo <- py_int (start * 1000)%float ;;
  hi <- py_int (end_ * 1000)%float ;;
  Ok (lo, hi, (end_ - start)%float).

(** Number of samples of [m[:, lo:hi]] on an axis of length [L]. *)
Definition slice_width (L : nat) (seg : Z * Z * float) : nat :=
  slice_index L (Some (snd (fst seg))) L
  - slice_index L (Some (fst (fst seg))) 0.

(** A run as a pair of Python ints, and a list of pairs laid out flat. *)
Definition run_Z (r : nat * nat) : Z * Z :=
  (Z.of_nat (fst r), Z.of_nat (snd r)).

Definition flat_pairs (l : list (Z * Z)) : list Z :=
  concat (map (fun p => [fst p; snd p]) l).

(** When [==] holds of two floats, read through their specification. *)
Definition same_number (a b : spec_float) : Prop :=
  match a, b with
  | S754_zero _, S754_zero _ => True
  | S754_infinity s1, S754_infinity s2 => s1 = s2
  | S754_finite s1 m1 e1, S754_finite s2 m2 e2 =>
      s1 = s2 /\ m1 = m2 /\ e1 = e2
  | _, _ => False
  end.

(** [update_real_durations]: the new map [self.real_durations] and what was
    printed. *)
Definition update_real_durations (self_real_durations : dict (list float))
    (real_durations : list float) (task_idx : nat)
  : result (dict (list float) * list printed) :=
  let task_str := ("task" ++ str_of_nat task_idx)%string in
  out <- match dict_find task_str self_real_durations with
         | Some stored =>
             close <- np_allclose stored real_durations ;;
             if negb close
             then Ok [Text "Real durations are different";
                      Durations real_durations; Durations stored]
             else Ok []
         | None => Ok []
         end ;;
  Ok (dict_update task_str real_durations self_real_durations, out).

Section AudioPreproc.
Variable A : Type.
(** [torchaudio.functional.resample(waveform, orig_freq, new_freq)] *)
Variable resample : tensor A -> Z -> Z -> tensor A.

(** The cut of one stimulus to its real duration. *)
Definition cut_waveform (waveform : tensor A) (sample_rate : Z)
    (real_duration : float) : result (tensor A * list printed) :=
  cutoff <- py_int (float_of_Z sample_rate * real_duration)%float ;;
  n <- shape_at waveform 1 ;;
  if (n >? cutoff)%Z then
    waveform <- slice_axis 1 None (Some cutoff) waveform ;;
    Ok (waveform, [])
  else Ok (waveform, [Text "No audio cutoff"]).

(** The loop over the files of one task; [files] are the results of
    [torchaudio.load] in the order of [audio_paths]. *)
Fixpoint preproc_files (real_durations : dict (list float))
    (audio_upsample : Z) (task_idx : nat) (f : nat)
    (files : list (tensor A * Z))
  : result (list (tensor A) * list printed) :=
  match files with
  | [] => Ok ([], [])
  | (waveform, sample_rate) :: files' =>
      durs <- dict_get ("task" ++ str_of_nat task_idx)%string real_durations ;;
      dur <- list_get durs f ;;
      '(waveform, out) <- cut_waveform waveform sample_rate dur ;;
      let waveform := resample waveform sample_rate audio_upsample in
      '(rest, out') <- preproc_files real_durations audio_upsample task_idx
                                     (S f) files' ;;
      Ok (waveform :: rest, out ++ out')
  end.

Definition preproc_task (real_durations : dict (list float))
    (audio_upsample : Z) (task_idx : nat) (files : list (tensor A * Z))
  : result (tensor A * list printed) :=
  '(audio_raw, out) <- preproc_files real_durations audio_upsample
                                     task_idx 0 files ;;
  last_axis <- match audio_raw with
               | [] => Raise RuntimeError
               | w :: _ => Ok (List.length (shape w) - 1)
               end ;;
  audio_raw <- cat_axis last_axis audio_raw ;;
  Ok (audio_raw, out).

Fixpoint preproc_tasks (real_durations : dict (list float))
    (audio_upsample : Z) (stimuli : nat -> list (tensor A * Z))
    (tasks : list nat) (Y : dict (tensor A))
  : result (dict (tensor A) * list printed) :=
  match tasks with
  | [] => Ok (Y, [])
  | task_idx :: tasks' =>
      '(audio_raw, out) <- preproc_task real_durations audio_upsample
                                        task_idx (stimuli task_idx) ;;
      '(Y, out') <- preproc_tasks real_durations audio_upsample stimuli tasks'
                      (dict_update ("task" ++ str_of_nat task_idx)%string
                                   audio_raw Y) ;;
      Ok (Y, out ++ out')
  end.

(** [audio_preproc]; [stimuli task_idx] are the loaded files of a task. *)
Definition audio_preproc (real_durations : dict (list float))
    (audio_upsample : Z) (stimuli : nat -> list (tensor A * Z))
  : result (dict (tensor A) * list printed) :=
  preproc_tasks real_durations audio_upsample stimuli (seq 0 4) [].
End AudioPreproc.

(** ** [ToyDataset] *)

Section ToyDataset.
(** The element type of torch's float tensors and the operations on it
    that the constructor uses. *)
Variable T : Type.
Variable of_int : Z -> T.
Variables t_add t_mul : T -> T -> T.
Variable t_cos : T -> T.
(** [torch.linspace(a, b, steps)] *)
Variable linspace : T -> T -> nat -> list T.
(** The random source: the values of the [k]-th call of [torch.rand] with
    size [n], and of [torch.randint(33, size=(n,))]. *)
Variable rand : nat -> nat -> list T.
Variable randint : nat -> list Z.

(** [torch.stack(ts)] *)
Definition stack (ts : list (tensor T)) : result (tensor T) :=
  match ts with
  | [] => Raise RuntimeError
  | t :: _ =>
      if forallb (fun u => list_eqb (shape u) (shape t)) ts
      then Ok (Tensor (List.length ts :: shape t) (concat (map (@flat T) ts)))
      else Raise RuntimeError
  end.

(** The constructor. [torch.rand] of a negative size and [torch.linspace]
    with a negative number of steps raise [RuntimeError], and so does
    [torch.stack] of no tensor: the first test gathers the first two. *)
Definition ToyDataset (num_samples seq_len X_dim Y_dim : Z)
  : result (dataset T T) :=
  _ <- (if (num_samples <? 0)%Z || (seq_len <? 0)%Z
        then Raise RuntimeError else Ok tt) ;;
  let starts := map (fun v => t_mul v (of_int 10))
                    (rand 0 (Z.to_nat num_samples)) in
  linspaces <- stack (map (fun st =>
                             Tensor [Z.to_nat seq_len]
                               (linspace st (t_add st (of_int 10))
                                         (Z.to_nat seq_len)))
                          starts) ;;
  Y <- stack (map (fun k =>
                     let scale := hd (of_int 0) (rand (S k) 1) in
                     tmap (fun v => t_mul v scale) linspaces)
                  (seq 0 (Z.to_nat Y_dim))) ;;
  X <- slice_axis 0 None (Some X_dim) Y ;;
  Y <- permute [1; 0; 2] Y ;;
  let Y := tmap t_cos Y in
  X <- permute [1; 0; 2] X ;;
  let X := tmap t_cos X in
  let subject_idxs :=
    Tensor [Z.to_nat num_samples] (randint (Z.to_nat num_samples)) in
  Ok (Dataset X Y subject_idxs).
End ToyDataset.

(** ** Sample inputs *)

(** Five annotations on three sounds, with onsets in milliseconds. *)
Definition sample_annotation (ms : Z) (d id : float) : annotation :=
  Annotation (Timestamp 0 0 (ms * 1000)) d id.

Definition sample_annotations : list annotation :=
  [sample_annotation 1 0.002 0; sample_annotation 4 0.001 0;
   sample_annotation 6 0.001 1; sample_annotation 8 0.003 1;
   sample_annotation 12 0.001 2]%float.

Definition sample_meg : tensor nat := Tensor [2; 20] (seq 0 40).

Definition sample_segments : list (Z * Z * float) :=
  Eval vm_compute in
    match mapM (segment_of_run sample_annotations)
               (runs (map sound_id sample_annotations)) with
    | Ok segs => segs
    | Raise _ => []
    end.

(** Two recordings of one task. *)
Definition sample_Xs : dict (tensor nat) :=
  [("subject01_sess0_task0"%string, Tensor [2; 7] (seq 0 14));
   ("subject02_sess0_task0"%string, Tensor [2; 8] (seq 50 16))].

Definition sample_Ys : dict (tensor nat) :=
  [("task0"%string, Tensor [1; 5] (seq 100 5))].

(** A recording of the hundredth subject. *)
Definition sample_Xs_100 : dict (tensor nat) :=
  [(Gwilliams2022Dataset.description 99 0 0, Tensor [2; 7] (seq 0 14))].

(** A toy random source: constant draws. *)
Definition sample_linspace (a b : Z) (n : nat) : list Z :=
  map (fun i => (a + Z.of_nat i)%Z) (seq 0 n).
Definition sample_rand (k n : nat) : list Z := repeat (Z.of_nat (S k)) n.
Definition sample_randint (n : nat) : list Z := repeat 7%Z n.

(** ** The preprocessing drivers and the constructors

    The signal-processing libraries are taken as given: each of their
    functions is a variable of the section that uses it, and may raise.
    A file is what was saved in it; a path that does not exist is [None]. *)

Definition baseline_correction {A} (X : tensor A) : tensor A := X.

(** [a / b] on two Python ints of magnitude below [2^53]: both have an
    exact float value and the quotient is rounded once. *)
Definition true_div (a b : Z) : result float :=
  if (b =? 0)%Z then Raise ZeroDivisionError
  else Ok (float_of_Z a / float_of_Z b)%float.

Module Brennan2018.
Section Pipeline.
Variables A B : Type.
(** [.float()] on one element. *)
Variable as_float32 : A -> A.
(** [mne.filter.filter_data(eeg, sfreq=fsample, l_freq=1.0, h_freq=None)],
    [mne.filter.resample(eeg, down=factor)] and
    [RobustScaler().fit(eeg).transform(eeg)]. *)
Variable filter_data : tensor A -> float -> result (tensor A).
Variable resample : tensor A -> float -> result (tensor A).
Variable robust_scale : tensor A -> result (tensor A).
(** The static method [audio_preproc]: the wav2vec features of the merged
    audio. *)
Variable audio_preproc : string -> result (tensor B).

(** The body of the loop of [brain_preproc]; a file is given by
    [mat_raw["trial"][0, 0]] and [mat_raw["fsample"][0, 0]]. *)
Definition preproc_subject (audio_embd_len : Z) (mat_raw : tensor A * float)
  : result (tensor A * float) :=
  let '(trial, fsample) := mat_raw in
  eeg_raw <- slice_axis 0 None (Some 60%Z) trial ;;
  eeg_filtered <- filter_data eeg_raw fsample ;;
  n <- shape_last eeg_filtered ;;
  downsampling_factor <- true_div n audio_embd_len ;;
  eeg_resampled <- resample eeg_filtered downsampling_factor ;;
  let new_srate := (fsample / downsampling_factor)%float in
  eeg_scaled <- robust_scale eeg_resampled ;;
  Ok (eeg_scaled, new_srate).

(** [brain_preproc]; [matfiles] are the files of [data/Brennan2018/raw] in
    natural order. The rate returned is the one of the last iteration. *)
Definition brain_preproc (matfiles : list (tensor A * float))
    (audio_embd_len : Z) : result (tensor A * float) :=
  let matfile_paths := firstn 2 matfiles in
  subjects <- mapM (preproc_subject audio_embd_len) matfile_paths ;;
  X <- as_numpy (stack (map fst subjects)) ;;
  new_srate <- match rev subjects with
               | [] => Raise UnboundLocalError
               | last_subject :: _ => Ok (snd last_subject)
               end ;;
  Ok (tmap as_float32 X, new_srate).

(** The files the constructor reads and writes: the embeddings under
    [data/Brennan2018/Y_embeds], by path; [data/Brennan2018/processed_X.pt];
    the raw recordings. *)
Record disk : Type := Disk {
  Y_embeds : dict (tensor B);
  processed_X : option (tensor A * float);
  raw : list (tensor A * float)
}.

(** The embeddings: computed and saved when the file is missing, then
    loaded. *)
Definition load_Y (d : disk) (wav2vec_model : string)
  : disk * result (tensor B) :=
  let Y_path :=
    ("data/Brennan2018/Y_embeds/embd_" ++ wav2vec_model ++ ".pt")%string in
  match dict_find Y_path (Y_embeds d) with
  | Some Y => (d, Ok Y)
  | None =>
      match audio_preproc wav2vec_model with
      | Ok Y => (Disk (dict_update Y_path Y (Y_embeds d)) (processed_X d)
                      (raw d), Ok Y)
      | Raise e => (d, Raise e)
      end
  end.

(** The recordings and their rate: loaded when the file exists, else
    computed and saved. *)
Definition load_X (d : disk) (Y : tensor B)
  : disk * result (tensor A * float) :=
  match processed_X d with
  | Some preprocessed_eeg => (d, Ok preprocessed_eeg)
  | None =>
      match (audio_embd_len <- shape_last Y ;;
             brain_preproc (raw d) audio_embd_len) with
      | Ok r => (Disk (Y_embeds d) (Some r) (raw d), Ok r)
      | Raise e => (d, Raise e)
      end
  end.

(** [__init__]: the disk after the call and the dataset, or the exception.
    What is printed is left out. *)
Definition init (d : disk) (seq_len : Z) (wav2vec_model : string)
    (from_scratch : bool) : disk * result (dataset A B) :=
  let '(d, Y) := load_Y d wav2vec_model in
  match Y with
  | Raise e => (d, Raise e)
  | Ok Y =>
      let '(d, X_srate) := load_X d Y in
      match X_srate with
      | Raise e => (d, Raise e)
      | Ok (X, srate) =>
          (d, ' (X, Y) <- shift_brain_signal X Y srate 150 ;;
              Brennan2018Dataset.batchfy X Y seq_len)
      end
  end.
End Pipeline.
End Brennan2018.

Module Gwilliams2022.

(** How a call ends: [np.load] of a missing file raises
    [FileNotFoundError]. *)
Inductive outcome (X : Type) : Type :=
| Returned (x : X)
| Raised (e : exn)
| RaisedFileNotFoundError.

Arguments Returned {X} x.
Arguments Raised {X} e.
Arguments RaisedFileNotFoundError {X}.

Section Pipeline.
Variables A B : Type.
(** [astype(np.float32)] on one element. *)
Variable as_float32 : A -> A.
(** [mne_bids.read_raw_bids] for a subject, a session and a task (the
    indices of the three loops), with what the loop body takes from the
    recording: the stacked MEG columns of [raw.to_data_frame()] and the
    rows of [raw.annotations.to_data_frame()]. [None] when the read
    raises, which the loop skips; an exception of the conversion is not
    caught. *)
Variable read_raw_bids :
  nat -> nat -> nat -> option (result (tensor A * list annotation)).
(** [mne.filter.resample(meg, down=factor)],
    [mne.filter.filter_data(meg, sfreq=rate, l_freq=0.5, h_freq=30)] and
    [RobustScaler().fit(meg).transform(meg)]. *)
Variable resample : tensor A -> float -> result (tensor A).
Variable filter_data : tensor A -> Z -> result (tensor A).
Variable robust_scale : tensor A -> result (tensor A).
(** [torchaudio.functional.resample] and the loaded stimuli of a task. *)
Variable resample_audio : tensor B -> Z -> Z -> tensor B.
Variable stimuli : nat -> list (tensor B * Z).

(** What [brain_preproc] reads and writes: the dictionary saved under
    [x_path], the local variable [X] (unbound at first),
    [self.real_durations] and the warnings of [update_real_durations]. The
    progress lines that the loop prints are left out. *)
Record state : Type := State {
  x_file : dict (tensor A);
  X_local : option (dict (tensor A));
  self_real_durations : dict (list float);
  out : list printed
}.

(** A [for] loop over a state, left at the first exception. *)
Fixpoint for_each {X : Type} (l : list X)
    (body : X -> state -> state * result unit) (st : state)
  : state * result unit :=
  match l with
  | [] => (st, Ok tt)
  | x :: l' =>
      match body x st with
      | (st', Ok _) => for_each l' body st'
      | r => r
      end
  end.

(** The body of the innermost loop of [brain_preproc]. *)
Definition preproc_recording (resample_rate num_channels : Z)
    (subject_idx session_idx task_idx : nat) (st : state)
  : state * result unit :=
  let description :=
    Gwilliams2022Dataset.description subject_idx session_idx task_idx in
  match read_raw_bids subject_idx session_idx task_idx with
  | None => (st, Ok tt)
  | Some raw =>
      match (' (meg_raw, df_annot) <- raw ;;
             meg_raw <- slice_axis 0 None (Some num_channels) meg_raw ;;
             ' (meg_trimmed, real_durations) <-
               trim_nosound_regions meg_raw df_annot ;;
             updated <- update_real_durations (self_real_durations st)
                                              real_durations task_idx ;;
             Ok (meg_trimmed, updated)) with
      | Raise e => (st, Raise e)
      | Ok (meg_trimmed, (durations, lines)) =>
          let st := State (x_file st) (X_local st) durations
                          (out st ++ lines) in
          match (down <- true_div 1000 resample_rate ;;
                 meg_resampled <- resample meg_trimmed down ;;
                 meg_filtered <- filter_data meg_resampled resample_rate ;;
                 robust_scale meg_filtered) with
          | Raise e => (st, Raise e)
          | Ok meg_scaled =>
              let X := dict_update description meg_scaled (x_file st) in
              (State X (Some X) (self_real_durations st) (out st), Ok tt)
          end
      end
  end.

(** [brain_preproc]: the state after the call and the dictionary, or the
    exception. *)
Definition brain_preproc (num_subjects resample_rate num_channels : Z)
    (st : state) : state * result (dict (tensor A)) :=
  let st := State [] None (self_real_durations st) (out st) in
  match
    for_each (seq 0 (Z.to_nat num_subjects)) (fun subject_idx =>
      for_each (seq 0 2) (fun session_idx =>
        for_each (seq 0 4) (fun task_idx =>
          preproc_recording resample_rate num_channels
                            subject_idx session_idx task_idx))) st
  with
  | (st, Raise e) => (st, Raise e)
  | (st, Ok _) =>
      (st, match X_local st with
           | None => Raise UnboundLocalError
           | Some X => Ok X
           end)
  end.

(** The three files of the constructor: [processed_X.npy],
    [processed_Y.npy] and [real_durations.npy]. *)
Record disk : Type := Disk {
  processed_X : option (dict (tensor A));
  processed_Y : option (dict (tensor B));
  real_durations_npy : option (dict (list float))
}.

(** The recordings and the real durations: loaded when [x_path] exists,
    else computed; [brain_preproc] has written [x_path] even when it
    raises. *)
Definition make_X (d : disk) (num_subjects resample_rate : Z)
  : disk * outcome (dict (tensor A) * dict (list float)) :=
  match processed_X d with
  | Some X =>
      match real_durations_npy d with
      | Some durations => (d, Returned (X, durations))
      | None => (d, RaisedFileNotFoundError)
      end
  | None =>
      let '(st, r) := brain_preproc num_subjects resample_rate 208
                                    (State [] None [] []) in
      match r with
      | Ok X =>
          (Disk (Some (x_file st)) (processed_Y d)
                (Some (self_real_durations st)),
           Returned (X, self_real_durations st))
      | Raise e =>
          (Disk (Some (x_file st)) (processed_Y d) (real_durations_npy d),
           Raised e)
      end
  end.

(** The audio: loaded when [y_path] exists, else computed and saved. *)
Definition make_Y (d : disk) (real_durations : dict (list float))
    (audio_upsample : Z) : disk * outcome (dict (tensor B)) :=
  match processed_Y d with
  | Some Y => (d, Returned Y)
  | None =>
      match audio_preproc resample_audio real_durations audio_upsample
                          stimuli with
      | Ok (Y, _) =>
          (Disk (processed_X d) (Some Y) (real_durations_npy d), Returned Y)
      | Raise e => (d, Raised e)
      end
  end.

(** [__init__]: the files after the call and the dataset, or the
    exception. What is printed is left out. *)
Definition init (d : disk) (wav2vec_model : string)
    (num_subjects seq_len resample_rate audio_upsample : Z)
  : disk * outcome (dataset A B) :=
  let meg_len := (resample_rate * seq_len)%Z in
  let audio_len := (audio_upsample * seq_len)%Z in
  let '(d, X) := make_X d num_subjects resample_rate in
  match X with
  | Returned (X, real_durations) =>
      let '(d, Y) := make_Y d real_durations audio_upsample in
      match Y with
      | Returned Y =>
          (d, match Gwilliams2022Dataset.batchfy as_float32 meg_len audio_len
                                                 X Y with
              | Ok ds => Returned ds
              | Raise e => Raised e
              end)
      | Raised e => (d, Raised e)
      | RaisedFileNotFoundError => (d, RaisedFileNotFoundError)
      end
  | Raised e => (d, Raised e)
  | RaisedFileNotFoundError => (d, RaisedFileNotFoundError)
  end.
End Pipeline.
End Gwilliams2022.

(** ** Further sample inputs *)

(** A dataset of two items. *)
Definition sample_dataset : dataset nat nat :=
  Dataset (Tensor [2; 1] [10; 11]) (Tensor [2; 1] [20; 21])
          (Tensor [2] [0; 1]%Z).

(** Stand-ins for the signal-processing functions: no filtering, no
    scaling, and a resampling that keeps every sample whose position is a
    multiple of the factor, as far as [int(length / factor)] samples. *)
Definition sample_filter (eeg : tensor nat) (sfreq : float)
  : result (tensor nat) := Ok eeg.

Definition sample_resample (eeg : tensor nat) (down : float)
  : result (tensor nat) :=
  n <- shape_last eeg ;;
  m <- py_int (float_of_Z n / down)%float ;;
  step <- py_int down ;;
  Ok (gather (upd 1 (fun _ => Z.to_nat m) (shape eeg))
             (upd 1 (fun i => i * Z.to_nat step)) eeg).

Definition sample_scale (eeg : tensor nat) : result (tensor nat) := Ok eeg.

(** Embeddings of 30 frames; three raw recordings of 60 samples at 200 Hz. *)
Definition sample_embeddings : tensor nat := Tensor [3; 30] (seq 100 90).

Definition sample_audio_preproc (wav2vec_model : string)
  : result (tensor nat) := Ok sample_embeddings.

Definition sample_fresh_disk : Brennan2018.disk nat nat :=
  Brennan2018.Disk []
    None
    [(Tensor [2; 60] (seq 0 120), 200%float);
     (Tensor [2; 60] (seq 200 120), 200%float);
     (Tensor [2; 60] (seq 400 120), 200%float)].

(** The same directory with both caches written. *)
Definition sample_eeg : tensor nat := Tensor [2; 2; 30] (seq 0 120).

Definition sample_cached_disk : Brennan2018.disk nat nat :=
  Brennan2018.Disk
    [("data/Brennan2018/Y_embeds/embd_base.pt"%string, sample_embeddings)]
    (Some (sample_eeg, 100%float))
    [].

(** The five annotations with silence first: the sentinel [-1.0] on the
    first two. *)
Definition sample_silent_start : list annotation :=
  [sample_annotation 1 0.002 (-1); sample_annotation 4 0.001 (-1);
   sample_annotation 6 0.001 1; sample_annotation 8 0.003 1;
   sample_annotation 12 0.001 2]%float.

Definition sample_silent_segments : list (Z * Z * float) :=
  Eval vm_compute in
    match mapM (segment_of_run sample_silent_start)
               (tl (runs (map sound_id sample_silent_start))) with
    | Ok segs => segs
    | Raise _ => []
    end.

(** One stimulus of ten samples at 2 Hz for each task, real durations of
    2.6 s, and a resampling that leaves the waveform as it is. *)
Definition sample_resample_audio (waveform : tensor nat)
    (orig_freq new_freq : Z) : tensor nat := waveform.

Definition sample_stimuli (task_idx : nat) : list (tensor nat * Z) :=
  [(Tensor [1; 10] (seq (100 * task_idx) 10), 2%Z)].

Definition sample_real_durations : dict (list float) :=
  [("task0"%string, [2.6]%float); ("task1"%string, [2.6]%float);
   ("task2"%string, [2.6]%float); ("task3"%string, [2.6]%float)].

Definition sample_audio : dict (tensor nat) :=
  Eval vm_compute in
    match audio_preproc sample_resample_audio sample_real_durations 4
                        sample_stimuli with
    | Ok (Y, _) => Y
    | Raise _ => []
    end.

Definition sample_audio_log : list printed :=
  Eval vm_compute in
    match audio_preproc sample_resample_audio sample_real_durations 4
                        sample_stimuli with
    | Ok (_, out) => out
    | Raise _ => []
    end.

(** A study with one subject whose first session is readable, and another
    whose second session starts with silence. *)
Definition sample_read_raw_bids (subject_idx session_idx task_idx : nat)
  : option (result (tensor nat * list annotation)) :=
  if (subject_idx =? 0) && (session_idx =? 0)
  then Some (Ok (sample_meg, sample_annotations))
  else None.

Definition sample_read_two_sessions (subject_idx session_idx task_idx : nat)
  : option (result (tensor nat * list annotation)) :=
  if subject_idx =? 0
  then Some (Ok (sample_meg,
                 if session_idx =? 0 then sample_annotations
                 else sample_silent_start))
  else None.

Definition sample_resample_meg (meg : tensor nat) (down : float)
  : result (tensor nat) := Ok meg.

Definition sample_filter_meg (meg : tensor nat) (sfreq : Z)
  : result (tensor nat) := Ok meg.

(** One stimulus of ten samples at 2 kHz for each task. *)
Definition sample_stimuli_2k (task_idx : nat) : list (tensor nat * Z) :=
  [(Tensor [1; 10] (seq (100 * task_idx) 10), 2000%Z)].

Definition sample_empty_disk : Gwilliams2022.disk nat nat :=
  Gwilliams2022.Disk None None None.

(** The state in which [brain_preproc] stops on the two sessions. *)
Definition sample_failed_state : Gwilliams2022.state nat :=
  Eval vm_compute in
    fst (Gwilliams2022.brain_preproc sample_read_two_sessions
           sample_resample_meg sample_filter_meg sample_scale 1 4 208
           (Gwilliams2022.State [] None [] [])).

Unset Implicit Arguments.

(** * Properties of the tensor model *)

(** ** The result monad *)

Lemma bind_Ok_inv {A B} (c : result A) (k : A -> result B) (b : B) :
  bind c k = Ok b -> exists a, c = Ok a /\ k a = Ok b.
Proof. destruct c as [a|e]; simpl; intros H; [eauto | discriminate]. Qed.

Ltac inv_bind H :=
  let a := fresh "v" in
  let Ha := fresh "E" in
  apply bind_Ok_inv in H; destruct H as (a & Ha & H).

Lemma mapM_length {A B} (f : A -> result B) (l : list A) (bs : list B) :
  mapM f l = Ok bs -> List.length bs = List.length l.
Proof.
  revert bs; induction l as [|a l IH]; simpl; intros bs H.
  - injection H as <-. reflexivity.
  - inv_bind H. inv_bind H. injection H as <-. simpl. f_equal. auto.
Qed.

Lemma mapM_Forall2 {A B} (f : A -> result B) (l : list A) (bs : list B) :
  mapM f l = Ok bs -> Forall2 (fun a b => f a = Ok b) l bs.
Proof.
  revert bs; induction l as [|a l IH]; simpl; intros bs H.
  - injection H as <-. constructor.
  - inv_bind H. inv_bind H. injection H as <-. constructor; auto.
Qed.

Lemma Forall2_mapM {A B} (f : A -> result B) (l : list A) (bs : list B) :
  Forall2 (fun a b => f a = Ok b) l bs -> mapM f l = Ok bs.
Proof.
  induction 1 as [|a b l bs Hab _ IH]; simpl; [reflexivity|].
  rewrite Hab, IH. reflexivity.
Qed.

(** ** Offsets and multi-indices *)

Lemma in_bounds_cons d sh i idx :
  in_bounds (d :: sh) (i :: idx) <-> i < d /\ in_bounds sh idx.
Proof.
  unfold in_bounds; simpl. rewrite andb_true_iff, Nat.ltb_lt. reflexivity.
Qed.

Lemma in_bounds_length sh : forall idx,
  in_bounds sh idx -> List.length idx = List.length sh.
Proof.
  induction sh as [|d sh IH]; intros [|i idx] H; try discriminate; auto.
  apply in_bounds_cons in H. simpl. f_equal. apply IH, H.
Qed.

Lemma in_bounds_numel_pos sh idx : in_bounds sh idx -> 0 < numel sh.
Proof.
  revert idx; induction sh as [|d sh IH]; intros [|i idx] H;
    try discriminate; simpl; [lia|].
  apply in_bounds_cons in H. destruct H as [Hi H]. apply IH in H. nia.
Qed.

Lemma ravel_lt sh : forall idx, in_bounds sh idx -> ravel sh idx < numel sh.
Proof.
  induction sh as [|d sh IH]; intros [|i idx] H; try discriminate; simpl.
  - lia.
  - apply in_bounds_cons in H. destruct H as [Hi H]. apply IH in H. nia.
Qed.

Lemma unravel_ravel sh : forall idx,
  in_bounds sh idx -> unravel sh (ravel sh idx) = idx.
Proof.
  induction sh as [|d sh IH]; intros [|i idx] H; try discriminate; simpl.
  - reflexivity.
  - apply in_bounds_cons in H. destruct H as [Hi H].
    pose proof (ravel_lt _ _ H) as Hr.
    assert (Hq : (i * numel sh + ravel sh idx) / numel sh = i).
    { rewrite Nat.add_comm, Nat.div_add by lia.
      rewrite Nat.div_small by lia. reflexivity. }
    assert (Hm : (i * numel sh + ravel sh idx) mod numel sh = ravel sh idx).
    { rewrite Nat.add_comm, Nat.Div0.mod_add.
      apply Nat.mod_small; lia. }
    rewrite Hq, Hm, IH by assumption. reflexivity.
Qed.

Lemma unravel_in_bounds sh : forall k,
  k < numel sh -> in_bounds sh (unravel sh k).
Proof.
  induction sh as [|d sh IH]; intros k Hk; simpl in *.
  - reflexivity.
  - assert (Hpos : 0 < numel sh) by (destruct (numel sh); lia).
    apply in_bounds_cons. split.
    + apply Nat.Div0.div_lt_upper_bound. lia.
    + apply IH. apply Nat.mod_upper_bound. lia.
Qed.

Lemma ravel_unravel sh : forall k,
  k < numel sh -> ravel sh (unravel sh k) = k.
Proof.
  induction sh as [|d sh IH]; intros k Hk; simpl in *.
  - lia.
  - assert (Hpos : 0 < numel sh) by (destruct (numel sh); lia).
    rewrite IH by (apply Nat.mod_upper_bound; lia).
    rewrite (Nat.div_mod_eq k (numel sh)) at 3. lia.
Qed.

(** ** Elements of a tensor *)

Lemma get_in_bounds {A} (t : tensor A) idx :
  in_bounds (shape t) idx ->
  get t idx = nth_error (flat t) (ravel (shape t) idx).
Proof. unfold get, in_bounds. intros ->. reflexivity. Qed.

Lemma get_out_of_bounds {A} (t : tensor A) idx :
  in_boundsb (shape t) idx = false -> get t idx = None.
Proof. unfold get. intros ->. reflexivity. Qed.

Lemma get_Some {A} (t : tensor A) idx :
  wf t -> in_bounds (shape t) idx -> exists a, get t idx = Some a.
Proof.
  intros Hwf Hb. rewrite get_in_bounds by assumption.
  destruct (nth_error (flat t) (ravel (shape t) idx)) eqn:E; eauto.
  apply nth_error_None in E. pose proof (ravel_lt _ _ Hb). red in Hwf. lia.
Qed.

(** Two well-formed tensors of one shape with the same elements are equal. *)
Lemma tensor_ext {A} (t u : tensor A) :
  wf t -> wf u -> shape t = shape u ->
  (forall idx, in_bounds (shape t) idx -> get t idx = get u idx) ->
  t = u.
Proof.
  destruct t as [sh l], u as [sh' l']; unfold wf; simpl.
  intros Hl Hl' <- H. f_equal.
  apply nth_error_ext. intros k.
  destruct (Nat.lt_ge_cases k (numel sh)) as [Hk|Hk].
  - specialize (H (unravel sh k) (unravel_in_bounds _ _ Hk)).
    rewrite !get_in_bounds in H by (simpl; apply unravel_in_bounds, Hk).
    simpl in H. rewrite ravel_unravel in H by assumption. exact H.
  - transitivity (@None A); [|symmetry]; apply nth_error_None; lia.
Qed.

Lemma wf_gather {A} sh' src (t : tensor A) :
  (numel (shape t) = 0 -> numel sh' = 0) -> wf t -> wf (gather sh' src t).
Proof.
  unfold wf, gather; simpl. intros H0 Hwf.
  destruct (flat t) as [|d l] eqn:E.
  - simpl in *. symmetry. apply H0. lia.
  - rewrite length_map, length_seq. reflexivity.
Qed.

Lemma shape_gather {A} sh' src (t : tensor A) : shape (gather sh' src t) = sh'.
Proof. reflexivity. Qed.

Lemma get_gather {A} sh' src (t : tensor A) idx :
  wf t -> in_bounds sh' idx -> in_bounds (shape t) (src idx) ->
  get (gather sh' src t) idx = get t (src idx).
Proof.
  intros Hwf Hb Hs.
  rewrite !get_in_bounds by assumption.
  pose proof (ravel_lt _ _ Hb) as Hk. pose proof (ravel_lt _ _ Hs) as Hk'.
  unfold gather; simpl. red in Hwf.
  destruct (flat t) as [|d l] eqn:E; [simpl in Hwf; lia|].
  rewrite nth_error_map, nth_error_seq.
  apply Nat.ltb_lt in Hk. rewrite Hk. cbn [option_map Nat.add].
  rewrite unravel_ravel by assumption.
  symmetry. apply nth_error_nth'. lia.
Qed.

Lemma wf_tmap {A B} (f : A -> B) (t : tensor A) : wf t -> wf (tmap f t).
Proof. unfold wf, tmap; simpl. now rewrite length_map. Qed.

Lemma get_tmap {A B} (f : A -> B) (t : tensor A) idx :
  get (tmap f t) idx = option_map f (get t idx).
Proof.
  unfold get, tmap; simpl. destruct (in_boundsb (shape t) idx); [|reflexivity].
  apply nth_error_map.
Qed.

(** ** Slices *)

Lemma slice_index_le d i dflt : dflt <= d -> slice_index d i dflt <= d.
Proof.
  intros H. destruct i as [z|]; simpl; [|assumption].
  destruct (Z.ltb_spec z 0); lia.
Qed.

Lemma slice_index_stop_nonneg d z :
  (0 <= z <= Z.of_nat d)%Z -> slice_index d (Some z) d = Z.to_nat z.
Proof.
  intros H. simpl. destruct (Z.ltb_spec z 0); lia.
Qed.

Lemma slice_index_stop_neg d z :
  (0 < z <= Z.of_nat d)%Z -> slice_index d (Some (- z)%Z) d = d - Z.to_nat z.
Proof.
  intros H. simpl. destruct (Z.ltb_spec (- z) 0); lia.
Qed.

Lemma in_bounds_upd sh : forall ax idx d lo m,
  nth_error sh ax = Some d -> lo + m <= d ->
  in_bounds (upd ax (fun _ => m) sh) idx ->
  in_bounds sh (upd ax (fun i => i + lo) idx).
Proof.
  induction sh as [|d0 sh IH]; intros [|ax] [|i idx] d lo m Hn Hle Hb;
    simpl in *; try discriminate.
  - injection Hn as ->. apply in_bounds_cons in Hb. apply in_bounds_cons.
    split; [lia | apply Hb].
  - apply in_bounds_cons in Hb. apply in_bounds_cons.
    split; [apply Hb | eapply IH; [eassumption.. | apply Hb]].
Qed.

Lemma numel_upd_le sh : forall ax d m,
  nth_error sh ax = Some d -> m <= d ->
  numel (upd ax (fun _ => m) sh) <= numel sh.
Proof.
  induction sh as [|d0 sh IH]; intros [|ax] d m Hn Hle; simpl in *;
    try discriminate.
  - injection Hn as ->. nia.
  - specialize (IH _ _ _ Hn Hle). nia.
Qed.

(** The slice of [t] on axis [ax]: shape and elements. *)
Lemma slice_axis_spec {A} (ax : nat) (start stop : option Z) (t : tensor A) d :
  nth_error (shape t) ax = Some d -> wf t ->
  let lo := slice_index d start 0 in
  let hi := slice_index d stop d in
  exists t',
    slice_axis ax start stop t = Ok t' /\ wf t' /\
    shape t' = upd ax (fun _ => hi - lo) (shape t) /\
    forall idx, in_bounds (shape t') idx ->
                get t' idx = get t (upd ax (fun i => i + lo) idx).
Proof.
  intros Hn Hwf lo hi. unfold slice_axis. rewrite Hn. fold lo hi.
  assert (Hhi : hi <= d) by (apply slice_index_le; lia).
  assert (Hlo : lo <= d) by (apply slice_index_le; lia).
  eexists. split; [reflexivity|]. split; [|split].
  - apply wf_gather; [|assumption]. intros H0.
    pose proof (numel_upd_le (shape t) ax d (hi - lo) Hn). lia.
  - reflexivity.
  - intros idx Hb. rewrite shape_gather in Hb. apply get_gather; trivial.
    eapply in_bounds_upd; [eassumption | | eassumption]. lia.
Qed.

(** The shape alone needs no well-formedness. *)
Lemma slice_axis_shape {A} (ax : nat) (start stop : option Z) (t : tensor A) d :
  nth_error (shape t) ax = Some d ->
  exists t',
    slice_axis ax start stop t = Ok t' /\
    shape t' = upd ax (fun _ => slice_index d stop d - slice_index d start 0)
                   (shape t).
Proof.
  intros Hn. unfold slice_axis. rewrite Hn. eexists. split; reflexivity.
Qed.

(** ** Reshape *)

Lemma filter_known_of_nat (sh : list nat) :
  filter (fun z => negb (z =? -1)%Z) (map Z.of_nat sh) = map Z.of_nat sh.
Proof.
  induction sh as [|d sh IH]; simpl; [reflexivity|].
  destruct (Z.eqb_spec (Z.of_nat d) (-1)) as [E|E]; [lia|]. simpl. now rewrite IH.
Qed.

Lemma filter_unknown_of_nat (sh : list nat) :
  filter (fun z => (z =? -1)%Z) (map Z.of_nat sh) = [].
Proof.
  induction sh as [|d sh IH]; simpl; [reflexivity|].
  destruct (Z.eqb_spec (Z.of_nat d) (-1)) as [E|E]; [lia|]. assumption.
Qed.

Lemma existsb_negative_of_nat (sh : list nat) :
  existsb (fun z => (z <? -1)%Z) (map Z.of_nat sh) = false.
Proof.
  induction sh as [|d sh IH]; simpl; [reflexivity|].
  destruct (Z.ltb_spec (Z.of_nat d) (-1)) as [E|E]; [lia|]. assumption.
Qed.

Lemma map_to_nat_of_nat (sh : list nat) : map Z.to_nat (map Z.of_nat sh) = sh.
Proof.
  induction sh as [|d sh IH]; simpl; [reflexivity|].
  now rewrite Nat2Z.id, IH.
Qed.

Lemma numel_app sh1 sh2 : numel (sh1 ++ sh2) = numel sh1 * numel sh2.
Proof. induction sh1 as [|d sh1 IH]; simpl; [lia|]. rewrite IH. lia. Qed.

(** A reshape with every dimension given. *)
Lemma infer_shape_known n (sh : list nat) :
  infer_shape n (map Z.of_nat sh)
  = if n =? numel sh then Ok sh else Raise RuntimeError.
Proof.
  unfold infer_shape, known_size.
  rewrite existsb_negative_of_nat, filter_unknown_of_nat, filter_known_of_nat.
  simpl. rewrite !map_to_nat_of_nat. reflexivity.
Qed.

(** A reshape with one inferred dimension. *)
Lemma infer_shape_unknown n (pre post : list nat) :
  infer_shape n (map Z.of_nat pre ++ (-1)%Z :: map Z.of_nat post)
  = let known := numel (pre ++ post) in
    if (0 <? known) && (n mod known =? 0)
    then Ok (pre ++ n / known :: post) else Raise RuntimeError.
Proof.
  unfold infer_shape, known_size.
  rewrite existsb_app, existsb_negative_of_nat. simpl.
  rewrite existsb_negative_of_nat.
  rewrite !filter_app. simpl.
  rewrite !filter_unknown_of_nat, !filter_known_of_nat. simpl.
  rewrite <- map_app, map_to_nat_of_nat.
  destruct ((0 <? numel (pre ++ post)) && (n mod numel (pre ++ post) =? 0));
    [|reflexivity].
  f_equal. rewrite map_app. simpl.
  generalize (n / numel (pre ++ post)). intros q. f_equal; [|f_equal].
  - clear. induction pre as [|d pre IH]; simpl; [reflexivity|].
    destruct (Z.eqb_spec (Z.of_nat d) (-1)) as [E|E]; [lia|]. now rewrite Nat2Z.id, IH.
  - clear. induction post as [|d post IH]; simpl; [reflexivity|].
    destruct (Z.eqb_spec (Z.of_nat d) (-1)) as [E|E]; [lia|]. now rewrite Nat2Z.id, IH.
Qed.

Lemma reshape_flat {A} dims (t t' : tensor A) :
  reshape dims t = Ok t' -> flat t' = flat t.
Proof.
  unfold reshape. intros H. inv_bind H. injection H as <-. reflexivity.
Qed.

(** Elements of a reshaped tensor are found at the same offset. *)
Lemma get_same_offset {A} (t t' : tensor A) idx idx' :
  flat t' = flat t ->
  in_bounds (shape t) idx -> in_bounds (shape t') idx' ->
  ravel (shape t') idx' = ravel (shape t) idx ->
  get t' idx' = get t idx.
Proof.
  intros Hf Hb Hb' Hr. rewrite !get_in_bounds by assumption.
  now rewrite Hf, Hr.
Qed.

(** ** Permutations of axes *)

Ltac solve_bounds :=
  repeat (apply in_bounds_cons; split; [lia|]); reflexivity.

Ltac split_bounds H :=
  repeat (apply in_bounds_cons in H;
          let Hi := fresh "Hi" in destruct H as [Hi H]).

Lemma permute_0213 {A} (t : tensor A) a b c d :
  shape t = [a; b; c; d] -> wf t ->
  exists t',
    permute [0; 2; 1; 3] t = Ok t' /\ wf t' /\ shape t' = [a; c; b; d] /\
    forall i j k l, i < a -> j < c -> k < b -> l < d ->
      get t' [i; j; k; l] = get t [i; k; j; l].
Proof.
  intros Hsh Hwf. unfold permute. rewrite Hsh. simpl.
  eexists. split; [reflexivity|]. split; [|split].
  - apply wf_gather; [|assumption]. rewrite Hsh. simpl. nia.
  - reflexivity.
  - intros i j k l Hi Hj Hk Hl.
    rewrite get_gather; trivial; [solve_bounds|].
    rewrite Hsh. simpl. solve_bounds.
Qed.

Lemma permute_102 {A} (t : tensor A) a b c :
  shape t = [a; b; c] -> wf t ->
  exists t',
    permute [1; 0; 2] t = Ok t' /\ wf t' /\ shape t' = [b; a; c] /\
    forall i j k, i < b -> j < a -> k < c ->
      get t' [i; j; k] = get t [j; i; k].
Proof.
  intros Hsh Hwf. unfold permute. rewrite Hsh. simpl.
  eexists. split; [reflexivity|]. split; [|split].
  - apply wf_gather; [|assumption]. rewrite Hsh. simpl. nia.
  - reflexivity.
  - intros i j k Hi Hj Hk.
    rewrite get_gather; trivial; [solve_bounds|].
    rewrite Hsh. simpl. solve_bounds.
Qed.

(** ** Broadcasting *)

Lemma expand_shape_same (sh : list nat) :
  expand_shape (map Z.of_nat sh) sh = Ok sh.
Proof.
  induction sh as [|d sh IH]; simpl; [reflexivity|].
  rewrite IH. simpl.
  destruct (Z.eqb_spec (Z.of_nat d) (-1)); [lia|].
  now rewrite Z.eqb_refl.
Qed.

Lemma expand_src_id sh : forall idx,
  in_bounds sh idx -> expand_src sh idx = idx.
Proof.
  induction sh as [|d sh IH]; intros [|i idx] H; try discriminate; simpl.
  - reflexivity.
  - apply in_bounds_cons in H. destruct H as [Hi H]. rewrite IH by assumption.
    destruct (Nat.eqb_spec d 1); [f_equal; lia | reflexivity].
Qed.

(** [t.expand(n, ...)] of a tensor with a first axis of length one. *)
Lemma expand_leading {A} (t : tensor A) (n : nat) (sh : list nat) :
  shape t = 1 :: sh -> wf t ->
  exists t',
    expand (Z.of_nat n :: map Z.of_nat sh) t = Ok t' /\ wf t' /\
    shape t' = n :: sh /\
    forall s idx, s < n -> in_bounds sh idx ->
      get t' (s :: idx) = get t (0 :: idx).
Proof.
  intros Hsh Hwf. unfold expand. rewrite Hsh. simpl.
  rewrite expand_shape_same. simpl.
  assert (Hhead :
    (if (Z.of_nat n =? -1)%Z then Ok (1 :: sh)
     else if (Z.of_nat n =? 1)%Z then Ok (1 :: sh)
     else if (0 <=? Z.of_nat n)%Z then Ok (Z.to_nat (Z.of_nat n) :: sh)
     else Raise RuntimeError) = Ok (n :: sh)).
  { destruct (Z.eqb_spec (Z.of_nat n) (-1)); [lia|].
    destruct (Z.eqb_spec (Z.of_nat n) 1) as [E|E].
    - do 2 f_equal. lia.
    - destruct (Z.leb_spec 0 (Z.of_nat n)); [|lia]. now rewrite Nat2Z.id. }
  rewrite Hhead. simpl.
  eexists. split; [reflexivity|]. split; [|split].
  - apply wf_gather; [|assumption]. rewrite Hsh. simpl. nia.
  - reflexivity.
  - intros s idx Hs Hb.
    rewrite get_gather; trivial.
    + simpl. now rewrite expand_src_id.
    + apply in_bounds_cons; auto.
    + rewrite Hsh. simpl. rewrite expand_src_id by assumption.
      apply in_bounds_cons; split; [lia | assumption].
Qed.

(** ** Items of the first axis *)

Lemma select0_spec {A} (t : tensor A) (d : nat) (sh : list nat) (i : nat) :
  shape t = d :: sh -> wf t -> i < d ->
  exists t',
    select0 (Z.of_nat i) t = Ok t' /\ wf t' /\ shape t' = sh /\
    forall idx, in_bounds sh idx -> get t' idx = get t (i :: idx).
Proof.
  intros Hsh Hwf Hi. unfold select0. rewrite Hsh.
  destruct (Z.ltb_spec (Z.of_nat i) 0); [lia|].
  destruct (Z.leb_spec 0 (Z.of_nat i)); [|lia].
  destruct (Z.ltb_spec (Z.of_nat i) (Z.of_nat d)); [|lia]. simpl.
  rewrite Nat2Z.id.
  red in Hwf. rewrite Hsh in Hwf. simpl in Hwf.
  eexists. split; [reflexivity|]. split; [|split].
  - red. simpl. rewrite length_firstn, length_skipn. nia.
  - reflexivity.
  - intros idx Hb. pose proof (ravel_lt _ _ Hb) as Hr.
    rewrite !get_in_bounds; simpl; trivial.
    + rewrite Hsh. simpl.
      rewrite nth_error_firstn.
      destruct (Nat.ltb_spec (ravel sh idx) (numel sh)); [|lia].
      now rewrite nth_error_skipn.
    + rewrite Hsh. apply in_bounds_cons; auto.
Qed.

(** A valid position of [select0], negative positions included. *)
Lemma select0_inv {A} (t t' : tensor A) (i : Z) (d : nat) (sh : list nat) :
  shape t = d :: sh -> select0 i t = Ok t' ->
  exists j, j < d /\ select0 i t = select0 (Z.of_nat j) t.
Proof.
  intros Hsh H. unfold select0 in *. rewrite Hsh in *.
  set (j := if (i <? 0)%Z then (i + Z.of_nat d)%Z else i) in *.
  destruct (Z.leb_spec 0 j); [|discriminate].
  destruct (Z.ltb_spec j (Z.of_nat d)); [|discriminate]. simpl in *.
  exists (Z.to_nat j). split; [lia|].
  destruct (Z.ltb_spec (Z.of_nat (Z.to_nat j)) 0); [lia|].
  destruct (Z.leb_spec 0 (Z.of_nat (Z.to_nat j))); [|lia].
  destruct (Z.ltb_spec (Z.of_nat (Z.to_nat j)) (Z.of_nat d)); [|lia]. simpl.
  now rewrite Nat2Z.id.
Qed.

(** The item of a vector is one of its elements. *)
Lemma select0_vector {A} (t s : tensor A) (i : Z) (n : nat) :
  shape t = [n] -> wf t -> select0 i t = Ok s ->
  exists v, s = Tensor [] [v] /\ In v (flat t).
Proof.
  intros Hsh Hwf H.
  destruct (select0_inv t s i n [] Hsh H) as (j & Hj & E).
  rewrite E in H. clear E.
  unfold select0 in H. rewrite Hsh in H.
  destruct (Z.ltb_spec (Z.of_nat j) 0); [lia|].
  destruct (Z.leb_spec 0 (Z.of_nat j)); [|lia].
  destruct (Z.ltb_spec (Z.of_nat j) (Z.of_nat n)); [|lia]. simpl in H.
  injection H as <-. rewrite Nat2Z.id, Nat.mul_1_r.
  red in Hwf. rewrite Hsh in Hwf. simpl in Hwf.
  destruct (nth_error (flat t) j) as [v|] eqn:Ev.
  - exists v. split; [|eapply nth_error_In; eassumption].
    f_equal. apply nth_error_split in Ev.
    destruct Ev as (l1 & l2 & Hl & Hlen). rewrite Hl.
    rewrite <- Hlen, skipn_app, skipn_all, Nat.sub_diag. reflexivity.
  - apply nth_error_None in Ev. lia.
Qed.

(** ** Concatenation on the first axis *)

Lemma cat0_shape {A} (ts : list (tensor A)) (t : tensor A) :
  cat0 ts = Ok t ->
  exists sh,
    shape t = list_sum (map (fun u => hd 0 (shape u)) ts) :: sh /\
    flat t = concat (map (@flat A) ts) /\
    Forall (fun u => exists d, shape u = d :: sh) ts.
Proof.
  unfold cat0. destruct ts as [|t0 ts]; [discriminate|].
  destruct (shape t0) as [|d0 sh] eqn:E0; [discriminate|].
  destruct (forallb _ _) eqn:Hall; [|discriminate].
  intros H. injection H as <-. exists sh. simpl.
  split; [reflexivity|]. split; [reflexivity|].
  rewrite forallb_forall in Hall. apply Forall_forall. intros u Hu.
  specialize (Hall u Hu). apply andb_true_iff in Hall. destruct Hall as [H1 H2].
  unfold list_eqb in *.
  destruct (list_eq_dec Nat.eq_dec (tl (shape u)) sh) as [e|]; [|discriminate].
  destruct (shape u) as [|d sh']; [discriminate|]. simpl in e. subst. eauto.
Qed.

Lemma wf_cat0 {A} (ts : list (tensor A)) (t : tensor A) :
  cat0 ts = Ok t -> Forall wf ts -> wf t.
Proof.
  intros H Hwf. destruct (cat0_shape ts t H) as (sh & Hsh & Hfl & Hall).
  red. rewrite Hsh, Hfl. simpl. clear H Hsh Hfl.
  induction ts as [|u ts IH]; simpl; [reflexivity|].
  inversion Hwf; subst. inversion Hall; subst.
  rewrite length_app, IH by assumption.
  destruct H3 as (d & Hd). red in H1. rewrite H1, Hd. simpl. lia.
Qed.

(** ** Arithmetic of window counts *)

Lemma trim_len_nat (L W : nat) :
  0 < W ->
  Z.to_nat (Z.of_nat L - Z.of_nat L mod Z.of_nat W) = L / W * W.
Proof.
  intros HW. rewrite <- Nat2Z.inj_mod.
  pose proof (Nat.div_mod_eq L W). pose proof (Nat.mod_upper_bound L W).
  lia.
Qed.

Lemma trim_len_bounds (L W : nat) :
  0 < W ->
  (0 <= Z.of_nat L - Z.of_nat L mod Z.of_nat W <= Z.of_nat L)%Z.
Proof.
  intros HW. pose proof (Z.mod_pos_bound (Z.of_nat L) (Z.of_nat W)).
  pose proof (Z.mod_le (Z.of_nat L) (Z.of_nat W)). lia.
Qed.

Lemma div_mul_cancel_windows (K n : nat) :
  0 < K -> (n * K) mod K = 0 /\ n * K / K = n.
Proof.
  intros HK. split; [apply Nat.Div0.mod_mul | apply Nat.div_mul; lia].
Qed.

(** ** Windows of a time axis

    The first [n * W] samples of the last axis, reshaped into [n] windows
    of length [W]: sample [k] of window [j] is sample [j * W + k]. *)

Lemma windows_3d {A} (X : tensor A) (S C L W : nat) :
  shape X = [S; C; L] -> wf X -> 0 < S -> 0 < C -> 0 < W ->
  let n := L / W in
  exists X1 X2,
    slice_axis 2 None
      (Some (Z.of_nat L - Z.of_nat L mod Z.of_nat W)%Z) X = Ok X1 /\
    shape X1 = [S; C; n * W] /\
    reshape [Z.of_nat S; Z.of_nat C; (-1)%Z; Z.of_nat W] X1 = Ok X2 /\
    wf X2 /\ shape X2 = [S; C; n; W] /\
    forall s c j k, s < S -> c < C -> j < n -> k < W ->
      get X2 [s; c; j; k] = get X [s; c; j * W + k].
Proof.
  intros Hsh Hwf HS HC HW n.
  destruct (slice_axis_spec 2 None
              (Some (Z.of_nat L - Z.of_nat L mod Z.of_nat W)%Z) X L)
    as (X1 & E1 & Hwf1 & Hsh1 & Hget1); [now rewrite Hsh | assumption |].
  rewrite slice_index_stop_nonneg in Hsh1 by (apply trim_len_bounds, HW).
  rewrite trim_len_nat in Hsh1 by assumption.
  fold n in Hsh1. rewrite Hsh in Hsh1. simpl in Hsh1, Hget1.
  rewrite Nat.sub_0_r in Hsh1.
  assert (Hnum : numel (shape X1) = n * numel [S; C; W]).
  { rewrite Hsh1. simpl. nia. }
  assert (HK : 0 < numel [S; C; W]) by (simpl; nia).
  destruct (div_mul_cancel_windows _ n HK) as [Hmod Hdiv].
  exists X1, (Tensor [S; C; n; W] (flat X1)).
  split; [assumption|]. split; [assumption|]. split; [|split; [|split]].
  - unfold reshape.
    change [Z.of_nat S; Z.of_nat C; (-1)%Z; Z.of_nat W]
      with (map Z.of_nat [S; C] ++ (-1)%Z :: map Z.of_nat [W]).
    rewrite infer_shape_unknown. cbv zeta.
    change ([S; C] ++ [W]) with [S; C; W].
    rewrite Hnum, Hmod, Hdiv.
    destruct (Nat.ltb_spec 0 (numel [S; C; W])); [|lia]. reflexivity.
  - red. simpl. red in Hwf1. rewrite Hwf1, Hsh1. simpl. nia.
  - reflexivity.
  - intros s c j k Hs Hc Hj Hk.
    assert (Hjk : j * W + k < n * W) by nia.
    transitivity (get X1 [s; c; j * W + k]).
    + apply get_same_offset; [reflexivity | | |].
      * rewrite Hsh1. solve_bounds.
      * simpl. solve_bounds.
      * rewrite Hsh1. simpl. nia.
    + rewrite Hget1 by (rewrite Hsh1; solve_bounds).
      simpl. now rewrite Nat.add_0_r.
Qed.

Lemma windows_2d {A} (Y : tensor A) (E L W : nat) :
  shape Y = [E; L] -> wf Y -> 0 < E -> 0 < W ->
  let n := L / W in
  exists Y1 Y2,
    slice_axis 1 None
      (Some (Z.of_nat L - Z.of_nat L mod Z.of_nat W)%Z) Y = Ok Y1 /\
    shape Y1 = [E; n * W] /\
    reshape [Z.of_nat E; (-1)%Z; Z.of_nat W] Y1 = Ok Y2 /\
    wf Y2 /\ shape Y2 = [E; n; W] /\
    forall e j k, e < E -> j < n -> k < W ->
      get Y2 [e; j; k] = get Y [e; j * W + k].
Proof.
  intros Hsh Hwf HE HW n.
  destruct (slice_axis_spec 1 None
              (Some (Z.of_nat L - Z.of_nat L mod Z.of_nat W)%Z) Y L)
    as (Y1 & E1 & Hwf1 & Hsh1 & Hget1); [now rewrite Hsh | assumption |].
  rewrite slice_index_stop_nonneg in Hsh1 by (apply trim_len_bounds, HW).
  rewrite trim_len_nat in Hsh1 by assumption.
  fold n in Hsh1. rewrite Hsh in Hsh1. simpl in Hsh1, Hget1.
  rewrite Nat.sub_0_r in Hsh1.
  assert (Hnum : numel (shape Y1) = n * numel [E; W]).
  { rewrite Hsh1. simpl. nia. }
  assert (HK : 0 < numel [E; W]) by (simpl; nia).
  destruct (div_mul_cancel_windows _ n HK) as [Hmod Hdiv].
  exists Y1, (Tensor [E; n; W] (flat Y1)).
  split; [assumption|]. split; [assumption|]. split; [|split; [|split]].
  - unfold reshape.
    change [Z.of_nat E; (-1)%Z; Z.of_nat W]
      with (map Z.of_nat [E] ++ (-1)%Z :: map Z.of_nat [W]).
    rewrite infer_shape_unknown. cbv zeta.
    change ([E] ++ [W]) with [E; W].
    rewrite Hnum, Hmod, Hdiv.
    destruct (Nat.ltb_spec 0 (numel [E; W])); [|lia]. reflexivity.
  - red. simpl. red in Hwf1. rewrite Hwf1, Hsh1. simpl. nia.
  - reflexivity.
  - intros e j k He Hj Hk.
    assert (Hjk : j * W + k < n * W) by nia.
    transitivity (get Y1 [e; j * W + k]).
    + apply get_same_offset; [reflexivity | | |].
      * rewrite Hsh1. solve_bounds.
      * simpl. solve_bounds.
      * rewrite Hsh1. simpl. nia.
    + rewrite Hget1 by (rewrite Hsh1; solve_bounds).
      simpl. now rewrite Nat.add_0_r.
Qed.

(** Subjects and windows merged into one leading axis. *)
Lemma merge_leading {A} (X : tensor A) (S n C W : nat) :
  shape X = [S; n; C; W] -> wf X -> 0 < C -> 0 < W ->
  exists X',
    reshape [(-1)%Z; Z.of_nat C; Z.of_nat W] X = Ok X' /\
    wf X' /\ shape X' = [S * n; C; W] /\
    forall s j c k, s < S -> j < n -> c < C -> k < W ->
      get X' [s * n + j; c; k] = get X [s; j; c; k].
Proof.
  intros Hsh Hwf HC HW.
  assert (Hnum : numel (shape X) = (S * n) * numel [C; W]).
  { rewrite Hsh. simpl. nia. }
  assert (HK : 0 < numel [C; W]) by (simpl; nia).
  destruct (div_mul_cancel_windows _ (S * n) HK) as [Hmod Hdiv].
  exists (Tensor [S * n; C; W] (flat X)).
  split; [|split; [|split]].
  - unfold reshape.
    change [(-1)%Z; Z.of_nat C; Z.of_nat W]
      with (map Z.of_nat [] ++ (-1)%Z :: map Z.of_nat [C; W]).
    rewrite infer_shape_unknown. cbv zeta.
    change ([] ++ [C; W]) with [C; W].
    rewrite Hnum, Hmod, Hdiv.
    destruct (Nat.ltb_spec 0 (numel [C; W])); [|lia]. reflexivity.
  - red. simpl. red in Hwf. rewrite Hwf, Hsh. simpl. nia.
  - reflexivity.
  - intros s j c k Hs Hj Hc Hk.
    apply get_same_offset; [reflexivity | | |].
    + rewrite Hsh. solve_bounds.
    + simpl. apply in_bounds_cons. split; [nia | solve_bounds].
    + rewrite Hsh. simpl. nia.
Qed.

(** [arange(S).unsqueeze(1).expand(-1, n).flatten()]: window [j] of
    subject [s] carries [s]. *)
Lemma subject_index_vector (S n : nat) :
  exists u e,
    unsqueeze 1 (arange (Z.of_nat S)) = Ok u /\
    expand [(-1)%Z; Z.of_nat n] u = Ok e /\
    wf (flatten e) /\ shape (flatten e) = [S * n] /\
    forall s j, s < S -> j < n ->
      get (flatten e) [s * n + j] = Some (Z.of_nat s).
Proof.
  unfold arange. rewrite Nat2Z.id.
  set (a := Tensor [S] (map Z.of_nat (seq 0 S))).
  set (u := Tensor [S; 1] (flat a)).
  assert (Hwfu : wf u).
  { red. simpl. rewrite length_map, length_seq. lia. }
  assert (Hgetu : forall s, s < S -> get u [s; 0] = Some (Z.of_nat s)).
  { intros s Hs. rewrite get_in_bounds by (simpl; solve_bounds).
    simpl. replace (s * 1 + 0) with s by lia.
    rewrite nth_error_map, nth_error_seq.
    destruct (Nat.ltb_spec s S); [reflexivity | lia]. }
  assert (Hex : expand_shape [(-1)%Z; Z.of_nat n] [S; 1] = Ok [S; n]).
  { simpl.
    destruct (Z.eqb_spec (Z.of_nat n) (-1)); [lia|].
    destruct (Z.eqb_spec (Z.of_nat n) 1) as [E|E]; simpl.
    - do 3 f_equal. lia.
    - destruct (Z.leb_spec 0 (Z.of_nat n)); [|lia]. simpl.
      now rewrite Nat2Z.id. }
  set (e := gather [S; n] (expand_src [S; 1]) u).
  assert (Hwfe : wf e).
  { apply wf_gather; [simpl; nia | assumption]. }
  exists u, e. split; [reflexivity|]. split; [|split; [|split]].
  - unfold expand. change (shape u) with [S; 1]. rewrite Hex. reflexivity.
  - unfold wf in *. unfold flatten. cbn [flat shape].
    rewrite Hwfe. change (shape e) with [S; n]. simpl. lia.
  - unfold flatten. cbn [shape]. change (shape e) with [S; n].
    simpl. f_equal. lia.
  - intros s j Hs Hj.
    transitivity (get e [s; j]).
    + apply get_same_offset; [reflexivity | | |].
      * simpl. solve_bounds.
      * simpl. apply in_bounds_cons. split; [nia | reflexivity].
      * simpl. nia.
    + unfold e. rewrite get_gather; trivial.
      * simpl. destruct (Nat.eqb_spec S 1) as [E1|E1].
        -- replace s with 0 in * by lia. apply Hgetu. lia.
        -- apply Hgetu. assumption.
      * solve_bounds.
      * simpl. destruct (Nat.eqb_spec S 1); solve_bounds.
Qed.

(** * [Brennan2018Dataset.batchfy] *)

Lemma shape_at_eq {A} (t : tensor A) k d :
  nth_error (shape t) k = Some d -> shape_at t k = Ok (Z.of_nat d).
Proof. unfold shape_at. now intros ->. Qed.

Lemma shape_last_eq {A} (t : tensor A) sh d :
  shape t = sh ++ [d] -> shape_last t = Ok (Z.of_nat d).
Proof. unfold shape_last. intros ->. now rewrite rev_unit. Qed.

Lemma shape_from_end_eq {A} (t : tensor A) k d :
  nth_error (rev (shape t)) (k - 1) = Some d ->
  shape_from_end t k = Ok (Z.of_nat d).
Proof. unfold shape_from_end. now intros ->. Qed.

Ltac step E := rewrite E; cbn [bind]; cbv zeta.

(** The windows of [batchfy]: [S * (L / W)] items; window [j] of subject
    [s] holds samples [j * W .. j * W + W - 1] of that subject's channels,
    paired with the same samples of the audio and with the index [s]. *)
Lemma Brennan_batchfy_spec {A B} (X : tensor A) (Y : tensor B)
    (S C E L W : nat) :
  shape X = [S; C; L] -> shape Y = [E; L] -> wf X -> wf Y ->
  0 < S -> 0 < C -> 0 < E -> 0 < W ->
  let n := L / W in
  exists ds,
    Brennan2018Dataset.batchfy X Y (Z.of_nat W) = Ok ds /\
    (wf (ds_X ds) /\ wf (ds_Y ds) /\ wf (ds_subject_idxs ds)) /\
    (shape (ds_X ds) = [S * n; C; W] /\
     shape (ds_Y ds) = [S * n; E; W] /\
     shape (ds_subject_idxs ds) = [S * n]) /\
    (forall s j c k, s < S -> j < n -> c < C -> k < W ->
       get (ds_X ds) [s * n + j; c; k] = get X [s; c; j * W + k]) /\
    (forall s j e k, s < S -> j < n -> e < E -> k < W ->
       get (ds_Y ds) [s * n + j; e; k] = get Y [e; j * W + k]) /\
    (forall s j, s < S -> j < n ->
       get (ds_subject_idxs ds) [s * n + j] = Some (Z.of_nat s)).
Proof.
  intros HX HY HwfX HwfY HS HC HE HW n.
  destruct (windows_3d X S C L W HX HwfX HS HC HW)
    as (X1 & X2 & EX1 & HshX1 & EX2 & HwfX2 & HshX2 & HgetX2).
  destruct (windows_2d Y E L W HY HwfY HE HW)
    as (Y1 & Y2 & EY1 & HshY1 & EY2 & HwfY2 & HshY2 & HgetY2).
  fold n in HshX1, HshX2, HgetX2, HshY1, HshY2, HgetY2.
  set (Y3 := Tensor [1; E; n; W] (flat Y2)).
  assert (HwfY3 : wf Y3).
  { red. simpl. red in HwfY2. rewrite HwfY2, HshY2. simpl. lia. }
  destruct (expand_leading Y3 S [E; n; W] eq_refl HwfY3)
    as (Y4 & EY4 & HwfY4 & HshY4 & HgetY4).
  destruct (permute_0213 X2 S C n W HshX2 HwfX2)
    as (X3 & EX3 & HwfX3 & HshX3 & HgetX3).
  destruct (permute_0213 Y4 S E n W HshY4 HwfY4)
    as (Y5 & EY5 & HwfY5 & HshY5 & HgetY5).
  destruct (subject_index_vector S n)
    as (u & e & Eu & Ee & Hwfe & Hshe & Hgete).
  destruct (merge_leading X3 S n C W HshX3 HwfX3 HC HW)
    as (X4 & EX4 & HwfX4 & HshX4 & HgetX4).
  destruct (merge_leading Y5 S n E W HshY5 HwfY5 HE HW)
    as (Y6 & EY6 & HwfY6 & HshY6 & HgetY6).
  exists (Dataset X4 Y6 (flatten e)).
  split; [|split; [|split; [|split; [|split]]]].
  - unfold Brennan2018Dataset.batchfy.
    step (shape_last_eq X [S; C] L HX). step (shape_last_eq Y [E] L HY).
    rewrite Z.eqb_refl. cbn [py_assert bind].
    unfold py_mod. destruct (Z.eqb_spec (Z.of_nat W) 0); [lia|]. cbn [bind].
    step EX1. step EY1.
    rewrite (shape_at_eq X1 0 S), (shape_at_eq X1 1 C) by now rewrite HshX1.
    cbn [bind]. step EX2.
    rewrite (shape_at_eq Y1 0 E) by now rewrite HshY1.
    cbn [bind]. step EY2.
    assert (Eun : unsqueeze 0 Y2 = Ok Y3).
    { unfold unsqueeze. rewrite HshY2. reflexivity. }
    step Eun.
    rewrite (shape_at_eq X2 0 S) by now rewrite HshX2.
    cbn [bind]. rewrite HshY2.
    change (map Z.of_nat [E; n; W]) with (map Z.of_nat [E; n; W]).
    step EY4. step EX3. step EY5.
    rewrite (shape_at_eq X3 0 S), (shape_at_eq X3 1 n) by now rewrite HshX3.
    cbn [bind]. step Eu. step Ee.
    rewrite (shape_from_end_eq X3 2 C), (shape_from_end_eq X3 1 W)
      by now rewrite HshX3.
    cbn [bind]. step EX4.
    rewrite (shape_from_end_eq Y5 2 E), (shape_from_end_eq Y5 1 W)
      by now rewrite HshY5.
    cbn [bind]. step EY6. reflexivity.
  - simpl. auto.
  - simpl. auto.
  - simpl. intros s j c k Hs Hj Hc Hk.
    rewrite HgetX4, HgetX3, HgetX2 by assumption. reflexivity.
  - simpl. intros s j e' k Hs Hj He Hk.
    rewrite HgetY6, HgetY5, HgetY4 by (assumption || solve_bounds).
    transitivity (get Y2 [e'; j; k]); [|now apply HgetY2].
    apply get_same_offset; [reflexivity | | |].
    + rewrite HshY2. solve_bounds.
    + simpl. solve_bounds.
    + rewrite HshY2. simpl. lia.
  - simpl. exact Hgete.
Qed.

(** * [Gwilliams2022Dataset.batchfy] *)

(** What [X[:, :-trim_len]] keeps when [trim_len = L % W]: nothing when
    [W] divides [L], since [-0] is [0]. *)
Lemma neg_trim_stop (L W : nat) :
  0 < W ->
  slice_index L (Some (- (Z.of_nat L mod Z.of_nat W))%Z) L
  = (if L mod W =? 0 then 0 else L / W) * W.
Proof.
  intros HW. rewrite <- Nat2Z.inj_mod.
  pose proof (Nat.div_mod_eq L W). pose proof (Nat.mod_upper_bound L W).
  pose proof (Nat.Div0.mod_le L W).
  destruct (Nat.eqb_spec (L mod W) 0) as [E|E].
  - rewrite E. simpl. lia.
  - rewrite slice_index_stop_neg by lia. rewrite Nat2Z.id. lia.
Qed.

Lemma reshape_windows_2d {A} (X : tensor A) (C n W : nat) :
  shape X = [C; n * W] -> wf X -> 0 < C -> 0 < W ->
  exists X',
    reshape [Z.of_nat C; (-1)%Z; Z.of_nat W] X = Ok X' /\
    wf X' /\ shape X' = [C; n; W] /\
    forall c j k, c < C -> j < n -> k < W ->
      get X' [c; j; k] = get X [c; j * W + k].
Proof.
  intros Hsh Hwf HC HW.
  assert (Hnum : numel (shape X) = n * numel [C; W]).
  { rewrite Hsh. simpl. nia. }
  assert (HK : 0 < numel [C; W]) by (simpl; nia).
  destruct (div_mul_cancel_windows _ n HK) as [Hmod Hdiv].
  exists (Tensor [C; n; W] (flat X)).
  split; [|split; [|split]].
  - unfold reshape.
    change [Z.of_nat C; (-1)%Z; Z.of_nat W]
      with (map Z.of_nat [C] ++ (-1)%Z :: map Z.of_nat [W]).
    rewrite infer_shape_unknown. cbv zeta.
    change ([C] ++ [W]) with [C; W].
    rewrite Hnum, Hmod, Hdiv.
    destruct (Nat.ltb_spec 0 (numel [C; W])); [|lia]. reflexivity.
  - red. simpl. red in Hwf. rewrite Hwf, Hsh. simpl. nia.
  - reflexivity.
  - intros c j k Hc Hj Hk.
    assert (Hjk : j * W + k < n * W) by nia.
    apply get_same_offset; [reflexivity | | |].
    + rewrite Hsh. solve_bounds.
    + simpl. solve_bounds.
    + rewrite Hsh. simpl. nia.
Qed.

(** The brain windows of one recording of [L] samples: [L / W] windows
    when [W] does not divide [L], none when it does. *)
Lemma window_brain_spec {A} (X : tensor A) (C L W : nat) :
  shape X = [C; L] -> wf X -> 0 < C -> 0 < W ->
  let n := if L mod W =? 0 then 0 else L / W in
  exists Xw,
    Gwilliams2022Dataset.window_brain (Z.of_nat W) X = Ok Xw /\
    wf Xw /\ shape Xw = [n; C; W] /\
    forall j c k, j < n -> c < C -> k < W ->
      get Xw [j; c; k] = get X [c; j * W + k].
Proof.
  intros Hsh Hwf HC HW n.
  destruct (slice_axis_spec 1 None
              (Some (- (Z.of_nat L mod Z.of_nat W))%Z) X L)
    as (X1 & E1 & Hwf1 & Hsh1 & Hget1); [now rewrite Hsh | assumption |].
  rewrite neg_trim_stop in Hsh1 by assumption. fold n in Hsh1.
  rewrite Hsh in Hsh1. simpl in Hsh1, Hget1. rewrite Nat.sub_0_r in Hsh1.
  destruct (reshape_windows_2d X1 C n W Hsh1 Hwf1 HC HW)
    as (X2 & E2 & Hwf2 & Hsh2 & Hget2).
  destruct (permute_102 X2 C n W Hsh2 Hwf2)
    as (Xw & E3 & Hwf3 & Hsh3 & Hget3).
  exists Xw. split; [|split; [|split]]; trivial.
  - unfold Gwilliams2022Dataset.window_brain.
    step (shape_last_eq X [C] L Hsh).
    unfold py_mod. destruct (Z.eqb_spec (Z.of_nat W) 0); [lia|]. cbn [bind].
    step E1.
    rewrite (shape_at_eq X1 0 C) by now rewrite Hsh1.
    cbn [bind]. rewrite E2. cbn [as_numpy bind]. rewrite E3. reflexivity.
  - intros j c k Hj Hc Hk.
    rewrite Hget3, Hget2 by assumption.
    assert (Hjk : j * W + k < n * W) by nia.
    rewrite Hget1 by (rewrite Hsh1; solve_bounds).
    simpl. now rewrite Nat.add_0_r.
Qed.

(** The same for the audio of a task with [Ch] channels. *)
Lemma window_audio_spec {B} (Y : tensor B) (Ch L W : nat) :
  shape Y = [Ch; L] -> wf Y -> 0 < W ->
  let n := if L mod W =? 0 then 0 else L / W in
  exists Yw,
    Gwilliams2022Dataset.window_audio (Z.of_nat W) Y = Ok Yw /\
    wf Yw /\ shape Yw = [Ch * n; W] /\
    forall c j k, c < Ch -> j < n -> k < W ->
      get Yw [c * n + j; k] = get Y [c; j * W + k].
Proof.
  intros Hsh Hwf HW n.
  destruct (slice_axis_spec 1 None
              (Some (- (Z.of_nat L mod Z.of_nat W))%Z) Y L)
    as (Y1 & E1 & Hwf1 & Hsh1 & Hget1); [now rewrite Hsh | assumption |].
  rewrite neg_trim_stop in Hsh1 by assumption. fold n in Hsh1.
  rewrite Hsh in Hsh1. simpl in Hsh1, Hget1. rewrite Nat.sub_0_r in Hsh1.
  assert (Hnum : numel (shape Y1) = (Ch * n) * numel [W]).
  { rewrite Hsh1. simpl. nia. }
  assert (HK : 0 < numel [W]) by (simpl; nia).
  destruct (div_mul_cancel_windows _ (Ch * n) HK) as [Hmod Hdiv].
  exists (Tensor [Ch * n; W] (flat Y1)).
  split; [|split; [|split]].
  - unfold Gwilliams2022Dataset.window_audio.
    step (shape_last_eq Y [Ch] L Hsh).
    unfold py_mod. destruct (Z.eqb_spec (Z.of_nat W) 0); [lia|]. cbn [bind].
    step E1. unfold reshape.
    change [(-1)%Z; Z.of_nat W]
      with (map Z.of_nat [] ++ (-1)%Z :: map Z.of_nat [W]).
    rewrite infer_shape_unknown. cbv zeta.
    change ([] ++ [W]) with [W].
    rewrite Hnum, Hmod, Hdiv.
    destruct (Nat.ltb_spec 0 (numel [W])); [|lia]. reflexivity.
  - red. simpl. red in Hwf1. rewrite Hwf1, Hsh1. simpl. nia.
  - reflexivity.
  - intros c j k Hc Hj Hk.
    assert (Hjk : j * W + k < n * W) by nia.
    transitivity (get Y1 [c; j * W + k]).
    + apply get_same_offset; [reflexivity | | |].
      * rewrite Hsh1. solve_bounds.
      * simpl. apply in_bounds_cons. split; [nia | solve_bounds].
      * rewrite Hsh1. simpl. nia.
    + rewrite Hget1 by (rewrite Hsh1; solve_bounds).
      simpl. now rewrite Nat.add_0_r.
Qed.

Lemma shape_at_inv {A} (t : tensor A) k z :
  shape_at t k = Ok z -> exists d, nth_error (shape t) k = Some d /\ z = Z.of_nat d.
Proof.
  unfold shape_at. destruct (nth_error (shape t) k) as [d|]; [|discriminate].
  intros H. injection H as <-. eauto.
Qed.

Lemma py_len_hd {A} (t : tensor A) n :
  py_len t = Ok (Z.of_nat n) -> exists sh, shape t = n :: sh.
Proof.
  unfold py_len. destruct (shape t) as [|d sh]; [discriminate|].
  intros H. injection H as H. apply Nat2Z.inj in H. subst d. eauto.
Qed.

Lemma py_len_shape_at {A} (t : tensor A) z :
  shape_at t 0 = Ok z -> py_len t = Ok z.
Proof.
  unfold shape_at, py_len. destruct (shape t) as [|d sh]; [discriminate|].
  trivial.
Qed.

(** One turn of the loop of [batchfy]: the three items have the same
    number [n] of windows, and the index item holds [n] copies of the
    subject number of the key, reduced to [uint8]. *)
Lemma batchfy_key_inv {A B} (f : A -> A) meg_len audio_len
    (Xs : dict (tensor A)) (Ys : dict (tensor B)) key Xi Yi si :
  Gwilliams2022Dataset.batchfy_key f meg_len audio_len Xs Ys key
  = Ok (Xi, Yi, si) ->
  exists Xk Xw n v,
    dict_get key Xs = Ok Xk /\
    Gwilliams2022Dataset.window_brain meg_len Xk = Ok Xw /\
    Xi = tmap f Xw /\
    py_len Xw = Ok (Z.of_nat n) /\ py_len Yi = Ok (Z.of_nat n) /\
    Gwilliams2022Dataset.subject_of_key key = Ok v /\
    si = Tensor [n] (repeat ((v * 1) mod 256)%Z n).
Proof.
  unfold Gwilliams2022Dataset.batchfy_key. intros H.
  inv_bind H. inv_bind H. inv_bind H. inv_bind H. inv_bind H. inv_bind H.
  inv_bind H. inv_bind H. injection H as <- <- <-.
  destruct (shape_at_inv _ _ _ E3) as (n & Hn & ->).
  destruct (shape_at_inv _ _ _ E4) as (m & Hm & ->).
  unfold py_assert in E5.
  destruct (Z.eqb_spec (Z.of_nat n) (Z.of_nat m)) as [Enm|]; [|discriminate].
  apply Nat2Z.inj in Enm. subst m.
  exists v, v0, n, v6. repeat split; trivial; try now apply py_len_shape_at.
  unfold Gwilliams2022Dataset.scalar_times_ones_uint8.
  now rewrite Nat2Z.id.
Qed.

Lemma Forall2_map_left {A B C} (P : B -> C -> Prop) (f : A -> B) l l' :
  Forall2 (fun a c => P (f a) c) l l' -> Forall2 P (map f l) l'.
Proof. induction 1; simpl; constructor; auto. Qed.

Lemma Forall2_In_right {A B} (R : A -> B -> Prop) l l' :
  Forall2 R l l' -> Forall (fun b => exists a, In a l /\ R a b) l'.
Proof.
  induction 1 as [|a b l l' Hab _ IH]; constructor.
  - exists a. split; [now left | assumption].
  - eapply Forall_impl; [|exact IH]. intros b' (a' & Hin & HR).
    exists a'. split; [now right | assumption].
Qed.

Lemma py_len_cat0 {A} (ts : list (tensor A)) (t : tensor A) (counts : list nat) :
  cat0 ts = Ok t ->
  Forall2 (fun u n => py_len u = Ok (Z.of_nat n)) ts counts ->
  py_len t = Ok (Z.of_nat (list_sum counts)).
Proof.
  intros H Hc. destruct (cat0_shape ts t H) as (sh & Hsh & _ & _).
  unfold py_len. rewrite Hsh. do 2 f_equal. f_equal.
  clear H Hsh. induction Hc as [|u n ts counts Hu _ IH]; simpl; [reflexivity|].
  apply py_len_hd in Hu. destruct Hu as (sh' & ->). simpl. now rewrite IH.
Qed.

(** The flat lengths of the three results of [batchfy] are the sum of the
    window counts of the recordings. *)
Lemma Gwilliams_batchfy_lengths {A B} (f : A -> A) meg_len audio_len
    (Xs : dict (tensor A)) (Ys : dict (tensor B)) (ds : dataset A B) :
  Gwilliams2022Dataset.batchfy f meg_len audio_len Xs Ys = Ok ds ->
  exists counts : list nat,
    Forall2 (fun key n =>
               exists Xk Xw,
                 dict_get key Xs = Ok Xk /\
                 Gwilliams2022Dataset.window_brain meg_len Xk = Ok Xw /\
                 py_len Xw = Ok (Z.of_nat n))
            (dict_keys Xs) counts /\
    py_len (ds_X ds) = Ok (Z.of_nat (list_sum counts)) /\
    py_len (ds_Y ds) = Ok (Z.of_nat (list_sum counts)) /\
    py_len (ds_subject_idxs ds) = Ok (Z.of_nat (list_sum counts)).
Proof.
  unfold Gwilliams2022Dataset.batchfy. intros H.
  inv_bind H. inv_bind H. inv_bind H. inv_bind H. injection H as <-. simpl.
  rename v into items. apply mapM_Forall2 in E.
  assert (Hc : exists counts : list nat,
    Forall2 (fun key n =>
               exists Xk Xw,
                 dict_get key Xs = Ok Xk /\
                 Gwilliams2022Dataset.window_brain meg_len Xk = Ok Xw /\
                 py_len Xw = Ok (Z.of_nat n)) (dict_keys Xs) counts /\
    Forall2 (fun it n =>
               py_len (fst (fst it)) = Ok (Z.of_nat n) /\
               py_len (snd (fst it)) = Ok (Z.of_nat n) /\
               py_len (snd it) = Ok (Z.of_nat n)) items counts).
  { clear E0 E1 E2. induction E as [|key [[Xi Yi] si] keys items Hk _ IH].
    - exists []. split; constructor.
    - destruct IH as (counts & H1 & H2).
      destruct (batchfy_key_inv _ _ _ _ _ _ _ _ _ Hk)
        as (Xk & Xw & n & v & Hget & Hw & -> & HlX & HlY & _ & ->).
      exists (n :: counts). split; constructor; eauto.
      all: simpl; repeat split; trivial. }
  destruct Hc as (counts & H1 & H2). exists counts. split; [assumption|].
  repeat split.
  - apply (py_len_cat0 _ _ _ E0). apply Forall2_map_left.
    eapply Forall2_impl; [|eassumption]. simpl. tauto.
  - apply (py_len_cat0 _ _ _ E1). apply Forall2_map_left.
    eapply Forall2_impl; [|eassumption]. simpl. tauto.
  - apply (py_len_cat0 _ _ _ E2). apply Forall2_map_left.
    eapply Forall2_impl; [|eassumption]. simpl. tauto.
Qed.

(** The subject indices that [batchfy] emits: a vector, each element the
    [uint8] value of the subject number of some key. *)
Lemma Gwilliams_batchfy_subject_idxs {A B} (f : A -> A) meg_len audio_len
    (Xs : dict (tensor A)) (Ys : dict (tensor B)) (ds : dataset A B) :
  Gwilliams2022Dataset.batchfy f meg_len audio_len Xs Ys = Ok ds ->
  wf (ds_subject_idxs ds) /\
  (exists N, shape (ds_subject_idxs ds) = [N]) /\
  forall x, In x (flat (ds_subject_idxs ds)) ->
    exists key v, In key (dict_keys Xs) /\
                  Gwilliams2022Dataset.subject_of_key key = Ok v /\
                  x = ((v * 1) mod 256)%Z.
Proof.
  unfold Gwilliams2022Dataset.batchfy. intros H.
  inv_bind H. inv_bind H. inv_bind H. inv_bind H. injection H as <-. simpl.
  rename v into items. apply mapM_Forall2 in E. clear E0 E1.
  assert (Hitems : Forall (fun it =>
            exists n key v, In key (dict_keys Xs) /\
              Gwilliams2022Dataset.subject_of_key key = Ok v /\
              snd it = Tensor [n] (repeat ((v * 1) mod 256)%Z n)) items).
  { apply Forall2_In_right in E.
    eapply Forall_impl; [|exact E]. intros [[Xi Yi] si] (key & Hin & Hk).
    destruct (batchfy_key_inv _ _ _ _ _ _ _ _ _ Hk)
      as (Xk & Xw & n & v & _ & _ & _ & _ & _ & Hv & ->).
    exists n, key, v. repeat split; trivial. }
  destruct (cat0_shape _ _ E2) as (sh & Hsh & Hfl & Hall).
  assert (Hsh0 : sh = []).
  { destruct items as [|it items]; [discriminate|].
    inversion Hall as [|? ? (d & Hd) _]; subst.
    inversion Hitems as [|? ? (n & key & v & _ & _ & Hs) _]; subst.
    rewrite Hs in Hd. simpl in Hd. now injection Hd. }
  subst sh. split; [|split].
  - apply (wf_cat0 _ _ E2). apply Forall_map.
    eapply Forall_impl; [|eassumption]. intros it (n & key & v & _ & _ & ->).
    red. simpl. rewrite repeat_length. lia.
  - eauto.
  - intros x Hx. rewrite Hfl in Hx. apply in_concat in Hx.
    destruct Hx as (l & Hl & Hx). rewrite map_map in Hl.
    apply in_map_iff in Hl. destruct Hl as (it & <- & Hit).
    rewrite Forall_forall in Hitems.
    destruct (Hitems it Hit) as (n & key & v & Hkey & Hv & Hs).
    rewrite Hs in Hx. simpl in Hx. apply repeat_spec in Hx. eauto.
Qed.

(** ** Keys of recordings *)

Lemma list_ascii_of_string_append (s1 s2 : string) :
  list_ascii_of_string (s1 ++ s2)
  = list_ascii_of_string s1 ++ list_ascii_of_string s2.
Proof. induction s1 as [|c s1 IH]; simpl; [reflexivity | now rewrite IH]. Qed.

Lemma string_append_assoc (s1 s2 s3 : string) :
  ((s1 ++ s2) ++ s3 = s1 ++ (s2 ++ s3))%string.
Proof. induction s1 as [|c s1 IH]; simpl; [reflexivity | now rewrite IH]. Qed.

Lemma split_chars_head (sep : ascii) : forall a cur rest,
  forallb (fun c => negb (Ascii.eqb c sep)) a = true ->
  hd [] (split_chars sep cur (a ++ sep :: rest)) = rev cur ++ a.
Proof.
  induction a as [|c a IH]; intros cur rest Ha; simpl in *.
  - rewrite Ascii.eqb_refl. simpl. now rewrite app_nil_r.
  - apply andb_true_iff in Ha. destruct Ha as [Hc Ha].
    destruct (Ascii.eqb c sep); [discriminate|].
    rewrite IH by assumption. simpl. now rewrite <- app_assoc.
Qed.

Lemma split_head (sep : ascii) (h r : string) :
  forallb (fun c => negb (Ascii.eqb c sep)) (list_ascii_of_string h) = true ->
  hd EmptyString (split sep (h ++ String sep r)) = h.
Proof.
  intros Hh. unfold split. rewrite list_ascii_of_string_append. simpl.
  pose proof (split_chars_head sep _ [] (list_ascii_of_string r) Hh) as H.
  destruct (split_chars sep [] (list_ascii_of_string h ++ sep :: list_ascii_of_string r))
    as [|x l]; simpl in *.
  - apply (f_equal string_of_list_ascii) in H.
    now rewrite string_of_list_ascii_of_string in H.
  - subst x. apply string_of_list_ascii_of_string.
Qed.

Lemma subject_fields_ok :
  forallb Gwilliams2022Dataset.subject_field_ok (seq 0 99) = true.
Proof. vm_compute. reflexivity. Qed.

Lemma description_split (su se ta : nat) :
  exists r,
    Gwilliams2022Dataset.description su se ta
    = (Gwilliams2022Dataset.subject_field su ++ String "_" r)%string.
Proof.
  unfold Gwilliams2022Dataset.description, Gwilliams2022Dataset.subject_field.
  eexists. rewrite string_append_assoc. simpl. reflexivity.
Qed.

(** A key written for one of at most 99 subjects reads back as the
    subject index. *)
Lemma subject_of_description (su se ta : nat) :
  su < 99 ->
  Gwilliams2022Dataset.subject_of_key
    (Gwilliams2022Dataset.description su se ta) = Ok (Z.of_nat su).
Proof.
  intros Hsu.
  pose proof subject_fields_ok as Hall. rewrite forallb_forall in Hall.
  specialize (Hall su). rewrite in_seq in Hall. specialize (Hall ltac:(lia)).
  unfold Gwilliams2022Dataset.subject_field_ok in Hall.
  apply andb_true_iff in Hall. destruct Hall as [Hsep Hint].
  destruct (description_split su se ta) as (r & ->).
  unfold Gwilliams2022Dataset.subject_of_key.
  rewrite split_head by assumption.
  destruct (int_of_str _) as [v|]; [|discriminate].
  apply Z.eqb_eq in Hint. subst v. simpl. f_equal. lia.
Qed.

(** * [shift_brain_signal] *)

(** A shift of [s] samples with [0 < s < L]: both tensors keep [L - s]
    samples; the brain loses the first [s], the audio the last [s]. *)
Lemma shift_brain_signal_positive {A B} (X : tensor A) (Y : tensor B)
    (S C E L : nat) (srate shift : float) (s : nat) :
  shape X = [S; C; L] -> shape Y = [E; L] -> wf X -> wf Y ->
  py_int (srate * (shift / 1000))%float = Ok (Z.of_nat s) ->
  0 < s < L ->
  exists X' Y',
    shift_brain_signal X Y srate shift = Ok (X', Y') /\
    shape X' = [S; C; L - s] /\ shape Y' = [E; L - s] /\
    (forall i c t, i < S -> c < C -> t < L - s ->
       get X' [i; c; t] = get X [i; c; t + s]) /\
    (forall e t, e < E -> t < L - s -> get Y' [e; t] = get Y [e; t]).
Proof.
  intros HX HY HwfX HwfY Hint Hs.
  destruct (slice_axis_spec 2 (Some (Z.of_nat s)) None X L)
    as (X' & EX & _ & HshX & HgetX); [now rewrite HX | assumption |].
  destruct (slice_axis_spec 1 None (Some (- Z.of_nat s)%Z) Y L)
    as (Y' & EY & _ & HshY & HgetY); [now rewrite HY | assumption |].
  rewrite slice_index_stop_neg in HshY by lia.
  assert (Hlo : slice_index L (Some (Z.of_nat s)) 0 = s).
  { simpl. destruct (Z.ltb_spec (Z.of_nat s) 0); lia. }
  rewrite Hlo in HshX, HgetX. rewrite HX in HshX. rewrite HY in HshY.
  rewrite Nat2Z.id in HshY. simpl in HshX, HshY, HgetX, HgetY.
  rewrite Nat.sub_0_r in HshY.
  exists X', Y'. split; [|split; [|split; [|split]]]; trivial.
  - unfold shift_brain_signal. rewrite Hint. cbn [bind].
    rewrite EX. cbn [bind]. rewrite EY. reflexivity.
  - intros i c t Hi Hc Ht. apply HgetX. rewrite HshX. solve_bounds.
  - intros e t He Ht. rewrite HgetY by (rewrite HshY; solve_bounds).
    simpl. now rewrite Nat.add_0_r.
Qed.

(** * The audio cut of [audio_preproc] *)

Lemma cut_waveform_spec {A} (w : tensor A) (Ch n : nat) (sample_rate : Z)
    (real_duration : float) (cutoff : Z) :
  shape w = [Ch; n] -> wf w ->
  py_int (float_of_Z sample_rate * real_duration)%float = Ok cutoff ->
  (0 <= cutoff)%Z ->
  exists w' out,
    cut_waveform w sample_rate real_duration = Ok (w', out) /\
    shape w' = [Ch; Nat.min n (Z.to_nat cutoff)] /\
    (if (Z.of_nat n >? cutoff)%Z
     then shape w' = [Ch; Z.to_nat cutoff] /\ out = []
     else w' = w /\ out = [Text "No audio cutoff"]) /\
    (forall c k, c < Ch -> k < Nat.min n (Z.to_nat cutoff) ->
       get w' [c; k] = get w [c; k]).
Proof.
  intros Hsh Hwf Hint Hc. unfold cut_waveform. rewrite Hint. cbn [bind].
  rewrite (shape_at_eq w 1 n) by now rewrite Hsh. cbn [bind].
  destruct (Z.gtb_spec (Z.of_nat n) cutoff) as [Hgt|Hle].
  - destruct (slice_axis_spec 1 None (Some cutoff) w n)
      as (w' & Ew & _ & Hshw & Hgetw); [now rewrite Hsh | assumption |].
    rewrite slice_index_stop_nonneg in Hshw by lia.
    rewrite Hsh in Hshw. simpl in Hshw, Hgetw. rewrite Nat.sub_0_r in Hshw.
    rewrite Ew. cbn [bind]. exists w', []. split; [reflexivity|].
    replace (Nat.min n (Z.to_nat cutoff)) with (Z.to_nat cutoff) by lia.
    split; [assumption|]. split; [auto|].
    intros c k Hc' Hk. rewrite Hgetw by (rewrite Hshw; solve_bounds).
    simpl. now rewrite Nat.add_0_r.
  - exists w, [Text "No audio cutoff"]. split; [reflexivity|].
    replace (Nat.min n (Z.to_nat cutoff)) with n by lia. auto.
Qed.

(** * [update_real_durations] *)

Lemma dict_find_update {V} (k : string) (v : V) (d : dict V) :
  dict_find k (dict_update k v d) = Some v.
Proof.
  induction d as [|[k' v'] d IH]; simpl.
  - now rewrite String.eqb_refl.
  - destruct (String.eqb k' k) eqn:E; simpl.
    + now rewrite String.eqb_refl.
    + now rewrite E.
Qed.

Lemma np_allclose_same_length (a b : list float) :
  List.length a = List.length b ->
  np_allclose a b
  = Ok (forallb (fun p => isclose (fst p) (snd p)) (combine a b)).
Proof. intros H. unfold np_allclose. now rewrite H, Nat.eqb_refl. Qed.

Lemma np_allclose_mismatch (a b : list float) :
  List.length a <> List.length b ->
  List.length a <> 1 -> List.length b <> 1 ->
  np_allclose a b = Raise ValueError.
Proof.
  intros Hab Ha Hb. unfold np_allclose.
  destruct (Nat.eqb_spec (List.length a) (List.length b)); [contradiction|].
  destruct a as [|x [|x' a]]; simpl in *; try lia;
    destruct b as [|y [|y' b]]; simpl in *; try lia; reflexivity.
Qed.

(** With no stored sequence, or a stored one of the same length, the
    update returns: the new sequence is stored, and the warning is printed
    exactly when a stored sequence is not element-wise close. *)
Lemma update_real_durations_returns (stored : dict (list float))
    (real_durations : list float) (task_idx : nat) :
  let task_str := ("task" ++ str_of_nat task_idx)%string in
  (forall old, dict_find task_str stored = Some old ->
               List.length old = List.length real_durations) ->
  exists out,
    update_real_durations stored real_durations task_idx
    = Ok (dict_update task_str real_durations stored, out) /\
    dict_find task_str (dict_update task_str real_durations stored)
    = Some real_durations /\
    out = match dict_find task_str stored with
          | Some old =>
              if forallb (fun p => isclose (fst p) (snd p))
                         (combine old real_durations)
              then []
              else [Text "Real durations are different";
                    Durations real_durations; Durations old]
          | None => []
          end.
Proof.
  intros task_str Hlen. unfold update_real_durations. fold task_str.
  destruct (dict_find task_str stored) as [old|] eqn:E.
  - rewrite np_allclose_same_length by (apply Hlen; reflexivity).
    cbn [bind].
    destruct (forallb _ _); cbn [negb bind];
      (eexists; split; [reflexivity|]; split;
       [apply dict_find_update | reflexivity]).
  - cbn [bind]. eexists. split; [reflexivity|]. split;
      [apply dict_find_update | reflexivity].
Qed.

(** * [trim_nosound_regions] *)

(** ** Equality of floats is symmetric and transitive *)

Lemma SFeqb_same_number (a b : spec_float) :
  SFeqb a b = true <-> same_number a b.
Proof.
  unfold SFeqb.
  destruct a as [s1|s1| |s1 m1 e1], b as [s2|s2| |s2 m2 e2]; simpl;
    try destruct s1; try destruct s2; simpl;
    try change (Pos.compare_cont Eq m1 m2) with (Pos.compare m1 m2);
    try (destruct (Z.compare_spec e1 e2) as [He|He|He];
         try destruct (Pos.compare_spec m1 m2) as [Hm|Hm|Hm]; simpl);
    split; intros HH; try discriminate; try tauto; try reflexivity;
    try (destruct HH as (? & ? & ?); try discriminate; subst; lia);
    try (subst; auto; fail).
Qed.

Lemma float_eqb_sym (x y : float) : (x =? y)%float = (y =? x)%float.
Proof.
  rewrite !eqb_spec.
  destruct (SFeqb (Prim2SF x) (Prim2SF y)) eqn:E1,
           (SFeqb (Prim2SF y) (Prim2SF x)) eqn:E2; trivial.
  - apply SFeqb_same_number in E1.
    assert (H : same_number (Prim2SF y) (Prim2SF x)).
    { destruct (Prim2SF x), (Prim2SF y); simpl in *; intuition congruence. }
    apply SFeqb_same_number in H. congruence.
  - apply SFeqb_same_number in E2.
    assert (H : same_number (Prim2SF x) (Prim2SF y)).
    { destruct (Prim2SF x), (Prim2SF y); simpl in *; intuition congruence. }
    apply SFeqb_same_number in H. congruence.
Qed.

Lemma float_eqb_trans (x y z : float) :
  (x =? y)%float = true -> (y =? z)%float = true -> (x =? z)%float = true.
Proof.
  rewrite !eqb_spec, !SFeqb_same_number.
  destruct (Prim2SF x), (Prim2SF y), (Prim2SF z); simpl;
    intuition congruence.
Qed.

(** ** The boundary scan finds the runs *)

Lemma pair_rows_flat_pairs (l : list (Z * Z)) : pair_rows (flat_pairs l) = l.
Proof.
  induction l as [|[a b] l IH]; simpl; [reflexivity|].
  unfold flat_pairs in IH. now rewrite IH.
Qed.

Lemma length_flat_pairs (l : list (Z * Z)) :
  List.length (flat_pairs l) = List.length l * 2.
Proof.
  induction l as [|[a b] l IH]; simpl; [reflexivity|].
  unfold flat_pairs in IH. rewrite IH. lia.
Qed.

(** Inside a run that started with identifier [head], with [x] the
    identifier of the previous annotation at position [cur]. *)
Lemma scan_boundaries_runs : forall rest head x start cur,
  head = x \/ (x =? head)%float = true ->
  Z.of_nat start
  :: scan_boundaries head (Z.of_nat (S cur)) rest
     ++ [Z.of_nat (cur + List.length rest)]
  = flat_pairs (map run_Z (runs_from start cur x (map sound_id rest))).
Proof.
  induction rest as [|r rest IH]; intros head x start cur Hinv.
  - simpl. now rewrite Nat.add_0_r.
  - cbn [scan_boundaries map runs_from List.length].
    assert (Heq : (sound_id r =? head)%float = (sound_id r =? x)%float).
    { destruct Hinv as [->|Hx]; [reflexivity|].
      destruct (sound_id r =? x)%float eqn:E.
      - eapply float_eqb_trans; eassumption.
      - destruct (sound_id r =? head)%float eqn:E'; [|reflexivity].
        rewrite <- E. symmetry. eapply float_eqb_trans; [exact E'|].
        now rewrite float_eqb_sym. }
    rewrite Heq.
    replace (Z.of_nat (S cur) + 1)%Z with (Z.of_nat (S (S cur))) by lia.
    replace (cur + S (List.length rest)) with (S cur + List.length rest) by lia.
    destruct (sound_id r =? x)%float eqn:E; cbn [negb].
    + apply IH. right. now rewrite <- Heq in E.
    + replace (Z.of_nat (S cur) - 1)%Z with (Z.of_nat cur) by lia.
      cbn [map flat_pairs concat app fst snd run_Z].
      do 2 f_equal. apply (IH (sound_id r) (sound_id r)). now left.
Qed.

(** The pairs that [trim_nosound_regions] iterates over are the runs. *)
Lemma starts_ends_runs (first : annotation) (rest : list annotation) :
  (sound_id first =? -1)%float = false ->
  reshape_pairs
    (tl (scan_boundaries (-1)%float 0 (first :: rest))
     ++ [(Z.of_nat (List.length (first :: rest)) - 1)%Z])
  = Ok (map run_Z (runs (map sound_id (first :: rest)))).
Proof.
  intros Hfirst.
  cbn [scan_boundaries]. rewrite Hfirst. cbn [negb tl app].
  replace (Z.of_nat (List.length (first :: rest)) - 1)%Z
    with (Z.of_nat (0 + List.length rest))
    by (cbn [List.length Nat.add]; lia).
  change (0 + 1)%Z with (Z.of_nat 1). change 0%Z with (Z.of_nat 0) at 1.
  rewrite (scan_boundaries_runs rest (sound_id first) (sound_id first) 0 0)
    by now left.
  cbn [map runs].
  set (rs := map run_Z (runs_from 0 0 (sound_id first) (map sound_id rest))).
  unfold reshape_pairs, reshape. cbn [shape flat].
  change [(-1)%Z; 2%Z] with (map Z.of_nat [] ++ (-1)%Z :: map Z.of_nat [2]).
  rewrite infer_shape_unknown. cbv zeta. cbn [app numel].
  rewrite length_flat_pairs.
  replace (List.length rs * 2 * 1) with (List.length rs * (2 * 1)) by lia.
  rewrite Nat.Div0.mod_mul. change (2 * 1) with 2.
  cbn [Nat.ltb Nat.leb Nat.eqb andb as_numpy bind flat].
  now rewrite pair_rows_flat_pairs.
Qed.

(** ** The segments and their concatenation *)

Lemma runs_from_nonempty : forall ids start cur x, runs_from start cur x ids <> [].
Proof.
  induction ids as [|y ids IH]; intros start cur x; simpl; [discriminate|].
  destruct (y =? x)%float; [apply IH | discriminate].
Qed.

(** The body of the second loop on a run: the slice at the two
    millisecond indices, and the real duration. *)
Lemma trim_segment_run {A} (meg_raw : tensor A) (df_annot : list annotation)
    (r : nat * nat) lo hi dur :
  segment_of_run df_annot r = Ok (lo, hi, dur) ->
  trim_segment meg_raw df_annot (run_Z r)
  = (seg <- slice_axis 1 (Some lo) (Some hi) meg_raw ;; Ok (seg, dur)).
Proof.
  unfold segment_of_run, trim_segment, run_Z. destruct r as [a b]. simpl.
  intros H. inv_bind H. inv_bind H. inv_bind H. inv_bind H.
  injection H as <- <- <-.
  rewrite E, E0. cbn [bind]. rewrite E1. cbn [bind]. rewrite E2. reflexivity.
Qed.

Lemma trim_segments_runs {A} (meg_raw : tensor A) (C L : nat)
    (df_annot : list annotation) :
  shape meg_raw = [C; L] -> wf meg_raw ->
  forall rs segs,
    mapM (segment_of_run df_annot) rs = Ok segs ->
    exists slices,
      mapM (trim_segment meg_raw df_annot) (map run_Z rs)
      = Ok (combine slices (map snd segs)) /\
      Forall2 (fun seg sl =>
                 slice_axis 1 (Some (fst (fst seg))) (Some (snd (fst seg)))
                            meg_raw = Ok sl /\
                 shape sl = [C; slice_width L seg] /\
                 forall c k, c < C -> k < slice_width L seg ->
                   get sl [c; k]
                   = get meg_raw [c; k + slice_index L (Some (fst (fst seg))) 0])
              segs slices.
Proof.
  intros Hsh Hwf. induction rs as [|r rs IH]; intros segs H; simpl in H.
  - injection H as <-. exists []. split; [reflexivity | constructor].
  - inv_bind H. inv_bind H. injection H as <-.
    destruct v as [[lo hi] dur].
    destruct (IH _ E0) as (slices & Hm & Hall).
    destruct (slice_axis_spec 1 (Some lo) (Some hi) meg_raw L)
      as (sl & Esl & _ & Hshsl & Hgetsl); [now rewrite Hsh | assumption |].
    rewrite Hsh in Hshsl. cbn [upd] in Hshsl.
    exists (sl :: slices). split.
    + cbn [map mapM]. rewrite (trim_segment_run meg_raw df_annot r lo hi dur E).
      rewrite Esl. cbn [bind]. rewrite Hm. reflexivity.
    + constructor; [|assumption]. unfold slice_width. cbn [fst snd].
      split; [assumption|]. split; [assumption|]. intros c k Hc Hk.
      rewrite Hgetsl by (rewrite Hshsl; solve_bounds). reflexivity.
Qed.

Lemma Forall2_In_left {A B} (R : A -> B -> Prop) l l' a :
  Forall2 R l l' -> In a l -> exists b, R a b.
Proof.
  induction 1 as [|x y l l' Hxy _ IH]; intros Hin; [contradiction|].
  destruct Hin as [<-|Hin]; eauto.
Qed.

(** Concatenation of matrices with [C] rows along the time axis. *)
Lemma cat_axis1_shape {A} (ts : list (tensor A)) (C : nat) (ws : list nat) :
  ts <> [] -> Forall2 (fun t w => shape t = [C; w]) ts ws ->
  exists M, cat_axis 1 ts = Ok M /\ shape M = [C; list_sum ws].
Proof.
  intros Hne Hall. destruct ts as [|t ts]; [congruence|].
  unfold cat_axis.
  inversion Hall as [|? w ? ws' Ht Hts]; subst.
  rewrite Ht. cbn [List.length Nat.ltb Nat.leb andb].
  change (upd 1 (fun _ : nat => 0) [C; w]) with [C; 0].
  assert (Hb : forallb (fun u => list_eqb (upd 1 (fun _ => 0) (shape u)) [C; 0])
                 (t :: ts) = true).
  { apply forallb_forall. intros u Hu.
    destruct (Forall2_In_left _ _ _ _ Hall Hu) as (w' & Hw); cbv beta in Hw. rewrite Hw. simpl.
    unfold list_eqb. destruct (list_eq_dec Nat.eq_dec [C; 0] [C; 0]); congruence. }
  rewrite Hb. eexists. split; [reflexivity|]. simpl. do 2 f_equal.
  rewrite Ht. simpl. f_equal.
  clear -Hts. induction Hts as [|u w' ts ws' Hu _ IH]; simpl; [reflexivity|].
  rewrite Hu. simpl. now rewrite IH.
Qed.

Lemma map_fst_combine_eq {A B} (l : list A) (l' : list B) :
  List.length l = List.length l' -> map fst (combine l l') = l.
Proof.
  revert l'; induction l as [|a l IH]; intros [|b l'] H; simpl in *;
    try discriminate; [reflexivity|]. f_equal. apply IH. lia.
Qed.

Lemma map_snd_combine_eq {A B} (l : list A) (l' : list B) :
  List.length l = List.length l' -> map snd (combine l l') = l'.
Proof.
  revert l'; induction l as [|a l IH]; intros [|b l'] H; simpl in *;
    try discriminate; [reflexivity|]. f_equal. apply IH. lia.
Qed.

(** On a stream that does not start with the sentinel [-1.0], the
    extractor returns the concatenation of one slice per run, cut at the
    millisecond indices of the run, and one real duration per run. *)
Lemma trim_nosound_regions_spec {A} (meg_raw : tensor A) (C L : nat)
    (first : annotation) (rest : list annotation)
    (segs : list (Z * Z * float)) :
  let df_annot := first :: rest in
  shape meg_raw = [C; L] -> wf meg_raw ->
  (sound_id first =? -1)%float = false ->
  mapM (segment_of_run df_annot) (runs (map sound_id df_annot)) = Ok segs ->
  exists M slices,
    trim_nosound_regions meg_raw df_annot = Ok (M, map snd segs) /\
    Forall2 (fun seg sl =>
               slice_axis 1 (Some (fst (fst seg))) (Some (snd (fst seg)))
                          meg_raw = Ok sl /\
               shape sl = [C; slice_width L seg] /\
               forall c k, c < C -> k < slice_width L seg ->
                 get sl [c; k]
                 = get meg_raw [c; k + slice_index L (Some (fst (fst seg))) 0])
            segs slices /\
    cat_axis 1 slices = Ok M /\
    shape M = [C; list_sum (map (slice_width L) segs)].
Proof.
  intros df_annot Hsh Hwf Hfirst Hsegs.
  destruct (trim_segments_runs meg_raw C L df_annot Hsh Hwf _ _ Hsegs)
    as (slices & Hm & Hall).
  assert (Hlen : List.length slices = List.length (map snd segs)).
  { rewrite length_map. symmetry. eapply Forall2_length; eassumption. }
  assert (Hne : slices <> []).
  { apply mapM_length in Hsegs. intros ->. simpl in Hlen.
    rewrite length_map in Hlen. rewrite <- Hlen in Hsegs.
    unfold df_annot in Hsegs. cbn [map runs] in Hsegs.
    destruct (runs_from 0 0 (sound_id first) (map sound_id rest)) eqn:E;
      [|discriminate].
    now apply runs_from_nonempty in E. }
  destruct (cat_axis1_shape slices C (map (slice_width L) segs) Hne)
    as (M & EM & HshM).
  { clear -Hall. induction Hall as [|seg sl segs slices (_ & Hs & _) _ IH];
      simpl; constructor; assumption. }
  exists M, slices. split; [|auto].
  unfold trim_nosound_regions, df_annot in *. cbn [bind].
  rewrite (starts_ends_runs first rest Hfirst).
  cbn [bind]. rewrite Hm. cbn [bind].
  rewrite map_fst_combine_eq, map_snd_combine_eq by assumption.
  rewrite EM. reflexivity.
Qed.

(** * [ToyDataset] *)

Lemma list_eqb_refl (l : list nat) : list_eqb l l = true.
Proof. unfold list_eqb. destruct (list_eq_dec Nat.eq_dec l l); congruence. Qed.

Lemma stack_spec {T} (ts : list (tensor T)) (sh : list nat) :
  ts <> [] -> Forall (fun t => shape t = sh /\ wf t) ts ->
  exists t', stack ts = Ok t' /\ shape t' = List.length ts :: sh /\ wf t'.
Proof.
  intros Hne Hall. destruct ts as [|t ts]; [congruence|]. unfold stack.
  assert (Ht : shape t = sh) by (inversion Hall; tauto).
  assert (Hb : forallb (fun u => list_eqb (shape u) (shape t)) (t :: ts) = true).
  { apply forallb_forall. intros u Hu. rewrite Forall_forall in Hall.
    destruct (Hall u Hu) as [-> _]. rewrite Ht. apply list_eqb_refl. }
  rewrite Hb, Ht. eexists. split; [reflexivity|]. split; [reflexivity|].
  red. cbn [flat shape numel]. clear -Hall.
  induction Hall as [|u us [Hu Hwf] _ IH]; [reflexivity|].
  cbn [map concat List.length]. rewrite length_app, IH.
  red in Hwf. rewrite Hwf, Hu. lia.
Qed.

(** The constructor returns, and every item pairs the cosines of the first
    channels of the stack with the cosines of all of them. *)
Lemma ToyDataset_spec {T} (of_int : Z -> T) (t_add t_mul : T -> T -> T)
    (t_cos : T -> T) (linspace : T -> T -> nat -> list T)
    (rand : nat -> nat -> list T) (randint : nat -> list Z)
    (N L Yd : nat) (X_dim : Z) :
  (forall a b n, List.length (linspace a b n) = n) ->
  List.length (rand 0 N) = N -> List.length (randint N) = N ->
  0 < N -> 0 < Yd ->
  exists ds,
    ToyDataset of_int t_add t_mul t_cos linspace rand randint
               (Z.of_nat N) (Z.of_nat L) X_dim (Z.of_nat Yd) = Ok ds /\
    len ds = Ok (Z.of_nat N) /\
    forall i, i < N ->
      exists x y s,
        getitem ds (Z.of_nat i) = Ok (x, y, s) /\
        shape y = [Yd; L] /\ wf y /\
        slice_axis 0 None (Some X_dim) y = Ok x.
Proof.
  intros Hlin Hrand Hrandint HN HYd.
  unfold ToyDataset.
  destruct (Z.ltb_spec (Z.of_nat N) 0); [lia|].
  destruct (Z.ltb_spec (Z.of_nat L) 0); [lia|]. cbn [orb bind].
  rewrite !Nat2Z.id.
  set (starts := map (fun v => t_mul v (of_int 10%Z)) (rand 0 N)).
  set (rows := map (fun st => Tensor [L] (linspace st (t_add st (of_int 10%Z)) L))
                   starts).
  assert (Hrows : List.length rows = N).
  { unfold rows, starts. now rewrite !length_map. }
  destruct (stack_spec rows [L]) as (lin & Elin & Hshlin & Hwflin).
  { intros E. rewrite E in Hrows. simpl in Hrows. lia. }
  { unfold rows. apply Forall_map, Forall_forall. intros st _. simpl.
    split; [reflexivity|]. red. simpl. rewrite Hlin. lia. }
  rewrite Hrows in Hshlin. rewrite Elin. cbn [bind].
  set (scaled := map (fun k => tmap (fun v => t_mul v (hd (of_int 0%Z) (rand (S k) 1))) lin)
                     (seq 0 Yd)).
  assert (Hscaled : List.length scaled = Yd).
  { unfold scaled. now rewrite length_map, length_seq. }
  destruct (stack_spec scaled [N; L]) as (Ypre & EY & HshY & HwfY).
  { intros E. rewrite E in Hscaled. simpl in Hscaled. lia. }
  { unfold scaled. apply Forall_map, Forall_forall. intros k _.
    split; [exact Hshlin | apply wf_tmap, Hwflin]. }
  rewrite Hscaled in HshY. rewrite EY. cbn [bind].
  destruct (slice_axis_spec 0 None (Some X_dim) Ypre Yd)
    as (X0 & EX0 & HwfX0 & HshX0 & HgetX0); [now rewrite HshY | assumption |].
  set (m := slice_index Yd (Some X_dim) Yd) in *.
  assert (Hm : m <= Yd) by (apply slice_index_le; lia).
  rewrite HshY in HshX0. cbn [upd slice_index] in HshX0, HgetX0.
  rewrite Nat.sub_0_r in HshX0.
  rewrite EX0. cbn [bind].
  destruct (permute_102 Ypre Yd N L HshY HwfY)
    as (Yp & EYp & HwfYp & HshYp & HgetYp).
  destruct (permute_102 X0 m N L HshX0 HwfX0)
    as (Xp & EXp & HwfXp & HshXp & HgetXp).
  rewrite EYp. cbn [bind]. rewrite EXp. cbn [bind].
  eexists. split; [reflexivity|]. split.
  - unfold len, py_len. cbn [ds_X tmap shape]. now rewrite HshXp.
  - intros i Hi. unfold getitem. cbn [ds_X ds_Y ds_subject_idxs].
    destruct (select0_spec (tmap t_cos Xp) N [m; L] i)
      as (x & Ex & Hwfx & Hshx & Hgetx);
      [exact HshXp | apply wf_tmap, HwfXp | assumption |].
    destruct (select0_spec (tmap t_cos Yp) N [Yd; L] i)
      as (y & Ey & Hwfy & Hshy & Hgety);
      [exact HshYp | apply wf_tmap, HwfYp | assumption |].
    destruct (select0_spec (Tensor [N] (randint N)) N [] i)
      as (s & Es & _); [reflexivity | red; simpl; lia | assumption |].
    rewrite Ex, Ey, Es. cbn [bind].
    exists x, y, s. split; [reflexivity|]. split; [assumption|].
    split; [assumption|].
    destruct (slice_axis_spec 0 None (Some X_dim) y Yd)
      as (x' & Ex' & Hwfx' & Hshx' & Hgetx'); [now rewrite Hshy | assumption |].
    fold m in Hshx'. rewrite Hshy in Hshx'.
    cbn [upd slice_index] in Hshx', Hgetx'. rewrite Nat.sub_0_r in Hshx'.
    rewrite Ex'. f_equal. apply tensor_ext; trivial; [congruence|].
    intros idx Hb. rewrite Hshx' in Hb.
    pose proof (in_bounds_length _ _ Hb) as Hl.
    destruct idx as [|c [|k [|]]]; try discriminate Hl.
    split_bounds Hb.
    rewrite Hgetx' by (rewrite Hshx'; solve_bounds). cbn [upd].
    rewrite Hgety, Hgetx by solve_bounds.
    rewrite !get_tmap. f_equal.
    rewrite HgetYp, HgetXp by lia.
    rewrite HgetX0 by (rewrite HshX0; solve_bounds). reflexivity.
Qed.

(** * Windowing *)

(** [Brennan2018Dataset.batchfy] makes [L / W] windows per subject, also
    when [W] divides [L]. *)
Lemma Brennan_batchfy_window_count {A B} (X : tensor A) (Y : tensor B)
    (S C E L W : nat) :
  shape X = [S; C; L] -> shape Y = [E; L] -> wf X -> wf Y ->
  0 < S -> 0 < C -> 0 < E -> 0 < W ->
  exists ds,
    Brennan2018Dataset.batchfy X Y (Z.of_nat W) = Ok ds /\
    shape (ds_X ds) = [S * (L / W); C; W] /\
    shape (ds_Y ds) = [S * (L / W); E; W].
Proof.
  intros HX HY HwfX HwfY HS HC HE HW.
  destruct (Brennan_batchfy_spec X Y S C E L W HX HY HwfX HwfY HS HC HE HW)
    as (ds & Eds & _ & (H1 & H2 & _) & _).
  eauto.
Qed.

(** On a time length that is a multiple of the window length,
    [Brennan2018Dataset.batchfy] keeps every sample, in order: sample [t]
    of a channel is sample [t mod W] of window [t / W]. *)
Lemma Brennan_batchfy_keeps_order {A B} (X : tensor A) (Y : tensor B)
    (S C E n W : nat) :
  shape X = [S; C; n * W] -> shape Y = [E; n * W] -> wf X -> wf Y ->
  0 < S -> 0 < C -> 0 < E -> 0 < W ->
  exists ds,
    Brennan2018Dataset.batchfy X Y (Z.of_nat W) = Ok ds /\
    List.length (flat (ds_X ds)) = List.length (flat X) /\
    forall s c t, s < S -> c < C -> t < n * W ->
      get (ds_X ds) [s * n + t / W; c; t mod W] = get X [s; c; t].
Proof.
  intros HX HY HwfX HwfY HS HC HE HW.
  destruct (Brennan_batchfy_spec X Y S C E (n * W) W HX HY HwfX HwfY HS HC HE HW)
    as (ds & Eds & (Hwf1 & _) & (H1 & _) & HgetX & _).
  rewrite Nat.div_mul in * by lia.
  exists ds. split; [assumption|]. split.
  - red in Hwf1, HwfX. rewrite Hwf1, HwfX, H1, HX. simpl. nia.
  - intros s c t Hs Hc Ht.
    assert (Hq : t / W < n) by (apply Nat.Div0.div_lt_upper_bound; lia).
    pose proof (Nat.mod_upper_bound t W ltac:(lia)) as Hr.
    rewrite HgetX by assumption. do 4 f_equal.
    pose proof (Nat.div_mod_eq t W). lia.
Qed.

(** Two subjects, 4 channels, 1000 samples, 8 audio channels and windows
    of 100 samples: 20 items, brain windows (4, 100), audio windows
    (8, 100), ten items for subject 0 and then ten for subject 1. *)
Lemma Brennan_batchfy_scenario {A B} (X : tensor A) (Y : tensor B) :
  shape X = [2; 4; 1000] -> shape Y = [8; 1000] -> wf X -> wf Y ->
  exists ds,
    Brennan2018Dataset.batchfy X Y 100 = Ok ds /\
    shape (ds_X ds) = [20; 4; 100] /\
    shape (ds_Y ds) = [20; 8; 100] /\
    shape (ds_subject_idxs ds) = [20] /\
    forall s j, s < 2 -> j < 10 ->
      get (ds_subject_idxs ds) [s * 10 + j] = Some (Z.of_nat s).
Proof.
  intros HX HY HwfX HwfY.
  destruct (Brennan_batchfy_spec X Y 2 4 8 1000 100 HX HY HwfX HwfY)
    as (ds & Eds & _ & (H1 & H2 & H3) & _ & _ & Hidx); try lia.
  change (1000 / 100) with 10 in *.
  exists ds. repeat split; trivial.
Qed.

(** C1. Specified: every windowing step produces [floor(L / W)] windows,
    the case where [W] divides [L] included. In
    [Gwilliams2022Dataset.batchfy] it does not: when the time length of a
    recording is [k * W] with [k >= 1], [X[:, :-trim_len]] with
    [trim_len = 0] keeps no sample and the recording yields no window at
    all, where [floor(L / W) = k]. *)
Theorem C1_gwilliams_exact_multiple_no_windows {A} (X : tensor A)
    (C k W : nat) :
  shape X = [C; k * W] -> wf X -> 0 < C -> 0 < W -> 0 < k ->
  exists Xw,
    Gwilliams2022Dataset.window_brain (Z.of_nat W) X = Ok Xw /\
    shape Xw = [0; C; W] /\
    (k * W) / W = k /\ k <> 0.
Proof.
  intros Hsh Hwf HC HW Hk.
  destruct (window_brain_spec X C (k * W) W Hsh Hwf HC HW)
    as (Xw & E & _ & HshXw & _).
  rewrite Nat.Div0.mod_mul in HshXw. simpl in HshXw.
  exists Xw. repeat split; trivial; [apply Nat.div_mul|]; lia.
Qed.

Lemma C1_witness :
  exists Xw,
    Gwilliams2022Dataset.window_brain 3 (Tensor [1; 6] [10; 11; 12; 13; 14; 15])
    = Ok Xw /\
    shape Xw = [0; 1; 3] /\ (2 * 3) / 3 = 2 /\ 2 <> 0.
Proof.
  apply (C1_gwilliams_exact_multiple_no_windows
           (Tensor [1; 6] [10; 11; 12; 13; 14; 15]) 1 2 3);
    [reflexivity | reflexivity | lia | lia | lia].
Defined.

(** The whole of [batchfy] on one recording of 6 samples and windows of 3:
    the dataset is empty. *)
Example gwilliams_batchfy_exact_multiple :
  Gwilliams2022Dataset.batchfy (fun x : nat => x) 3 2
    [("subject01_sess0_task0"%string, Tensor [2; 6] (seq 0 12))]
    [("task0"%string, Tensor [1; 4] (seq 100 4))]
  = Ok (Dataset (Tensor [0; 2; 3] []) (Tensor [0; 2] []) (Tensor [0] [])).
Proof. vm_compute. reflexivity. Qed.

(** When [W] does not divide [L], the same step makes [L / W] windows. *)
Lemma Gwilliams_window_count_remainder {A} (X : tensor A) (C L W : nat) :
  shape X = [C; L] -> wf X -> 0 < C -> 0 < W -> L mod W <> 0 ->
  exists Xw,
    Gwilliams2022Dataset.window_brain (Z.of_nat W) X = Ok Xw /\
    shape Xw = [L / W; C; W].
Proof.
  intros Hsh Hwf HC HW Hr.
  destruct (window_brain_spec X C L W Hsh Hwf HC HW) as (Xw & E & _ & H & _).
  destruct (Nat.eqb_spec (L mod W) 0); [contradiction|]. eauto.
Qed.

(** C2. Specified: on a time length that is a multiple of the window
    length, the windows flattened back give the original sequence, nothing
    lost. In [Gwilliams2022Dataset.batchfy] every sample is lost: the
    windows of such a recording hold no element, while the recording holds
    [C * k * W] of them. *)
Theorem C2_gwilliams_exact_multiple_loses_samples {A} (X : tensor A)
    (C k W : nat) :
  shape X = [C; k * W] -> wf X -> 0 < C -> 0 < W -> 0 < k ->
  exists Xw,
    Gwilliams2022Dataset.window_brain (Z.of_nat W) X = Ok Xw /\
    flat Xw = [] /\
    List.length (flat X) = C * (k * W) /\ 0 < C * (k * W).
Proof.
  intros Hsh Hwf HC HW Hk.
  destruct (window_brain_spec X C (k * W) W Hsh Hwf HC HW)
    as (Xw & E & HwfXw & HshXw & _).
  rewrite Nat.Div0.mod_mul in HshXw. simpl in HshXw.
  exists Xw. split; [assumption|]. split; [|split].
  - red in HwfXw. rewrite HshXw in HwfXw. simpl in HwfXw.
    now apply length_zero_iff_nil.
  - red in Hwf. rewrite Hwf, Hsh. simpl. lia.
  - nia.
Qed.

Lemma C2_witness :
  exists Xw,
    Gwilliams2022Dataset.window_brain 3 (Tensor [2; 6] (seq 0 12)) = Ok Xw /\
    flat Xw = [] /\
    List.length (flat (Tensor [2; 6] (seq 0 12))) = 2 * (2 * 3) /\
    0 < 2 * (2 * 3).
Proof.
  apply (C2_gwilliams_exact_multiple_loses_samples
           (Tensor [2; 6] (seq 0 12)) 2 2 3);
    [reflexivity | reflexivity | lia | lia | lia].
Defined.

Lemma list_sum_repeat (n k : nat) : list_sum (repeat n k) = k * n.
Proof. induction k as [|k IH]; simpl; [reflexivity | rewrite IH; lia]. Qed.

(** C3. After windowing, brain tensor, audio tensor and subject-index
    vector have the same flat length, the sum of the window counts of the
    subjects (recordings). For Brennan2018 each of the [S] subjects has
    [L / W] windows and window [j] of every subject carries the same audio
    samples [j * W ..] of the one audio track; for Gwilliams2022 the count
    of a recording is the number of windows its brain signal gave. *)
Theorem C3_flat_lengths_agree :
  (forall (A B : Type) (X : tensor A) (Y : tensor B) (S C E L W : nat),
      shape X = [S; C; L] -> shape Y = [E; L] -> wf X -> wf Y ->
      0 < S -> 0 < C -> 0 < E -> 0 < W ->
      let n := L / W in
      exists ds,
        Brennan2018Dataset.batchfy X Y (Z.of_nat W) = Ok ds /\
        py_len (ds_X ds) = Ok (Z.of_nat (list_sum (repeat n S))) /\
        py_len (ds_Y ds) = Ok (Z.of_nat (list_sum (repeat n S))) /\
        py_len (ds_subject_idxs ds) = Ok (Z.of_nat (list_sum (repeat n S))) /\
        forall s j e k, s < S -> j < n -> e < E -> k < W ->
          get (ds_Y ds) [s * n + j; e; k] = get Y [e; j * W + k]) /\
  (forall (A B : Type) (as_float32 : A -> A) (meg_len audio_len : Z)
          (Xs : dict (tensor A)) (Ys : dict (tensor B)) (ds : dataset A B),
      Gwilliams2022Dataset.batchfy as_float32 meg_len audio_len Xs Ys = Ok ds ->
      exists counts : list nat,
        Forall2 (fun key n =>
                   exists Xk Xw,
                     dict_get key Xs = Ok Xk /\
                     Gwilliams2022Dataset.window_brain meg_len Xk = Ok Xw /\
                     py_len Xw = Ok (Z.of_nat n))
                (dict_keys Xs) counts /\
        py_len (ds_X ds) = Ok (Z.of_nat (list_sum counts)) /\
        py_len (ds_Y ds) = Ok (Z.of_nat (list_sum counts)) /\
        py_len (ds_subject_idxs ds) = Ok (Z.of_nat (list_sum counts))).
Proof.
  split.
  - intros A B X Y S C E L W HX HY HwfX HwfY HS HC HE HW n.
    destruct (Brennan_batchfy_spec X Y S C E L W HX HY HwfX HwfY HS HC HE HW)
      as (ds & Eds & _ & (H1 & H2 & H3) & _ & HgetY & _).
    fold n in H1, H2, H3, HgetY.
    exists ds. rewrite list_sum_repeat. unfold py_len.
    rewrite H1, H2, H3. simpl. auto.
  - intros A B f meg_len audio_len Xs Ys ds H.
    apply (Gwilliams_batchfy_lengths f meg_len audio_len Xs Ys ds H).
Qed.

Lemma C3_witness :
  (exists ds,
     Brennan2018Dataset.batchfy
       (Tensor [2; 2; 7] (seq 0 28)) (Tensor [3; 7] (seq 100 21)) 3 = Ok ds /\
     py_len (ds_X ds) = Ok 4%Z /\ py_len (ds_Y ds) = Ok 4%Z /\
     py_len (ds_subject_idxs ds) = Ok 4%Z /\
     forall s j e k, s < 2 -> j < 2 -> e < 3 -> k < 3 ->
       get (ds_Y ds) [s * 2 + j; e; k]
       = get (Tensor [3; 7] (seq 100 21)) [e; j * 3 + k]) /\
  (exists ds,
     Gwilliams2022Dataset.batchfy (fun x : nat => x) 3 2
       [("subject01_sess0_task0"%string, Tensor [2; 7] (seq 0 14));
        ("subject02_sess0_task0"%string, Tensor [2; 8] (seq 50 16))]
       [("task0"%string, Tensor [1; 5] (seq 100 5))] = Ok ds /\
     exists counts : list nat,
       Forall2 (fun key n =>
                  exists Xk Xw,
                    dict_get key
                      [("subject01_sess0_task0"%string, Tensor [2; 7] (seq 0 14));
                       ("subject02_sess0_task0"%string, Tensor [2; 8] (seq 50 16))]
                    = Ok Xk /\
                    Gwilliams2022Dataset.window_brain 3 Xk = Ok Xw /\
                    py_len Xw = Ok (Z.of_nat n))
               ["subject01_sess0_task0"%string; "subject02_sess0_task0"%string]
               counts /\
       py_len (ds_X ds) = Ok (Z.of_nat (list_sum counts)) /\
       py_len (ds_Y ds) = Ok (Z.of_nat (list_sum counts)) /\
       py_len (ds_subject_idxs ds) = Ok (Z.of_nat (list_sum counts))).
Proof.
  split.
  - apply (proj1 C3_flat_lengths_agree nat nat
             (Tensor [2; 2; 7] (seq 0 28)) (Tensor [3; 7] (seq 100 21))
             2 2 3 7 3); (reflexivity || lia).
  - eexists. split; [vm_compute; reflexivity|].
    apply (proj2 C3_flat_lengths_agree nat nat (fun x : nat => x) 3%Z 2%Z
             [("subject01_sess0_task0"%string, Tensor [2; 7] (seq 0 14));
              ("subject02_sess0_task0"%string, Tensor [2; 8] (seq 50 16))]
             [("task0"%string, Tensor [1; 5] (seq 100 5))]).
    vm_compute. reflexivity.
Defined.

(** * The alignment shift *)

(** C4. Specified: for every computed shift [S] with [0 <= S < L] both
    tensors come back with time length [L - S]. With [S = 0] the code
    returns the brain tensor whole and the audio tensor empty, since
    [Y[:, :-0]] is [Y[:, :0]]: the lengths are [L] and [0]. (For
    [0 < S < L] see [shift_brain_signal_positive].) *)
Theorem C4_zero_shift_empties_audio {A B} (X : tensor A) (Y : tensor B)
    (S C E L : nat) (srate shift : float) :
  shape X = [S; C; L] -> shape Y = [E; L] ->
  py_int (srate * (shift / 1000))%float = Ok 0%Z ->
  exists X' Y',
    shift_brain_signal X Y srate shift = Ok (X', Y') /\
    shape X' = [S; C; L] /\ shape Y' = [E; 0].
Proof.
  intros HX HY Hint.
  destruct (slice_axis_shape 2 (Some 0%Z) None X L)
    as (X' & EX & HshX); [now rewrite HX|].
  destruct (slice_axis_shape 1 None (Some (- 0)%Z) Y L)
    as (Y' & EY & HshY); [now rewrite HY|].
  rewrite HX in HshX. rewrite HY in HshY. simpl in HshX, HshY.
  rewrite Nat.sub_0_r in HshX.
  exists X', Y'. split; [|auto].
  unfold shift_brain_signal. rewrite Hint. cbn [bind].
  rewrite EX. cbn [bind]. rewrite EY. reflexivity.
Qed.

Lemma C4_witness :
  exists X' Y',
    shift_brain_signal (Tensor [2; 4; 10] (seq 0 80)) (Tensor [8; 10] (seq 0 80))
                       135 0 = Ok (X', Y') /\
    shape X' = [2; 4; 10] /\ shape Y' = [8; 0].
Proof.
  apply (C4_zero_shift_empties_audio
           (Tensor [2; 4; 10] (seq 0 80)) (Tensor [8; 10] (seq 0 80))
           2 4 8 10 135 0);
    [reflexivity | reflexivity | vm_compute; reflexivity].
Defined.

(** The default shift of 150 ms at 135 Hz is 20 samples. *)
Example default_shift : py_int (135 * (150 / 1000))%float = Ok 20%Z.
Proof. vm_compute. reflexivity. Qed.

(** With shift 0 the two tensors no longer agree in time length, and
    [Brennan2018Dataset.batchfy] refuses them. *)
Example zero_shift_then_batchfy :
  ('(X, Y) <- shift_brain_signal (Tensor [2; 4; 10] (seq 0 80))
                                 (Tensor [8; 10] (seq 0 80)) 135 0 ;;
   Brennan2018Dataset.batchfy X Y 5)
  = Raise AssertionError.
Proof. vm_compute. reflexivity. Qed.

(** * Silence trimming *)

(** C5. For a brain matrix of [C] channels and [L] samples and an
    annotation stream whose first sound identifier is not the sentinel
    [-1.0], [trim_nosound_regions] returns one real duration per maximal
    run of consecutive equal sound identifiers, and a matrix whose time
    length is the sum of the lengths of the slices of the runs. *)
Theorem C5_one_segment_per_run {A} (meg_raw : tensor A) (C L : nat)
    (first : annotation) (rest : list annotation)
    (segs : list (Z * Z * float)) :
  let df_annot := first :: rest in
  shape meg_raw = [C; L] -> wf meg_raw ->
  (sound_id first =? -1)%float = false ->
  mapM (segment_of_run df_annot) (runs (map sound_id df_annot)) = Ok segs ->
  exists meg_trimmed real_durations,
    trim_nosound_regions meg_raw df_annot = Ok (meg_trimmed, real_durations) /\
    List.length real_durations = List.length (runs (map sound_id df_annot)) /\
    shape meg_trimmed = [C; list_sum (map (slice_width L) segs)].
Proof.
  intros df_annot Hsh Hwf Hfirst Hsegs.
  destruct (trim_nosound_regions_spec meg_raw C L first rest segs
              Hsh Hwf Hfirst Hsegs) as (M & slices & E & _ & _ & HshM).
  exists M, (map snd segs). split; [assumption|]. split; [|assumption].
  rewrite length_map. eapply mapM_length; eassumption.
Qed.

Lemma C5_witness :
  exists meg_trimmed real_durations,
    trim_nosound_regions sample_meg sample_annotations
    = Ok (meg_trimmed, real_durations) /\
    List.length real_durations = 3 /\
    shape meg_trimmed = [2; 10].
Proof.
  apply (C5_one_segment_per_run sample_meg 2 20
           (sample_annotation 1 0.002 0) (tl sample_annotations)
           sample_segments);
    vm_compute; reflexivity.
Defined.

Lemma series_get_nth {V} (rows : list V) (i : nat) (v : V) :
  series_get rows (Z.of_nat i) = Ok v -> nth_error rows i = Some v.
Proof.
  unfold series_get. destruct (Z.leb_spec 0 (Z.of_nat i)); [|lia].
  rewrite Nat2Z.id. destruct (nth_error rows i); [|discriminate].
  now intros [= ->].
Qed.

Lemma Forall2_compose {A B C} (R : A -> B -> Prop) (Q : B -> C -> Prop) l1 :
  forall l2 l3, Forall2 R l1 l2 -> Forall2 Q l2 l3 ->
  Forall2 (fun a c => exists b, R a b /\ Q b c) l1 l3.
Proof.
  induction l1 as [|a l1 IH]; intros l2 l3 H1 H2; inversion H1; subst;
    inversion H2; subst; constructor; eauto.
Qed.

(** C6. Every segment is cut out of the raw matrix at the sample indices
    [int(start * 1000)] and [int(end * 1000)], where [start] is the onset
    in seconds of the first annotation of the run and [end] the onset plus
    the duration of its last one; no sample rate enters. Sample [k] of the
    slice is sample [k + lo] of the raw matrix, [lo] being the first index
    clamped to the matrix, and the result is the concatenation of the
    slices in the order of the runs. *)
Theorem C6_slices_at_millisecond_indices {A} (meg_raw : tensor A) (C L : nat)
    (first : annotation) (rest : list annotation)
    (segs : list (Z * Z * float)) :
  let df_annot := first :: rest in
  shape meg_raw = [C; L] -> wf meg_raw ->
  (sound_id first =? -1)%float = false ->
  mapM (segment_of_run df_annot) (runs (map sound_id df_annot)) = Ok segs ->
  exists meg_trimmed real_durations slices,
    trim_nosound_regions meg_raw df_annot = Ok (meg_trimmed, real_durations) /\
    Forall2
      (fun run sl =>
         exists head final lo hi,
           nth_error df_annot (fst run) = Some head /\
           nth_error df_annot (snd run) = Some final /\
           py_int (to_second (onset head) * 1000)%float = Ok lo /\
           py_int ((to_second (onset final) + duration final) * 1000)%float
           = Ok hi /\
           slice_axis 1 (Some lo) (Some hi) meg_raw = Ok sl /\
           shape sl = [C; slice_index L (Some hi) L - slice_index L (Some lo) 0] /\
           forall c k,
             c < C ->
             k < slice_index L (Some hi) L - slice_index L (Some lo) 0 ->
             get sl [c; k] = get meg_raw [c; k + slice_index L (Some lo) 0])
      (runs (map sound_id df_annot)) slices /\
    cat_axis 1 slices = Ok meg_trimmed.
Proof.
  intros df_annot Hsh Hwf Hfirst Hsegs.
  destruct (trim_nosound_regions_spec meg_raw C L first rest segs
              Hsh Hwf Hfirst Hsegs) as (M & slices & E & Hall & Hcat & _).
  exists M, (map snd segs), slices. split; [assumption|]. split; [|assumption].
  apply mapM_Forall2 in Hsegs.
  eapply Forall2_impl; [|exact (Forall2_compose _ _ _ _ _ Hsegs Hall)].
  intros run sl ([[lo hi] dur] & Hrun & Hsl & Hshsl & Hget).
  unfold segment_of_run in Hrun.
  inv_bind Hrun. inv_bind Hrun. inv_bind Hrun. inv_bind Hrun.
  injection Hrun as <- <- <-.
  exists v, v0, v1, v2.
  repeat split; trivial; now apply series_get_nth.
Qed.

Lemma C6_witness :
  exists meg_trimmed real_durations slices,
    trim_nosound_regions sample_meg sample_annotations
    = Ok (meg_trimmed, real_durations) /\
    Forall2
      (fun run sl =>
         exists head final lo hi,
           nth_error sample_annotations (fst run) = Some head /\
           nth_error sample_annotations (snd run) = Some final /\
           py_int (to_second (onset head) * 1000)%float = Ok lo /\
           py_int ((to_second (onset final) + duration final) * 1000)%float
           = Ok hi /\
           slice_axis 1 (Some lo) (Some hi) sample_meg = Ok sl /\
           shape sl = [2; slice_index 20 (Some hi) 20 - slice_index 20 (Some lo) 0] /\
           forall c k,
             c < 2 ->
             k < slice_index 20 (Some hi) 20 - slice_index 20 (Some lo) 0 ->
             get sl [c; k] = get sample_meg [c; k + slice_index 20 (Some lo) 0])
      [(0, 1); (2, 3); (4, 4)] slices /\
    cat_axis 1 slices = Ok meg_trimmed.
Proof.
  apply (C6_slices_at_millisecond_indices sample_meg 2 20
           (sample_annotation 1 0.002 0) (tl sample_annotations)
           sample_segments);
    vm_compute; reflexivity.
Defined.

(** The sample stream: the three runs are cut at samples 1..5, 6..11 and
    12..13 of each channel. *)
Example trim_sample :
  trim_nosound_regions sample_meg sample_annotations
  = Ok (Tensor [2; 10] [1; 2; 3; 4; 6; 7; 8; 9; 10; 12;
                        21; 22; 23; 24; 26; 27; 28; 29; 30; 32],
        map snd sample_segments).
Proof. vm_compute. reflexivity. Qed.

(** An empty stream leaves the loop variable unbound; a stream that starts
    with the sentinel loses its first run. *)
Example trim_empty_stream :
  trim_nosound_regions sample_meg [] = Raise UnboundLocalError.
Proof. reflexivity. Qed.

Example trim_sentinel_first :
  trim_nosound_regions sample_meg
    [sample_annotation 1 0.002 (-1); sample_annotation 3 0.002 1]%float
  = Ok (Tensor [2; 2] [3; 4; 23; 24], [0.002]%float).
Proof. vm_compute. reflexivity. Qed.

(** * Real durations *)

(** C7. Specified: recording another duration sequence for a task never
    raises. It does when the two sequences have different lengths, neither
    of them one: [np.allclose] cannot broadcast them and raises
    [ValueError], before anything is printed or stored. *)
Theorem C7_update_raises_on_length_mismatch (stored : dict (list float))
    (old real_durations : list float) (task_idx : nat) :
  dict_find ("task" ++ str_of_nat task_idx)%string stored = Some old ->
  List.length old <> List.length real_durations ->
  List.length old <> 1 -> List.length real_durations <> 1 ->
  update_real_durations stored real_durations task_idx = Raise ValueError.
Proof.
  intros Hfind Hlen Hold Hnew. unfold update_real_durations.
  rewrite Hfind. now rewrite np_allclose_mismatch.
Qed.

Lemma C7_witness :
  update_real_durations [("task0"%string, [5.0; 3.2]%float)]
                        [5.0; 3.2; 1.0]%float 0
  = Raise ValueError.
Proof.
  apply (C7_update_raises_on_length_mismatch
           [("task0"%string, [5.0; 3.2]%float)] [5.0; 3.2]%float
           [5.0; 3.2; 1.0]%float 0);
    [reflexivity | simpl; lia | simpl; lia | simpl; lia].
Defined.

(** The scenario of the specification: sequences of one length that
    differ are reported and the new one is stored. *)
Example update_mismatch_same_length :
  update_real_durations [("task0"%string, [5.0; 3.2]%float)] [5.0; 3.3]%float 0
  = Ok ([("task0"%string, [5.0; 3.3]%float)],
        [Text "Real durations are different";
         Durations [5.0; 3.3]%float; Durations [5.0; 3.2]%float]).
Proof. vm_compute. reflexivity. Qed.

(** * The audio cut *)

(** C8. A stimulus of [n] samples with cutoff
    [int(sample_rate * real_duration) >= 0]: when the waveform is longer
    than the cutoff it is cut to the cutoff and nothing is printed;
    otherwise it is left as it is and "No audio cutoff" is printed. Either
    way [min(n, cutoff)] samples remain, the first ones of the
    waveform. *)
Theorem C8_cut_to_real_duration {A} (waveform : tensor A) (Ch n : nat)
    (sample_rate : Z) (real_duration : float) (cutoff : Z) :
  shape waveform = [Ch; n] -> wf waveform ->
  py_int (float_of_Z sample_rate * real_duration)%float = Ok cutoff ->
  (0 <= cutoff)%Z ->
  exists waveform' out,
    cut_waveform waveform sample_rate real_duration = Ok (waveform', out) /\
    shape waveform' = [Ch; Nat.min n (Z.to_nat cutoff)] /\
    (if (Z.of_nat n >? cutoff)%Z
     then shape waveform' = [Ch; Z.to_nat cutoff] /\ out = []
     else waveform' = waveform /\ out = [Text "No audio cutoff"]) /\
    (forall c k, c < Ch -> k < Nat.min n (Z.to_nat cutoff) ->
       get waveform' [c; k] = get waveform [c; k]).
Proof. apply cut_waveform_spec. Qed.

Lemma C8_witness :
  exists waveform' out,
    cut_waveform (Tensor [1; 10] (seq 0 10)) 2 2.6%float = Ok (waveform', out) /\
    shape waveform' = [1; Nat.min 10 (Z.to_nat 5)] /\
    (if (Z.of_nat 10 >? 5)%Z
     then shape waveform' = [1; Z.to_nat 5] /\ out = []
     else waveform' = Tensor [1; 10] (seq 0 10)
          /\ out = [Text "No audio cutoff"]) /\
    (forall c k, c < 1 -> k < Nat.min 10 (Z.to_nat 5) ->
       get waveform' [c; k] = get (Tensor [1; 10] (seq 0 10)) [c; k]).
Proof.
  apply (C8_cut_to_real_duration (Tensor [1; 10] (seq 0 10)) 1 10 2 2.6%float 5);
    [reflexivity | reflexivity | vm_compute; reflexivity | lia].
Defined.

(** A waveform shorter than the cutoff is kept and flagged. *)
Example cut_short_waveform :
  cut_waveform (Tensor [1; 10] (seq 0 10)) 2 5.6%float
  = Ok (Tensor [1; 10] (seq 0 10), [Text "No audio cutoff"]).
Proof. vm_compute. reflexivity. Qed.

(** * Subject indices *)

Lemma getitem_subject {A B} (ds : dataset A B) i x y s :
  getitem ds i = Ok (x, y, s) -> select0 i (ds_subject_idxs ds) = Ok s.
Proof.
  unfold getitem. intros H. inv_bind H. inv_bind H. inv_bind H.
  now injection H as <- <- <-.
Qed.

(** Every element of the index vector of [Brennan2018Dataset.batchfy] is
    a subject number below [S]. *)
Lemma Brennan_subject_idxs_range {A B} (X : tensor A) (Y : tensor B)
    (S C E L W : nat) (ds : dataset A B) :
  shape X = [S; C; L] -> shape Y = [E; L] -> wf X -> wf Y ->
  0 < S -> 0 < C -> 0 < E -> 0 < W ->
  Brennan2018Dataset.batchfy X Y (Z.of_nat W) = Ok ds ->
  wf (ds_subject_idxs ds) /\
  shape (ds_subject_idxs ds) = [S * (L / W)] /\
  forall v, In v (flat (ds_subject_idxs ds)) -> (0 <= v < Z.of_nat S)%Z.
Proof.
  intros HX HY HwfX HwfY HS HC HE HW Hds.
  destruct (Brennan_batchfy_spec X Y S C E L W HX HY HwfX HwfY HS HC HE HW)
    as (ds' & Eds & (_ & _ & Hwf) & (_ & _ & Hsh) & _ & _ & Hget).
  rewrite Hds in Eds. injection Eds as <-.
  split; [assumption|]. split; [assumption|].
  intros v Hv. apply In_nth_error in Hv. destruct Hv as (p & Hp).
  assert (Hlt : p < S * (L / W)).
  { red in Hwf. rewrite Hsh in Hwf. simpl in Hwf.
    assert (p < List.length (flat (ds_subject_idxs ds)))
      by (apply nth_error_Some; congruence). lia. }
  set (n := L / W) in *.
  assert (Hn : 0 < n) by (destruct n; lia).
  assert (Hq : p / n < S) by (apply Nat.Div0.div_lt_upper_bound; lia).
  pose proof (Nat.mod_upper_bound p n ltac:(lia)) as Hr.
  specialize (Hget (p / n) (p mod n) Hq Hr).
  replace (p / n * n + p mod n) with p in Hget
    by (pose proof (Nat.div_mod_eq p n); lia).
  rewrite get_in_bounds in Hget by (rewrite Hsh; solve_bounds).
  rewrite Hsh in Hget. simpl in Hget.
  replace (p * 1 + 0) with p in Hget by lia.
  rewrite Hp in Hget. injection Hget as ->. lia.
Qed.

(** C9, as the code has it. Every subject index that an item carries lies
    in [[0, num_subjects)]: for Brennan2018, with [num_subjects] the
    number of subjects of the brain tensor; for Gwilliams2022, when the
    keys of the recordings are those that [brain_preproc] writes for at
    most 99 subjects, where the index of an item is the subject number of
    some key minus one. *)
Theorem C9_subject_index_range :
  (forall (A B : Type) (X : tensor A) (Y : tensor B) (S C E L W : nat)
          (ds : dataset A B) (i : Z) x y s,
      shape X = [S; C; L] -> shape Y = [E; L] -> wf X -> wf Y ->
      0 < S -> 0 < C -> 0 < E -> 0 < W ->
      Brennan2018Dataset.batchfy X Y (Z.of_nat W) = Ok ds ->
      getitem ds i = Ok (x, y, s) ->
      exists v, s = Tensor [] [v] /\ (0 <= v < Z.of_nat S)%Z) /\
  (forall (A B : Type) (as_float32 : A -> A) (meg_len audio_len : Z)
          (Xs : dict (tensor A)) (Ys : dict (tensor B)) (num_subjects : nat)
          (ds : dataset A B) (i : Z) x y s,
      num_subjects <= 99 ->
      (forall key, In key (dict_keys Xs) ->
         exists su se ta,
           su < num_subjects /\
           key = Gwilliams2022Dataset.description su se ta) ->
      Gwilliams2022Dataset.batchfy as_float32 meg_len audio_len Xs Ys = Ok ds ->
      getitem ds i = Ok (x, y, s) ->
      exists v su se ta,
        s = Tensor [] [v] /\
        In (Gwilliams2022Dataset.description su se ta) (dict_keys Xs) /\
        v = Z.of_nat su /\ (0 <= v < Z.of_nat num_subjects)%Z).
Proof.
  split.
  - intros A B X Y S C E L W ds i x y s HX HY HwfX HwfY HS HC HE HW Hds Hitem.
    destruct (Brennan_subject_idxs_range X Y S C E L W ds
                HX HY HwfX HwfY HS HC HE HW Hds) as (Hwf & Hsh & Hall).
    apply getitem_subject in Hitem.
    destruct (select0_vector _ _ _ _ Hsh Hwf Hitem) as (v & -> & Hv).
    eauto.
  - intros A B f meg_len audio_len Xs Ys num ds i x y s Hnum Hkeys Hds Hitem.
    destruct (Gwilliams_batchfy_subject_idxs f meg_len audio_len Xs Ys ds Hds)
      as (Hwf & (N & Hsh) & Hall).
    apply getitem_subject in Hitem.
    destruct (select0_vector _ _ _ _ Hsh Hwf Hitem) as (v & -> & Hv).
    destruct (Hall v Hv) as (key & z & Hkey & Hz & ->).
    destruct (Hkeys key Hkey) as (su & se & ta & Hsu & ->).
    rewrite subject_of_description in Hz by lia. injection Hz as <-.
    exists (Z.of_nat su), su, se, ta.
    rewrite Z.mul_1_r, Z.mod_small by lia.
    repeat split; trivial; lia.
Qed.

Lemma C9_witness :
  (exists ds x y s,
     Brennan2018Dataset.batchfy
       (Tensor [2; 2; 7] (seq 0 28)) (Tensor [3; 7] (seq 100 21)) 3 = Ok ds /\
     getitem ds 3 = Ok (x, y, s) /\
     exists v, s = Tensor [] [v] /\ (0 <= v < 2)%Z) /\
  (exists ds x y s,
     Gwilliams2022Dataset.batchfy (fun x : nat => x) 3 2 sample_Xs sample_Ys
     = Ok ds /\
     getitem ds 3 = Ok (x, y, s) /\
     exists v su se ta,
       s = Tensor [] [v] /\
       In (Gwilliams2022Dataset.description su se ta) (dict_keys sample_Xs) /\
       v = Z.of_nat su /\ (0 <= v < 2)%Z).
Proof.
  split.
  - do 4 eexists. split; [vm_compute; reflexivity|].
    split; [vm_compute; reflexivity|].
    eapply (proj1 C9_subject_index_range nat nat
              (Tensor [2; 2; 7] (seq 0 28)) (Tensor [3; 7] (seq 100 21))
              2 2 3 7 3 _ 3%Z _ _ _);
      try reflexivity; try lia; vm_compute; reflexivity.
  - do 4 eexists. split; [vm_compute; reflexivity|].
    split; [vm_compute; reflexivity|].
    eapply (proj2 C9_subject_index_range nat nat (fun x : nat => x) 3%Z 2%Z
              sample_Xs sample_Ys 2 _ 3%Z _ _ _);
      [lia | | vm_compute; reflexivity | vm_compute; reflexivity].
    intros key [<-|[<-|[]]];
      [exists 0, 0, 0 | exists 1, 0, 0]; (split; [lia | reflexivity]).
Defined.

(** C9 as stated fails for a hundredth subject: [brain_preproc] writes the
    key [subject100_sess0_task0], its last two characters read back as 0,
    and the index [-1] wraps around to 255 in [uint8], which is not below
    [num_subjects = 100]. *)
Lemma C9_counterexample :
  exists ds x y,
    99 < 100 /\
    In (Gwilliams2022Dataset.description 99 0 0) (dict_keys sample_Xs_100) /\
    Gwilliams2022Dataset.batchfy (fun x : nat => x) 3 2 sample_Xs_100 sample_Ys
    = Ok ds /\
    getitem ds 0 = Ok (x, y, Tensor [] [255%Z]) /\
    ~ (0 <= 255 < Z.of_nat 100)%Z.
Proof.
  do 3 eexists. split; [lia|]. split; [now left|].
  split; [vm_compute; reflexivity|]. split; [vm_compute; reflexivity|]. lia.
Qed.

Example description_of_hundredth_subject :
  Gwilliams2022Dataset.description 99 0 0 = "subject100_sess0_task0"%string
  /\ Gwilliams2022Dataset.subject_of_key "subject100_sess0_task0" = Ok (-1)%Z.
Proof. split; vm_compute; reflexivity. Qed.

(** * The toy dataset *)

Lemma sample_linspace_length (a b : Z) (n : nat) :
  List.length (sample_linspace a b n) = n.
Proof. unfold sample_linspace. now rewrite length_map, length_seq. Qed.

(** C10. For [X_dim <= Y_dim], every item of [ToyDataset] has as brain
    tensor exactly the first [X_dim] channels of its audio tensor. The
    statement holds for any element type, any element-wise cosine and any
    outcome of the random draws. *)
Theorem C10_toy_X_is_prefix_of_Y {T} (of_int : Z -> T)
    (t_add t_mul : T -> T -> T) (t_cos : T -> T)
    (linspace : T -> T -> nat -> list T)
    (rand : nat -> nat -> list T) (randint : nat -> list Z)
    (N L Xd Yd : nat) :
  (forall a b n, List.length (linspace a b n) = n) ->
  List.length (rand 0 N) = N -> List.length (randint N) = N ->
  0 < N -> 0 < Yd -> Xd <= Yd ->
  exists ds,
    ToyDataset of_int t_add t_mul t_cos linspace rand randint
               (Z.of_nat N) (Z.of_nat L) (Z.of_nat Xd) (Z.of_nat Yd) = Ok ds /\
    len ds = Ok (Z.of_nat N) /\
    forall i, i < N ->
      exists x y s,
        getitem ds (Z.of_nat i) = Ok (x, y, s) /\
        shape x = [Xd; L] /\ shape y = [Yd; L] /\
        slice_axis 0 None (Some (Z.of_nat Xd)) y = Ok x /\
        forall c k, c < Xd -> k < L -> get x [c; k] = get y [c; k].
Proof.
  intros Hlin Hrand Hrandint HN HYd HXd.
  destruct (ToyDataset_spec of_int t_add t_mul t_cos linspace rand randint
              N L Yd (Z.of_nat Xd) Hlin Hrand Hrandint HN HYd)
    as (ds & Eds & Hlen & Hitems).
  exists ds. split; [assumption|]. split; [assumption|].
  intros i Hi. destruct (Hitems i Hi) as (x & y & s & Eitem & Hshy & Hwfy & Esl).
  exists x, y, s. split; [assumption|].
  destruct (slice_axis_spec 0 None (Some (Z.of_nat Xd)) y Yd)
    as (x' & Ex' & _ & Hshx' & Hgetx'); [now rewrite Hshy | assumption |].
  rewrite Esl in Ex'. injection Ex' as <-.
  rewrite slice_index_stop_nonneg in Hshx' by lia.
  rewrite Hshy, Nat2Z.id in Hshx'. simpl in Hshx', Hgetx'.
  rewrite Nat.sub_0_r in Hshx'.
  repeat split; trivial.
  intros c k Hc Hk. rewrite Hgetx' by (rewrite Hshx'; solve_bounds).
  simpl. now rewrite Nat.add_0_r.
Qed.

Lemma C10_witness :
  exists ds,
    ToyDataset (fun z : Z => z) Z.add Z.mul (fun z => (z + 1000)%Z)
               sample_linspace sample_rand sample_randint 2 3 1 2 = Ok ds /\
    len ds = Ok 2%Z /\
    forall i, i < 2 ->
      exists x y s,
        getitem ds (Z.of_nat i) = Ok (x, y, s) /\
        shape x = [1; 3] /\ shape y = [2; 3] /\
        slice_axis 0 None (Some 1%Z) y = Ok x /\
        forall c k, c < 1 -> k < 3 -> get x [c; k] = get y [c; k].
Proof.
  apply (C10_toy_X_is_prefix_of_Y (fun z : Z => z) Z.add Z.mul
           (fun z => (z + 1000)%Z) sample_linspace sample_rand sample_randint
           2 3 1 2);
    [exact sample_linspace_length | reflexivity | reflexivity | lia | lia | lia].
Defined.

(** * Items of a dataset *)

(** A scalar tensor is its only element. *)
Lemma scalar_tensor {A} (t : tensor A) (v : A) :
  shape t = [] -> wf t -> get t [] = Some v -> t = Tensor [] [v].
Proof.
  destruct t as [sh fl]. unfold wf, get. simpl. intros -> Hlen.
  simpl in *. destruct fl as [|a [|b fl]]; simpl in *; try discriminate.
  now intros [= ->].
Qed.

Lemma select0_out_of_range {A} (t : tensor A) (N : nat) (i : Z) :
  py_len t = Ok (Z.of_nat N) ->
  (i < - Z.of_nat N \/ Z.of_nat N <= i)%Z ->
  select0 i t = Raise IndexError.
Proof.
  unfold py_len, select0. destruct (shape t) as [|d sh]; [discriminate|].
  intros [= Hd] Hi. apply Nat2Z.inj in Hd. subst d.
  destruct (Z.ltb_spec i 0).
  - destruct (Z.leb_spec 0 (i + Z.of_nat N)); [lia|]. reflexivity.
  - destruct (Z.leb_spec 0 i); [|lia].
    destruct (Z.ltb_spec i (Z.of_nat N)); [lia|]. reflexivity.
Qed.

Lemma select0_negative {A} (t : tensor A) (N : nat) (i : Z) :
  py_len t = Ok (Z.of_nat N) ->
  (- Z.of_nat N <= i < 0)%Z ->
  select0 i t = select0 (i + Z.of_nat N) t.
Proof.
  unfold py_len, select0. destruct (shape t) as [|d sh]; [discriminate|].
  intros [= Hd] Hi. apply Nat2Z.inj in Hd. subst d.
  destruct (Z.ltb_spec i 0); [|lia].
  destruct (Z.ltb_spec (i + Z.of_nat N) 0); [lia|]. reflexivity.
Qed.

Lemma select0_in_range {A} (t : tensor A) (N : nat) (i : Z) :
  py_len t = Ok (Z.of_nat N) ->
  (- Z.of_nat N <= i < Z.of_nat N)%Z ->
  exists t', select0 i t = Ok t'.
Proof.
  unfold py_len, select0. destruct (shape t) as [|d sh]; [discriminate|].
  intros [= Hd] Hi. apply Nat2Z.inj in Hd. subst d.
  destruct (Z.ltb_spec i 0).
  - destruct (Z.leb_spec 0 (i + Z.of_nat N)); [|lia].
    destruct (Z.ltb_spec (i + Z.of_nat N) (Z.of_nat N)); [|lia].
    eexists. reflexivity.
  - destruct (Z.leb_spec 0 i); [|lia].
    destruct (Z.ltb_spec i (Z.of_nat N)); [|lia].
    eexists. reflexivity.
Qed.

(** X1: [__getitem__] on a dataset whose three tensors have the same
    length [N] (what both [batchfy] build): item [i] exists exactly for
    [-N <= i < N], any other index raises [IndexError], and a negative
    index [i] denotes item [N + i]. *)
Theorem getitem_index_range {A B} (ds : dataset A B) (N : nat) (i : Z) :
  py_len (ds_X ds) = Ok (Z.of_nat N) ->
  py_len (ds_Y ds) = Ok (Z.of_nat N) ->
  py_len (ds_subject_idxs ds) = Ok (Z.of_nat N) ->
  ((exists item, getitem ds i = Ok item) <-> (- Z.of_nat N <= i < Z.of_nat N)%Z)
  /\ ((i < - Z.of_nat N \/ Z.of_nat N <= i)%Z -> getitem ds i = Raise IndexError)
  /\ ((- Z.of_nat N <= i < 0)%Z -> getitem ds i = getitem ds (i + Z.of_nat N)).
Proof.
  intros HX HY Hs.
  assert (Hout : (i < - Z.of_nat N \/ Z.of_nat N <= i)%Z ->
                 getitem ds i = Raise IndexError).
  { intros Hi. unfold getitem.
    now rewrite (select0_out_of_range _ N i HX Hi). }
  split; [split|split].
  - intros [item E].
    destruct (Z_lt_ge_dec i (- Z.of_nat N)) as [Hlo|Hlo].
    + rewrite Hout in E by lia. discriminate.
    + destruct (Z_lt_ge_dec i (Z.of_nat N)) as [Hhi|Hhi]; [lia|].
      rewrite Hout in E by lia. discriminate.
  - intros Hi. unfold getitem.
    destruct (select0_in_range _ N i HX Hi) as [x ->].
    destruct (select0_in_range _ N i HY Hi) as [y ->].
    destruct (select0_in_range _ N i Hs Hi) as [s ->].
    cbn [bind]. eexists. reflexivity.
  - exact Hout.
  - intros Hi. unfold getitem.
    now rewrite (select0_negative _ N i HX Hi), (select0_negative _ N i HY Hi),
      (select0_negative _ N i Hs Hi).
Qed.

Lemma getitem_index_range_witness :
  ((exists item, getitem sample_dataset (-1) = Ok item)
   <-> (- Z.of_nat 2 <= -1 < Z.of_nat 2)%Z)
  /\ getitem sample_dataset (-1) = getitem sample_dataset 1
  /\ getitem sample_dataset 2 = Raise IndexError.
Proof.
  pose proof (getitem_index_range sample_dataset 2 (-1)
                eq_refl eq_refl eq_refl) as (H1 & _ & H3).
  pose proof (getitem_index_range sample_dataset 2 2
                eq_refl eq_refl eq_refl) as (_ & H2 & _).
  split; [exact H1|]. split.
  - apply H3. simpl. lia.
  - apply H2. simpl. lia.
Defined.

(** An item of the dataset that [Brennan2018Dataset.batchfy] builds:
    with [n = L / W] windows per subject, item [i < S * n] is window
    [i mod n] of subject [i / n]: its brain part holds samples
    [(i mod n) * W ..] of that subject's channels, its audio part the same
    samples of the embeddings, and its index is [i / n]. *)
Lemma Brennan_batchfy_item {A B} (X : tensor A) (Y : tensor B)
    (S C E L W i : nat) :
  shape X = [S; C; L] -> shape Y = [E; L] -> wf X -> wf Y ->
  0 < S -> 0 < C -> 0 < E -> 0 < W ->
  i < S * (L / W) ->
  exists ds x y,
    Brennan2018Dataset.batchfy X Y (Z.of_nat W) = Ok ds /\
    len ds = Ok (Z.of_nat (S * (L / W))) /\
    getitem ds (Z.of_nat i) = Ok (x, y, Tensor [] [Z.of_nat (i / (L / W))]) /\
    shape x = [C; W] /\ shape y = [E; W] /\
    (forall c k, c < C -> k < W ->
       get x [c; k] = get X [i / (L / W); c; (i mod (L / W)) * W + k]) /\
    (forall e k, e < E -> k < W ->
       get y [e; k] = get Y [e; (i mod (L / W)) * W + k]).
Proof.
  intros HX HY HwfX HwfY HS HC HE HW Hi.
  destruct (Brennan_batchfy_spec X Y S C E L W HX HY HwfX HwfY HS HC HE HW)
    as (ds & Eds & (WX & WY & Ws) & (SX & SY & Ss) & GX & GY & Gs).
  set (n := L / W) in *.
  assert (Hn : 0 < n) by (destruct n; [lia|lia]).
  assert (Hq : i / n < S) by (apply Nat.Div0.div_lt_upper_bound; lia).
  assert (Hr : i mod n < n) by (apply Nat.mod_upper_bound; lia).
  assert (Ei : i = i / n * n + i mod n).
  { rewrite (Nat.div_mod_eq i n) at 1. lia. }
  destruct (select0_spec (ds_X ds) (S * n) [C; W] i SX WX Hi)
    as (x & Ex & Wx & Sx & Gx).
  destruct (select0_spec (ds_Y ds) (S * n) [E; W] i SY WY Hi)
    as (y & Ey & Wy & Sy & Gy).
  destruct (select0_spec (ds_subject_idxs ds) (S * n) [] i Ss Ws Hi)
    as (s & Es & Wss & Sss & Gss).
  exists ds, x, y. split; [exact Eds|]. split.
  { unfold len, py_len. now rewrite SX. }
  split.
  { unfold getitem. rewrite Ex, Ey, Es. cbn [bind].
    rewrite (scalar_tensor s (Z.of_nat (i / n)) Sss Wss); [reflexivity|].
    rewrite (Gss [] eq_refl). rewrite Ei at 1. now apply Gs. }
  split; [exact Sx|]. split; [exact Sy|]. split.
  - intros c k Hc Hk. rewrite Gx by solve_bounds.
    rewrite Ei at 1. now apply GX.
  - intros e k He Hk. rewrite Gy by solve_bounds.
    rewrite Ei at 1. now apply GY.
Qed.

(** X2: an item of the dataset that [Brennan2018Dataset.batchfy] builds.
    With [n = L / W] windows per subject, item [i < S * n] is window
    [i mod n] of subject [i / n]: its brain part holds samples
    [(i mod n) * W ..] of that subject's channels, its audio part the same
    samples of the embeddings, and its index is [i / n]. *)
Theorem Brennan_item_is_window {A B} (X : tensor A) (Y : tensor B)
    (S C E L W i : nat) :
  shape X = [S; C; L] -> shape Y = [E; L] -> wf X -> wf Y ->
  0 < S -> 0 < C -> 0 < E -> 0 < W ->
  i < S * (L / W) ->
  exists ds x y,
    Brennan2018Dataset.batchfy X Y (Z.of_nat W) = Ok ds /\
    len ds = Ok (Z.of_nat (S * (L / W))) /\
    getitem ds (Z.of_nat i) = Ok (x, y, Tensor [] [Z.of_nat (i / (L / W))]) /\
    shape x = [C; W] /\ shape y = [E; W] /\
    (forall c k, c < C -> k < W ->
       get x [c; k] = get X [i / (L / W); c; (i mod (L / W)) * W + k]) /\
    (forall e k, e < E -> k < W ->
       get y [e; k] = get Y [e; (i mod (L / W)) * W + k]).
Proof. exact (Brennan_batchfy_item X Y S C E L W i). Qed.

Lemma Brennan_item_is_window_witness :
  exists ds x y,
    Brennan2018Dataset.batchfy
      (Tensor [2; 2; 7] (seq 0 28)) (Tensor [3; 7] (seq 100 21)) (Z.of_nat 3)
    = Ok ds /\
    len ds = Ok (Z.of_nat (2 * (7 / 3))) /\
    getitem ds (Z.of_nat 3) = Ok (x, y, Tensor [] [Z.of_nat (3 / (7 / 3))]) /\
    shape x = [2; 3] /\ shape y = [3; 3] /\
    (forall c k, c < 2 -> k < 3 ->
       get x [c; k]
       = get (Tensor [2; 2; 7] (seq 0 28)) [3 / (7 / 3); c; (3 mod (7 / 3)) * 3 + k]) /\
    (forall e k, e < 3 -> k < 3 ->
       get y [e; k]
       = get (Tensor [3; 7] (seq 100 21)) [e; (3 mod (7 / 3)) * 3 + k]).
Proof.
  apply (Brennan_item_is_window (Tensor [2; 2; 7] (seq 0 28))
           (Tensor [3; 7] (seq 100 21)) 2 2 3 7 3 3);
    try reflexivity; simpl; lia.
Defined.

(** * The shift, for every integer number of samples *)

Lemma shift_brain_signal_by {A B} (X : tensor A) (Y : tensor B)
    (S C E L : nat) (srate shift : float) (z : Z) :
  shape X = [S; C; L] -> shape Y = [E; L] -> wf X -> wf Y ->
  py_int (srate * (shift / 1000))%float = Ok z ->
  exists X' Y',
    shift_brain_signal X Y srate shift = Ok (X', Y') /\
    (wf X' /\ wf Y') /\
    shape X' = [S; C; L - slice_index L (Some z) 0] /\
    shape Y' = [E; slice_index L (Some (- z)%Z) L] /\
    (forall i c t, i < S -> c < C -> t < L - slice_index L (Some z) 0 ->
       get X' [i; c; t] = get X [i; c; t + slice_index L (Some z) 0]) /\
    (forall e t, e < E -> t < slice_index L (Some (- z)%Z) L ->
       get Y' [e; t] = get Y [e; t]).
Proof.
  intros HX HY HwfX HwfY Hint.
  destruct (slice_axis_spec 2 (Some z) None X L)
    as (X' & EX & WX & HshX & HgetX); [now rewrite HX | assumption |].
  destruct (slice_axis_spec 1 None (Some (- z)%Z) Y L)
    as (Y' & EY & WY & HshY & HgetY); [now rewrite HY | assumption |].
  rewrite HX in HshX. rewrite HY in HshY.
  cbn [upd] in HshX, HshY.
  change (slice_index L None L) with L in HshX.
  change (slice_index L None 0) with 0 in HshY, HgetY.
  rewrite Nat.sub_0_r in HshY.
  exists X', Y'. split; [|split; [|split; [|split; [|split]]]]; trivial.
  - unfold shift_brain_signal. rewrite Hint. cbn [bind].
    rewrite EX. cbn [bind]. rewrite EY. reflexivity.
  - auto.
  - intros i c t Hi Hc Ht. rewrite HgetX; [reflexivity|].
    rewrite HshX. solve_bounds.
  - intros e t He Ht. rewrite HgetY.
    + cbn [upd]. now rewrite Nat.add_0_r.
    + rewrite HshY. solve_bounds.
Qed.

(** X3: [shift_brain_signal] with a positive number [s] of samples
    ([s = int(srate * shift / 1000)]): both signals keep [L - s] samples
    (none when [s >= L]); brain sample [t] of the result is brain sample
    [t + s] of the input and audio sample [t] is unchanged, so every audio
    sample is paired with the brain sample recorded [s] samples later. *)
Theorem shift_pairs_audio_with_later_brain {A B} (X : tensor A) (Y : tensor B)
    (S C E L : nat) (srate shift : float) (s : nat) :
  shape X = [S; C; L] -> shape Y = [E; L] -> wf X -> wf Y ->
  py_int (srate * (shift / 1000))%float = Ok (Z.of_nat s) ->
  0 < s ->
  exists X' Y',
    shift_brain_signal X Y srate shift = Ok (X', Y') /\
    shape X' = [S; C; L - s] /\ shape Y' = [E; L - s] /\
    (forall i c t, i < S -> c < C -> t < L - s ->
       get X' [i; c; t] = get X [i; c; t + s]) /\
    (forall e t, e < E -> t < L - s -> get Y' [e; t] = get Y [e; t]).
Proof.
  intros HX HY HwfX HwfY Hint Hs.
  destruct (shift_brain_signal_by X Y S C E L srate shift _ HX HY HwfX HwfY Hint)
    as (X' & Y' & E0 & _ & SX & SY & GX & GY).
  assert (Hlo : L - slice_index L (Some (Z.of_nat s)) 0 = L - s).
  { cbn [slice_index]. destruct (Z.ltb_spec (Z.of_nat s) 0); lia. }
  assert (Hhi : slice_index L (Some (- Z.of_nat s)%Z) L = L - s).
  { cbn [slice_index]. destruct (Z.ltb_spec (- Z.of_nat s) 0); lia. }
  rewrite Hlo in SX, GX. rewrite Hhi in SY, GY.
  exists X', Y'. split; [exact E0|]. split; [exact SX|]. split; [exact SY|].
  split; [|exact GY].
  intros i c t Hi Hc Ht. rewrite GX by assumption.
  do 3 f_equal. f_equal. cbn [slice_index].
  destruct (Z.ltb_spec (Z.of_nat s) 0); lia.
Qed.

Lemma shift_pairs_audio_with_later_brain_witness :
  exists X' Y',
    shift_brain_signal (Tensor [2; 4; 30] (seq 0 240)) (Tensor [8; 30] (seq 0 240))
                       135 150 = Ok (X', Y') /\
    shape X' = [2; 4; 30 - 20] /\ shape Y' = [8; 30 - 20] /\
    (forall i c t, i < 2 -> c < 4 -> t < 30 - 20 ->
       get X' [i; c; t] = get (Tensor [2; 4; 30] (seq 0 240)) [i; c; t + 20]) /\
    (forall e t, e < 8 -> t < 30 - 20 ->
       get Y' [e; t] = get (Tensor [8; 30] (seq 0 240)) [e; t]).
Proof.
  apply (shift_pairs_audio_with_later_brain
           (Tensor [2; 4; 30] (seq 0 240)) (Tensor [8; 30] (seq 0 240))
           2 4 8 30 135 150 20); try reflexivity. lia.
Defined.

(** X4: [shift_brain_signal] with a negative number [- k] of samples does
    not shift backward: [X[:, :, -k:]] keeps the last [min k L] brain
    samples and [Y[:, :k]] the first [min k L] audio samples. *)
Theorem negative_shift_keeps_k_samples {A B} (X : tensor A) (Y : tensor B)
    (S C E L : nat) (srate shift : float) (k : nat) :
  shape X = [S; C; L] -> shape Y = [E; L] -> wf X -> wf Y ->
  py_int (srate * (shift / 1000))%float = Ok (- Z.of_nat k)%Z ->
  0 < k ->
  exists X' Y',
    shift_brain_signal X Y srate shift = Ok (X', Y') /\
    shape X' = [S; C; Nat.min k L] /\ shape Y' = [E; Nat.min k L] /\
    (forall i c t, i < S -> c < C -> t < Nat.min k L ->
       get X' [i; c; t] = get X [i; c; t + (L - Nat.min k L)]) /\
    (forall e t, e < E -> t < Nat.min k L -> get Y' [e; t] = get Y [e; t]).
Proof.
  intros HX HY HwfX HwfY Hint Hk.
  destruct (shift_brain_signal_by X Y S C E L srate shift _ HX HY HwfX HwfY Hint)
    as (X' & Y' & E0 & _ & SX & SY & GX & GY).
  assert (Hlo : slice_index L (Some (- Z.of_nat k)%Z) 0 = L - Nat.min k L).
  { cbn [slice_index]. destruct (Z.ltb_spec (- Z.of_nat k) 0); lia. }
  assert (Hhi : slice_index L (Some (- - Z.of_nat k)%Z) L = Nat.min k L).
  { cbn [slice_index]. destruct (Z.ltb_spec (- - Z.of_nat k) 0); lia. }
  rewrite Hlo in SX, GX. rewrite Hhi in SY, GY.
  replace (L - (L - Nat.min k L)) with (Nat.min k L) in SX, GX by lia.
  exists X', Y'. repeat split; assumption.
Qed.

Lemma negative_shift_keeps_k_samples_witness :
  exists X' Y',
    shift_brain_signal (Tensor [2; 4; 30] (seq 0 240)) (Tensor [8; 30] (seq 0 240))
                       135 (-150) = Ok (X', Y') /\
    shape X' = [2; 4; Nat.min 20 30] /\ shape Y' = [8; Nat.min 20 30] /\
    (forall i c t, i < 2 -> c < 4 -> t < Nat.min 20 30 ->
       get X' [i; c; t]
       = get (Tensor [2; 4; 30] (seq 0 240)) [i; c; t + (30 - Nat.min 20 30)]) /\
    (forall e t, e < 8 -> t < Nat.min 20 30 ->
       get Y' [e; t] = get (Tensor [8; 30] (seq 0 240)) [e; t]).
Proof.
  apply (negative_shift_keeps_k_samples
           (Tensor [2; 4; 30] (seq 0 240)) (Tensor [8; 30] (seq 0 240))
           2 4 8 30 135 (-150) 20); try reflexivity. lia.
Defined.

(** * [Brennan2018Dataset.batchfy]: what it rejects *)

(** X5: [batchfy] raises [AssertionError] exactly when the brain signal
    and the audio differ in length along time. *)
Theorem Brennan_batchfy_asserts_equal_lengths {A B} (X : tensor A)
    (Y : tensor B) (S C E L L' W : nat) :
  shape X = [S; C; L] -> shape Y = [E; L'] -> wf X -> wf Y ->
  0 < S -> 0 < C -> 0 < E -> 0 < W ->
  (Brennan2018Dataset.batchfy X Y (Z.of_nat W) = Raise AssertionError
   <-> L <> L').
Proof.
  intros HX HY HwfX HwfY HS HC HE HW. split.
  - intros Er Heq. subst L'.
    destruct (Brennan_batchfy_spec X Y S C E L W HX HY HwfX HwfY HS HC HE HW)
      as (ds & Eds & _).
    rewrite Eds in Er. discriminate.
  - intros Hne. unfold Brennan2018Dataset.batchfy.
    step (shape_last_eq X [S; C] L HX). step (shape_last_eq Y [E] L' HY).
    destruct (Z.eqb_spec (Z.of_nat L) (Z.of_nat L')); [lia|]. reflexivity.
Qed.

Lemma Brennan_batchfy_asserts_equal_lengths_witness :
  Brennan2018Dataset.batchfy (Tensor [2; 2; 7] (seq 0 28))
                             (Tensor [3; 6] (seq 100 18)) (Z.of_nat 3)
  = Raise AssertionError
  <-> 7 <> 6.
Proof.
  apply (Brennan_batchfy_asserts_equal_lengths
           (Tensor [2; 2; 7] (seq 0 28)) (Tensor [3; 6] (seq 100 18))
           2 2 3 7 6 3); try reflexivity; lia.
Defined.

(** X6: [batchfy] builds no dataset for a window length that is not
    positive: [seq_len = 0] raises [ZeroDivisionError] at the modulo, and
    a negative [seq_len] raises [RuntimeError] at the first [reshape]. *)
Theorem Brennan_batchfy_nonpositive_seq_len {A B} (X : tensor A)
    (Y : tensor B) (S C E L : nat) (seq_len : Z) :
  shape X = [S; C; L] -> shape Y = [E; L] -> (seq_len <= 0)%Z ->
  Brennan2018Dataset.batchfy X Y seq_len
  = Raise (if (seq_len =? 0)%Z then ZeroDivisionError else RuntimeError).
Proof.
  intros HX HY Hneg. unfold Brennan2018Dataset.batchfy.
  step (shape_last_eq X [S; C] L HX). step (shape_last_eq Y [E] L HY).
  rewrite Z.eqb_refl. cbn [py_assert bind]. unfold py_mod.
  destruct (Z.eqb_spec seq_len 0) as [->|Hnz]; [reflexivity|].
  cbn [bind].
  destruct (slice_axis_shape 2 None
              (Some (Z.of_nat L - Z.of_nat L mod seq_len)%Z) X L)
    as (X1 & EX1 & SX1); [now rewrite HX|].
  destruct (slice_axis_shape 1 None
              (Some (Z.of_nat L - Z.of_nat L mod seq_len)%Z) Y L)
    as (Y1 & EY1 & SY1); [now rewrite HY|].
  step EX1. step EY1.
  rewrite HX in SX1. cbn [upd] in SX1.
  rewrite (shape_at_eq X1 0 S), (shape_at_eq X1 1 C) by now rewrite SX1.
  cbn [bind]. unfold reshape, infer_shape.
  destruct (Z.eq_dec seq_len (-1)) as [->|Hm1].
  - cbn [existsb]. rewrite !orb_false_r.
    destruct (Z.ltb_spec (Z.of_nat S) (-1)); [lia|].
    destruct (Z.ltb_spec (Z.of_nat C) (-1)); [lia|].
    cbn [orb filter].
    destruct (Z.eqb_spec (Z.of_nat S) (-1)); [lia|].
    destruct (Z.eqb_spec (Z.of_nat C) (-1)); [lia|].
    reflexivity.
  - assert (Hlt : (seq_len <? -1)%Z = true) by (apply Z.ltb_lt; lia).
    cbn [existsb]. rewrite Hlt, !orb_true_r. reflexivity.
Qed.

Lemma Brennan_batchfy_nonpositive_seq_len_witness :
  Brennan2018Dataset.batchfy (Tensor [2; 2; 7] (seq 0 28))
                             (Tensor [3; 7] (seq 100 21)) 0
  = Raise ZeroDivisionError
  /\ Brennan2018Dataset.batchfy (Tensor [2; 2; 7] (seq 0 28))
                                (Tensor [3; 7] (seq 100 21)) (-3)
     = Raise RuntimeError.
Proof.
  split.
  - apply (Brennan_batchfy_nonpositive_seq_len
             (Tensor [2; 2; 7] (seq 0 28)) (Tensor [3; 7] (seq 100 21))
             2 2 3 7 0); try reflexivity; try lia.
  - apply (Brennan_batchfy_nonpositive_seq_len
             (Tensor [2; 2; 7] (seq 0 28)) (Tensor [3; 7] (seq 100 21))
             2 2 3 7 (-3)); try reflexivity; try lia.
Defined.

(** X7: a window longer than the signal is no error: [batchfy] returns a
    dataset of length zero, without elements, every index of which raises
    [IndexError]. *)
Theorem Brennan_batchfy_window_longer_than_signal {A B} (X : tensor A)
    (Y : tensor B) (S C E L W : nat) :
  shape X = [S; C; L] -> shape Y = [E; L] -> wf X -> wf Y ->
  0 < S -> 0 < C -> 0 < E -> L < W ->
  exists ds,
    Brennan2018Dataset.batchfy X Y (Z.of_nat W) = Ok ds /\
    len ds = Ok 0%Z /\
    flat (ds_X ds) = [] /\ flat (ds_Y ds) = [] /\
    flat (ds_subject_idxs ds) = [] /\
    forall i, getitem ds i = Raise IndexError.
Proof.
  intros HX HY HwfX HwfY HS HC HE HW.
  destruct (Brennan_batchfy_spec X Y S C E L W HX HY HwfX HwfY HS HC HE)
    as (ds & Eds & (WX & WY & Ws) & (SX & SY & Ss) & _); [lia|].
  rewrite (Nat.div_small L W HW), Nat.mul_0_r in SX, SY, Ss.
  assert (Hlen : len ds = Ok (Z.of_nat 0)).
  { unfold len, py_len. now rewrite SX. }
  exists ds. split; [exact Eds|]. split; [exact Hlen|].
  red in WX, WY, Ws. rewrite SX in WX. rewrite SY in WY. rewrite Ss in Ws.
  simpl in WX, WY, Ws.
  split; [now apply length_zero_iff_nil|].
  split; [now apply length_zero_iff_nil|].
  split; [now apply length_zero_iff_nil|].
  intros i. unfold getitem.
  rewrite (select0_out_of_range (ds_X ds) 0 i Hlen); [reflexivity|lia].
Qed.

Lemma Brennan_batchfy_window_longer_than_signal_witness :
  exists ds,
    Brennan2018Dataset.batchfy (Tensor [2; 2; 7] (seq 0 28))
                               (Tensor [3; 7] (seq 100 21)) (Z.of_nat 8)
    = Ok ds /\
    len ds = Ok 0%Z /\
    flat (ds_X ds) = [] /\ flat (ds_Y ds) = [] /\
    flat (ds_subject_idxs ds) = [] /\
    forall i, getitem ds i = Raise IndexError.
Proof.
  apply (Brennan_batchfy_window_longer_than_signal
           (Tensor [2; 2; 7] (seq 0 28)) (Tensor [3; 7] (seq 100 21))
           2 2 3 7 8); try reflexivity; lia.
Defined.

(** * The constructor of [Brennan2018Dataset] *)

Lemma stack_inv {T} (ts : list (tensor T)) (t : tensor T) :
  stack ts = Ok t ->
  exists u rest, ts = u :: rest /\ shape t = List.length ts :: shape u.
Proof.
  unfold stack. destruct ts as [|u rest]; [discriminate|].
  destruct (forallb _ _); [|discriminate].
  intros [= <-]. exists u, rest. split; reflexivity.
Qed.

Lemma as_numpy_Ok_inv {B} (r : result B) (b : B) :
  as_numpy r = Ok b -> r = Ok b.
Proof. destruct r as [a|[]]; simpl; congruence. Qed.

Lemma true_div_Ok_inv (a b : Z) (q : float) :
  true_div a b = Ok q -> b <> 0%Z /\ q = (float_of_Z a / float_of_Z b)%float.
Proof.
  unfold true_div. destruct (Z.eqb_spec b 0); [discriminate|].
  intros [= <-]. split; [assumption|reflexivity].
Qed.

Section BrennanPipeline.
Variables A B : Type.
Variable as_float32 : A -> A.
Variable filter_data : tensor A -> float -> result (tensor A).
Variable resample : tensor A -> float -> result (tensor A).
Variable robust_scale : tensor A -> result (tensor A).
Variable audio_preproc : string -> result (tensor B).


Lemma preproc_subject_inv (embd : Z) (trial : tensor A) (fsample : float)
    (eeg : tensor A) (srate : float) :
  Brennan2018.preproc_subject filter_data resample robust_scale
    embd (trial, fsample) = Ok (eeg, srate) ->
  embd <> 0%Z /\
  exists eeg_raw eeg_filtered n,
    slice_axis 0 None (Some 60%Z) trial = Ok eeg_raw /\
    filter_data eeg_raw fsample = Ok eeg_filtered /\
    shape_last eeg_filtered = Ok n /\
    srate = (fsample / (float_of_Z n / float_of_Z embd))%float.
Proof.
  unfold Brennan2018.preproc_subject. intros H.
  inv_bind H. inv_bind H. inv_bind H. inv_bind H. inv_bind H. inv_bind H.
  injection H as _ <-.
  apply true_div_Ok_inv in E2. destruct E2 as [Hnz ->].
  split; [exact Hnz|]. exists v, v0, v1. auto.
Qed.

(** X8: [Brennan2018Dataset.brain_preproc] reads the first two recordings
    only ([natsorted(...)[:2]]): when it returns, there is at least one
    recording, the embedding length is not zero, the tensor has
    [min 2 (number of recordings)] subjects, and the rate is the one
    computed for the last of these, [fsample / (n / audio_embd_len)] with
    [n] the length of its filtered signal. *)
Theorem Brennan_brain_preproc_first_two (matfiles : list (tensor A * float))
    (audio_embd_len : Z) (X : tensor A) (srate : float) :
  Brennan2018.brain_preproc as_float32 filter_data resample robust_scale
    matfiles audio_embd_len = Ok (X, srate) ->
  0 < List.length matfiles /\
  audio_embd_len <> 0%Z /\
  (exists sh, shape X = Nat.min 2 (List.length matfiles) :: sh) /\
  (exists trial fsample eeg_raw eeg_filtered n,
     nth_error matfiles (Nat.min 2 (List.length matfiles) - 1)
     = Some (trial, fsample) /\
     slice_axis 0 None (Some 60%Z) trial = Ok eeg_raw /\
     filter_data eeg_raw fsample = Ok eeg_filtered /\
     shape_last eeg_filtered = Ok n /\
     srate = (fsample / (float_of_Z n / float_of_Z audio_embd_len))%float) /\
  Brennan2018.brain_preproc as_float32 filter_data resample robust_scale
    (firstn 2 matfiles) audio_embd_len = Ok (X, srate).
Proof.
  intros H. pose proof H as H0.
  unfold Brennan2018.brain_preproc in H.
  inv_bind H. inv_bind H. inv_bind H. injection H as <- <-.
  apply as_numpy_Ok_inv in E0.
  destruct (stack_inv _ _ E0) as (u & rest & Ev & Hsh).
  rewrite length_map in Hsh. rewrite (mapM_length _ _ _ E) in Hsh.
  assert (Hlen : List.length (firstn 2 matfiles)
                 = Nat.min 2 (List.length matfiles)) by apply length_firstn.
  rewrite Hlen in Hsh.
  assert (Hlast : exists trial fsample eeg,
             nth_error matfiles (Nat.min 2 (List.length matfiles) - 1)
             = Some (trial, fsample) /\
             Brennan2018.preproc_subject filter_data resample robust_scale
    audio_embd_len (trial, fsample) = Ok (eeg, v1)).
  {     destruct matfiles as [|[t1 f1] [|[t2 f2] more]]; cbn [firstn mapM] in E.
    - injection E as <-. discriminate.
    - inv_bind E. injection E as <-. destruct v2 as [eeg r].
      cbn in E1. injection E1 as <-. exists t1, f1, eeg. split; [reflexivity|].
      exact E2.
    - inv_bind E. inv_bind E. injection E as <-.
      inv_bind E3. cbn [bind] in E3. injection E3 as <-.
      destruct v as [eeg r]. cbn in E1. injection E1 as <-.
      exists t2, f2, eeg. split; [reflexivity|]. exact E. }
  destruct Hlast as (trial & fsample & eeg & Hnth & Hsub).
  destruct (preproc_subject_inv _ _ _ _ _ Hsub)
    as (Hnz & eeg_raw & eeg_filtered & n & H1 & H2 & H3 & H4).
  split.
  { destruct matfiles; [destruct (Nat.min 2 0 - 1); discriminate|simpl; lia]. }
  split; [exact Hnz|]. split.
  { exists (shape u). exact Hsh. }
  split.
  { exists trial, fsample, eeg_raw, eeg_filtered, n. auto. }
  rewrite <- H0. unfold Brennan2018.brain_preproc.
  now rewrite firstn_firstn.
Qed.

(** X9: every item that the constructor returns pairs an audio window
    with the brain samples recorded [s = int(srate * 0.15)] samples later:
    with [n = (L - s) / seq_len] windows per subject, item [i] holds brain
    samples [(i mod n) * seq_len + k + s] of subject [i / n] against audio
    frames [(i mod n) * seq_len + k]. [X], [srate] and [Y] are what the
    constructor loaded or computed. *)
Theorem Brennan_init_item (d d1 d2 : Brennan2018.disk A B)
    (wav2vec_model : string) (from_scratch : bool)
    (X : tensor A) (Y : tensor B) (srate : float) (S C E L W s i : nat) :
  Brennan2018.load_Y audio_preproc d wav2vec_model = (d1, Ok Y) ->
  Brennan2018.load_X as_float32 filter_data resample robust_scale d1 Y
  = (d2, Ok (X, srate)) ->
  shape X = [S; C; L] -> shape Y = [E; L] -> wf X -> wf Y ->
  py_int (srate * (150 / 1000))%float = Ok (Z.of_nat s) ->
  0 < s -> 0 < S -> 0 < C -> 0 < E -> 0 < W ->
  i < S * ((L - s) / W) ->
  exists ds x y,
    Brennan2018.init as_float32 filter_data resample robust_scale
      audio_preproc d (Z.of_nat W) wav2vec_model from_scratch = (d2, Ok ds) /\
    len ds = Ok (Z.of_nat (S * ((L - s) / W))) /\
    getitem ds (Z.of_nat i)
    = Ok (x, y, Tensor [] [Z.of_nat (i / ((L - s) / W))]) /\
    (forall c k, c < C -> k < W ->
       get x [c; k]
       = get X [i / ((L - s) / W); c; (i mod ((L - s) / W)) * W + k + s]) /\
    (forall e k, e < E -> k < W ->
       get y [e; k] = get Y [e; (i mod ((L - s) / W)) * W + k]).
Proof.
  intros HY0 HX0 HX HY HwfX HwfY Hint Hs HS HC HE HW Hi.
  set (n := (L - s) / W) in *.
  assert (Hn : 0 < n) by (destruct n; lia).
  assert (HsL : W <= L - s).
  { destruct (Nat.le_gt_cases W (L - s)) as [|Hlt]; [assumption|].
    unfold n in Hn. rewrite Nat.div_small in Hn by assumption. lia. }
  destruct (shift_brain_signal_by X Y S C E L srate 150 _ HX HY HwfX HwfY Hint)
    as (X' & Y' & E0 & (WX' & WY') & SX & SY & GX & GY).
  assert (Hlo : slice_index L (Some (Z.of_nat s)) 0 = s).
  { cbn [slice_index]. destruct (Z.ltb_spec (Z.of_nat s) 0); lia. }
  assert (Hhi : slice_index L (Some (- Z.of_nat s)%Z) L = L - s).
  { cbn [slice_index]. destruct (Z.ltb_spec (- Z.of_nat s) 0); lia. }
  rewrite Hlo in SX, GX. rewrite Hhi in SY, GY.
  destruct (Brennan_batchfy_item X' Y' S C E (L - s) W i SX SY WX' WY'
              HS HC HE HW Hi)
    as (ds & x & y & Eds & Hlen & Hget & _ & _ & Gx & Gy).
  fold n in Hlen, Hget, Gx, Gy.
  assert (Hq : i / n < S) by (apply Nat.Div0.div_lt_upper_bound; lia).
  assert (Hr : i mod n < n) by (apply Nat.mod_upper_bound; lia).
  assert (Hw : forall k, k < W -> i mod n * W + k < L - s).
  { intros k Hk.
    assert (n * W <= L - s).
    { unfold n. rewrite Nat.mul_comm. apply Nat.Div0.mul_div_le. }
    nia. }
  exists ds, x, y. split.
  { unfold Brennan2018.init. rewrite HY0, HX0. rewrite E0. cbn [bind].
    now rewrite Eds. }
  split; [exact Hlen|]. split; [exact Hget|]. split.
  - intros c k Hc Hk. rewrite Gx by assumption. now apply GX; auto.
  - intros e k He Hk. rewrite Gy by assumption. now apply GY; auto.
Qed.

(** X10: the caches round-trip. After a construction that succeeded, a
    second one with the same arguments returns the same dataset and leaves
    the files as they are, whatever the preprocessing functions and the
    raw recordings have become: neither [audio_preproc] nor
    [brain_preproc] is consulted again. *)
Theorem Brennan_init_reuses_caches (d d' : Brennan2018.disk A B)
    (seq_len : Z) (wav2vec_model : string) (from_scratch : bool)
    (ds : dataset A B) :
  Brennan2018.init as_float32 filter_data resample robust_scale
    audio_preproc d seq_len wav2vec_model from_scratch = (d', Ok ds) ->
  forall (as_float32' : A -> A)
         (filter_data' resample' : tensor A -> float -> result (tensor A))
         (robust_scale' : tensor A -> result (tensor A))
         (audio_preproc' : string -> result (tensor B))
         (raw' : list (tensor A * float)) (from_scratch' : bool),
    let d'' := Brennan2018.Disk (Brennan2018.Y_embeds d')
                                (Brennan2018.processed_X d') raw' in
    Brennan2018.init as_float32' filter_data' resample' robust_scale'
      audio_preproc' d'' seq_len wav2vec_model from_scratch' = (d'', Ok ds).
Proof.
  intros H f32 fd rs sc ap raw' fs'.
  unfold Brennan2018.init in H.
  destruct (Brennan2018.load_Y audio_preproc d wav2vec_model) as [d1 rY] eqn:EY.
  destruct rY as [Y|e]; [|discriminate].
  destruct (Brennan2018.load_X as_float32 filter_data resample robust_scale d1 Y)
    as [d2 rX] eqn:EX.
  destruct rX as [[X srate]|e]; [|discriminate].
  injection H as <- Hds.
  assert (HY : dict_find ("data/Brennan2018/Y_embeds/embd_" ++ wav2vec_model
                          ++ ".pt")%string (Brennan2018.Y_embeds d1) = Some Y).
  { unfold Brennan2018.load_Y in EY.
    destruct (dict_find _ (Brennan2018.Y_embeds d)) as [Y0|] eqn:Ef.
    - injection EY as <- <-. exact Ef.
    - destruct (audio_preproc wav2vec_model) as [Y0|e]; [|discriminate].
      injection EY as <- <-. cbn. apply dict_find_update. }
  assert (HX : Brennan2018.processed_X d2 = Some (X, srate)
               /\ Brennan2018.Y_embeds d2 = Brennan2018.Y_embeds d1).
  { unfold Brennan2018.load_X in EX.
    destruct (Brennan2018.processed_X d1) as [p|] eqn:Ep.
    - injection EX as <- <-. auto.
    - destruct (bind _ _) as [r|e]; [|discriminate].
      injection EX as <- <-. cbn. auto. }
  destruct HX as [HX HYe].
  cbv zeta. unfold Brennan2018.init, Brennan2018.load_Y.
  cbn [Brennan2018.Y_embeds Brennan2018.processed_X Brennan2018.raw].
  rewrite HYe, HY. unfold Brennan2018.load_X.
  cbn [Brennan2018.Y_embeds Brennan2018.processed_X Brennan2018.raw].
  rewrite HX. now rewrite Hds.
Qed.

(** X11: the cache of the recordings is shared by all wav2vec models,
    although [brain_preproc] resampled them to the number of frames of the
    model that was used first. With recordings of [L] samples in the
    cache, a construction for a model whose embeddings have another number
    [L2] of frames raises [AssertionError] in [batchfy]. *)
Theorem Brennan_init_stale_recordings (d d1 : Brennan2018.disk A B)
    (seq_len : Z) (wav2vec_model : string) (from_scratch : bool)
    (X : tensor A) (Y : tensor B) (srate : float) (S C E L L2 s : nat) :
  Brennan2018.processed_X d = Some (X, srate) ->
  Brennan2018.load_Y audio_preproc d wav2vec_model = (d1, Ok Y) ->
  shape X = [S; C; L] -> shape Y = [E; L2] -> wf X -> wf Y ->
  py_int (srate * (150 / 1000))%float = Ok (Z.of_nat s) ->
  0 < s -> (s < L \/ s < L2) -> L <> L2 ->
  Brennan2018.init as_float32 filter_data resample robust_scale
    audio_preproc d seq_len wav2vec_model from_scratch
  = (d1, Raise AssertionError).
Proof.
  intros HXc HY0 HX HY HwfX HwfY Hint Hs Hlt Hne.
  assert (HXc1 : Brennan2018.processed_X d1 = Some (X, srate)).
  { unfold Brennan2018.load_Y in HY0.
    destruct (dict_find _ _).
    - injection HY0 as <- _. exact HXc.
    - destruct (audio_preproc wav2vec_model); [|discriminate].
      injection HY0 as <- _. exact HXc. }
  unfold Brennan2018.init. rewrite HY0.
  unfold Brennan2018.load_X. rewrite HXc1.
  destruct (slice_axis_shape 2 (Some (Z.of_nat s)) None X L)
    as (X' & EX & SX); [now rewrite HX|].
  destruct (slice_axis_shape 1 None (Some (- Z.of_nat s)%Z) Y L2)
    as (Y' & EY & SY); [now rewrite HY|].
  unfold shift_brain_signal. rewrite Hint. cbn [bind].
  rewrite EX. cbn [bind]. rewrite EY. cbn [bind].
  rewrite HX in SX. rewrite HY in SY. cbn [upd] in SX, SY.
  unfold Brennan2018Dataset.batchfy.
  rewrite (shape_last_eq X' [S; C] _ SX), (shape_last_eq Y' [E] _ SY).
  cbn [bind].
  match goal with
  | |- context [(?a =? ?b)%Z] => destruct (Z.eqb_spec a b) as [Heq|]
  end; [|reflexivity].
  exfalso. apply Nat2Z.inj in Heq. revert Heq. cbn [slice_index].
  destruct (Z.ltb_spec (Z.of_nat s) 0); [lia|].
  destruct (Z.ltb_spec (- Z.of_nat s) 0); lia.
Qed.
End BrennanPipeline.

Lemma Brennan_brain_preproc_first_two_witness :
  exists X srate,
    Brennan2018.brain_preproc (fun x => x) sample_filter sample_resample
      sample_scale (Brennan2018.raw sample_fresh_disk) 30 = Ok (X, srate) /\
    0 < List.length (Brennan2018.raw sample_fresh_disk) /\
    30%Z <> 0%Z /\
    (exists sh,
       shape X
       = Nat.min 2 (List.length (Brennan2018.raw sample_fresh_disk)) :: sh) /\
    (exists trial fsample eeg_raw eeg_filtered n,
       nth_error (Brennan2018.raw sample_fresh_disk)
         (Nat.min 2 (List.length (Brennan2018.raw sample_fresh_disk)) - 1)
       = Some (trial, fsample) /\
       slice_axis 0 None (Some 60%Z) trial = Ok eeg_raw /\
       sample_filter eeg_raw fsample = Ok eeg_filtered /\
       shape_last eeg_filtered = Ok n /\
       srate = (fsample / (float_of_Z n / float_of_Z 30))%float) /\
    Brennan2018.brain_preproc (fun x => x) sample_filter sample_resample
      sample_scale (firstn 2 (Brennan2018.raw sample_fresh_disk)) 30
    = Ok (X, srate).
Proof.
  do 2 eexists. split.
  - vm_compute. reflexivity.
  - apply (Brennan_brain_preproc_first_two nat (fun x => x) sample_filter
             sample_resample sample_scale).
    vm_compute. reflexivity.
Defined.

Lemma Brennan_init_item_witness :
  exists ds x y,
    Brennan2018.init (fun x => x) sample_filter sample_resample sample_scale
      sample_audio_preproc sample_cached_disk (Z.of_nat 5) "base" false
    = (sample_cached_disk, Ok ds) /\
    len ds = Ok (Z.of_nat (2 * ((30 - 15) / 5))) /\
    getitem ds (Z.of_nat 4)
    = Ok (x, y, Tensor [] [Z.of_nat (4 / ((30 - 15) / 5))]) /\
    (forall c k, c < 2 -> k < 5 ->
       get x [c; k]
       = get sample_eeg
             [4 / ((30 - 15) / 5); c; (4 mod ((30 - 15) / 5)) * 5 + k + 15]) /\
    (forall e k, e < 3 -> k < 5 ->
       get y [e; k]
       = get sample_embeddings [e; (4 mod ((30 - 15) / 5)) * 5 + k]).
Proof.
  apply (Brennan_init_item nat nat (fun x => x) sample_filter sample_resample
           sample_scale sample_audio_preproc
           sample_cached_disk sample_cached_disk sample_cached_disk
           "base" false sample_eeg sample_embeddings 100 2 2 3 30 5 15 4);
    try reflexivity; simpl; lia.
Defined.

Lemma Brennan_init_reuses_caches_witness :
  exists d' ds,
    Brennan2018.init (fun x => x) sample_filter sample_resample sample_scale
      sample_audio_preproc sample_fresh_disk 5 "base" false = (d', Ok ds) /\
    Brennan2018.init (fun x => x)
      (fun _ _ => Raise RuntimeError) (fun _ _ => Raise RuntimeError)
      (fun _ => Raise RuntimeError) (fun _ => Raise RuntimeError)
      (Brennan2018.Disk (Brennan2018.Y_embeds d')
                        (Brennan2018.processed_X d') [])
      5 "base" true
    = (Brennan2018.Disk (Brennan2018.Y_embeds d')
                        (Brennan2018.processed_X d') [], Ok ds).
Proof.
  do 2 eexists. split.
  - vm_compute. reflexivity.
  - apply (Brennan_init_reuses_caches nat nat (fun x => x) sample_filter
             sample_resample sample_scale sample_audio_preproc
             sample_fresh_disk _ 5 "base" false).
    vm_compute. reflexivity.
Defined.

Lemma Brennan_init_stale_recordings_witness :
  exists d1,
    Brennan2018.init (fun x => x) sample_filter sample_resample sample_scale
      (fun _ => Ok (Tensor [3; 20] (seq 0 60)))
      sample_cached_disk 5 "large" false
    = (d1, Raise AssertionError).
Proof.
  eexists.
  apply (Brennan_init_stale_recordings nat nat (fun x => x) sample_filter
           sample_resample sample_scale
           (fun _ => Ok (Tensor [3; 20] (seq 0 60)))
           sample_cached_disk _ 5 "large" false
           sample_eeg (Tensor [3; 20] (seq 0 60)) 100 2 2 3 30 20 15);
    try reflexivity; try lia.
Defined.

(** * Keys of recordings, read back *)

Lemma split_chars_no_sep (sep : ascii) : forall a cur,
  forallb (fun c => negb (Ascii.eqb c sep)) a = true ->
  split_chars sep cur a = [rev cur ++ a].
Proof.
  induction a as [|c a IH]; intros cur Ha; simpl in *.
  - now rewrite app_nil_r.
  - apply andb_true_iff in Ha. destruct Ha as [Hc Ha].
    destruct (Ascii.eqb c sep); [discriminate|].
    rewrite IH by assumption. simpl. now rewrite <- app_assoc.
Qed.

Lemma split_chars_app (sep : ascii) : forall a cur rest,
  forallb (fun c => negb (Ascii.eqb c sep)) a = true ->
  split_chars sep cur (a ++ sep :: rest)
  = (rev cur ++ a) :: split_chars sep [] rest.
Proof.
  induction a as [|c a IH]; intros cur rest Ha; simpl in *.
  - rewrite Ascii.eqb_refl. now rewrite app_nil_r.
  - apply andb_true_iff in Ha. destruct Ha as [Hc Ha].
    destruct (Ascii.eqb c sep); [discriminate|].
    rewrite IH by assumption. simpl. now rewrite <- app_assoc.
Qed.

Lemma digit_is_no_sep (c : ascii) :
  is_digit c = true -> negb (Ascii.eqb c "_") = true.
Proof.
  intros Hd. destruct (Ascii.eqb_spec c "_") as [->|]; [discriminate|reflexivity].
Qed.

Lemma digit_char (r : nat) : r < 10 -> is_digit (ascii_of_nat (48 + r)) = true.
Proof.
  intros Hr. do 10 (destruct r as [|r]; [reflexivity|]). lia.
Qed.

Lemma digits_of_digits : forall fuel n acc,
  forallb is_digit acc = true -> forallb is_digit (digits_of fuel n acc) = true.
Proof.
  induction fuel as [|fuel IH]; intros n acc Hacc; cbn [digits_of];
    [assumption|].
  assert (Hc : forallb is_digit (ascii_of_nat (48 + n mod 10) :: acc) = true).
  { cbn [forallb]. apply andb_true_iff. split; [|exact Hacc].
    apply digit_char. apply Nat.mod_upper_bound. lia. }
  destruct (n / 10 =? 0); [exact Hc|]. now apply IH.
Qed.

Lemma list_ascii_of_string_of_list (l : list ascii) :
  list_ascii_of_string (string_of_list_ascii l) = l.
Proof. apply list_ascii_of_string_of_list_ascii. Qed.

Lemma str_of_nat_no_sep (n : nat) :
  forallb (fun c => negb (Ascii.eqb c "_"))
          (list_ascii_of_string (str_of_nat n)) = true.
Proof.
  unfold str_of_nat. rewrite list_ascii_of_string_of_list.
  pose proof (digits_of_digits (S n) n [] eq_refl) as H.
  rewrite forallb_forall in *. intros c Hc. apply digit_is_no_sep. auto.
Qed.

Lemma zfill_no_sep (w : nat) (s : string) :
  forallb (fun c => negb (Ascii.eqb c "_")) (list_ascii_of_string s) = true ->
  forallb (fun c => negb (Ascii.eqb c "_"))
          (list_ascii_of_string (zfill w s)) = true.
Proof.
  intros Hs. unfold zfill.
  rewrite list_ascii_of_string_append, list_ascii_of_string_of_list.
  rewrite forallb_app, Hs, andb_true_r.
  rewrite forallb_forall. intros c Hc. apply repeat_spec in Hc. now subst c.
Qed.

(** The three fields of a key. *)
Lemma description_fields (su se ta : nat) :
  split "_" (Gwilliams2022Dataset.description su se ta)
  = [Gwilliams2022Dataset.subject_field su;
     ("sess" ++ str_of_nat se)%string; ("task" ++ str_of_nat ta)%string].
Proof.
  unfold split, Gwilliams2022Dataset.description,
    Gwilliams2022Dataset.subject_field.
  rewrite !list_ascii_of_string_append.
  change (list_ascii_of_string "_sess")
    with ("_"%char :: list_ascii_of_string "sess").
  change (list_ascii_of_string "_task")
    with ("_"%char :: list_ascii_of_string "task").
  rewrite <- ?app_assoc. cbn [app].
  rewrite (app_assoc (list_ascii_of_string "subject")).
  rewrite split_chars_app.
  2:{ rewrite forallb_app. apply andb_true_iff. split; [reflexivity|].
      apply zfill_no_sep, str_of_nat_no_sep. }
  rewrite (app_assoc (list_ascii_of_string "sess")
                     (list_ascii_of_string (str_of_nat se))).
  rewrite split_chars_app.
  2:{ rewrite forallb_app. apply andb_true_iff. split; [reflexivity|].
      apply str_of_nat_no_sep. }
  rewrite split_chars_no_sep.
  2:{ rewrite forallb_app. apply andb_true_iff. split; [reflexivity|].
      apply str_of_nat_no_sep. }
  cbn [map rev app].
  rewrite <- !list_ascii_of_string_append.
  now rewrite !string_of_list_ascii_of_string.
Qed.

(** X12: the keys that [brain_preproc] writes are read back by [batchfy]:
    the last field of the key of subject [su], session [se] and task [ta]
    is the key [task<ta>] under which [audio_preproc] stores the audio of
    that task, and for [su < 99] the subject field reads back as [su]. *)
Theorem key_round_trip (su se ta : nat) :
  Gwilliams2022Dataset.task_of_key (Gwilliams2022Dataset.description su se ta)
  = ("task" ++ str_of_nat ta)%string
  /\ (su < 99 ->
      Gwilliams2022Dataset.subject_of_key
        (Gwilliams2022Dataset.description su se ta) = Ok (Z.of_nat su)).
Proof.
  split.
  - unfold Gwilliams2022Dataset.task_of_key. now rewrite description_fields.
  - apply subject_of_description.
Qed.

Lemma key_round_trip_witness :
  Gwilliams2022Dataset.task_of_key "subject05_sess1_task2" = "task2"%string
  /\ Gwilliams2022Dataset.subject_of_key "subject05_sess1_task2" = Ok 4%Z.
Proof.
  destruct (key_round_trip 4 1 2) as [Ht Hs]. split.
  - exact Ht.
  - apply Hs. lia.
Defined.

(** * [Gwilliams2022Dataset.batchfy]: windows and what it rejects *)

(** X13: the windows of one recording when the window length does not
    divide its length: [L / W] windows, window [j] holding samples
    [j * W .. j * W + W - 1] of every channel; the last [L mod W] samples
    are dropped. *)
Theorem Gwilliams_brain_windows {A} (X : tensor A) (C L W : nat) :
  shape X = [C; L] -> wf X -> 0 < C -> 0 < W -> L mod W <> 0 ->
  exists Xw,
    Gwilliams2022Dataset.window_brain (Z.of_nat W) X = Ok Xw /\
    shape Xw = [L / W; C; W] /\
    forall j c k, j < L / W -> c < C -> k < W ->
      get Xw [j; c; k] = get X [c; j * W + k].
Proof.
  intros HX Hwf HC HW Hrem.
  destruct (window_brain_spec X C L W HX Hwf HC HW) as (Xw & E & _ & Sh & G).
  destruct (Nat.eqb_spec (L mod W) 0) as [|_]; [contradiction|].
  exists Xw. auto.
Qed.

Lemma Gwilliams_brain_windows_witness :
  exists Xw,
    Gwilliams2022Dataset.window_brain (Z.of_nat 3) (Tensor [2; 7] (seq 0 14))
    = Ok Xw /\
    shape Xw = [7 / 3; 2; 3] /\
    forall j c k, j < 7 / 3 -> c < 2 -> k < 3 ->
      get Xw [j; c; k] = get (Tensor [2; 7] (seq 0 14)) [c; j * 3 + k].
Proof.
  apply (Gwilliams_brain_windows (Tensor [2; 7] (seq 0 14)) 2 7 3);
    try reflexivity; try lia. simpl. lia.
Defined.



Lemma dict_get_head {V} (k : string) (v : V) (d : dict V) :
  dict_get k ((k, v) :: d) = Ok v.
Proof. unfold dict_get. simpl. now rewrite String.eqb_refl. Qed.

Lemma mapM_head_raises {A B} (f : A -> result B) (a : A) (l : list A) (e : exn) :
  f a = Raise e -> mapM f (a :: l) = Raise e.
Proof. intros H. simpl. now rewrite H. Qed.

(** X15: [batchfy] raises [KeyError] for a recording whose task has no
    audio in [Y]: here the first recording of [X], whose windows were
    built. *)
Theorem Gwilliams_batchfy_missing_audio {A B} (as_float32 : A -> A)
    (meg_len audio_len : Z) (key : string) (X Xw : tensor A)
    (Xs : dict (tensor A)) (Ys : dict (tensor B)) :
  Gwilliams2022Dataset.window_brain meg_len X = Ok Xw ->
  dict_find (Gwilliams2022Dataset.task_of_key key) Ys = None ->
  Gwilliams2022Dataset.batchfy as_float32 meg_len audio_len
    ((key, X) :: Xs) Ys = Raise KeyError.
Proof.
  intros HX HY. unfold Gwilliams2022Dataset.batchfy.
  cbn [dict_keys map fst].
  rewrite (mapM_head_raises _ key _ KeyError); [reflexivity|].
  unfold Gwilliams2022Dataset.batchfy_key.
  rewrite dict_get_head. cbn [bind]. rewrite HX. cbn [bind].
  unfold dict_get. now rewrite HY.
Qed.

Lemma Gwilliams_batchfy_missing_audio_witness :
  Gwilliams2022Dataset.batchfy (fun x : nat => x) 3 2
    [("subject01_sess0_task1"%string, Tensor [2; 7] (seq 0 14))] sample_Ys
  = Raise KeyError.
Proof.
  apply (Gwilliams_batchfy_missing_audio (fun x : nat => x) 3 2
           "subject01_sess0_task1" (Tensor [2; 7] (seq 0 14))
           (Tensor [2; 2; 3] [0; 1; 2; 7; 8; 9; 3; 4; 5; 10; 11; 12])
           [] sample_Ys); reflexivity.
Defined.

(** X16: [batchfy] raises [AssertionError] when a recording and the audio
    of its task do not give the same number of windows; the audio counts
    one window per channel and window position. *)
Theorem Gwilliams_batchfy_window_counts_differ {A B} (as_float32 : A -> A)
    (key : string) (X : tensor A) (Y : tensor B)
    (Xs : dict (tensor A)) (Ys : dict (tensor B))
    (C L W Ch L' W' : nat) :
  shape X = [C; L] -> wf X -> 0 < C -> 0 < W ->
  shape Y = [Ch; L'] -> wf Y -> 0 < W' ->
  dict_find (Gwilliams2022Dataset.task_of_key key) Ys = Some Y ->
  (if L mod W =? 0 then 0 else L / W)
  <> Ch * (if L' mod W' =? 0 then 0 else L' / W') ->
  Gwilliams2022Dataset.batchfy as_float32 (Z.of_nat W) (Z.of_nat W')
    ((key, X) :: Xs) Ys = Raise AssertionError.
Proof.
  intros HX HwfX HC HW HY HwfY HW' Hfind Hne.
  destruct (window_brain_spec X C L W HX HwfX HC HW) as (Xw & EX & _ & SX & _).
  destruct (window_audio_spec Y Ch L' W' HY HwfY HW') as (Yw & EY & _ & SY & _).
  unfold Gwilliams2022Dataset.batchfy. cbn [dict_keys map fst].
  rewrite (mapM_head_raises _ key _ AssertionError); [reflexivity|].
  unfold Gwilliams2022Dataset.batchfy_key.
  rewrite dict_get_head. cbn [bind]. rewrite EX. cbn [bind].
  unfold dict_get. rewrite Hfind. cbn [bind]. rewrite EY. cbn [bind].
  rewrite (shape_at_eq Xw 0 _) by (rewrite SX; reflexivity).
  rewrite (shape_at_eq Yw 0 _) by (rewrite SY; reflexivity).
  cbn [bind].
  match goal with
  | |- context [(?a =? ?b)%Z] => destruct (Z.eqb_spec a b) as [Heq|]
  end; [|reflexivity].
  apply Nat2Z.inj in Heq. contradiction.
Qed.

Lemma Gwilliams_batchfy_window_counts_differ_witness :
  Gwilliams2022Dataset.batchfy (fun x : nat => x) (Z.of_nat 3) (Z.of_nat 2)
    [("subject01_sess0_task0"%string, Tensor [2; 7] (seq 0 14))]
    [("task0"%string, Tensor [2; 5] (seq 100 10))]
  = Raise AssertionError.
Proof.
  apply (Gwilliams_batchfy_window_counts_differ (fun x : nat => x)
           "subject01_sess0_task0" (Tensor [2; 7] (seq 0 14))
           (Tensor [2; 5] (seq 100 10)) []
           [("task0"%string, Tensor [2; 5] (seq 100 10))] 2 7 3 2 5 2);
    try reflexivity; try lia. simpl. lia.
Defined.

(** * [trim_nosound_regions]: streams that start with the sentinel *)

Lemma app_last_tl {V} (l F : list V) (t a : V) :
  l ++ [t] = a :: F -> F <> [] -> tl l ++ [t] = F.
Proof.
  destruct l as [|b l]; simpl; intros H HF.
  - injection H as _ <-. contradiction.
  - now injection H as _ <-.
Qed.

(** The boundaries of a stream whose first identifier equals [-1.0]: the
    first run opens no pair. *)
Lemma starts_ends_sentinel_first (first : annotation) (rest : list annotation) :
  (sound_id first =? -1)%float = true ->
  tl (runs (map sound_id (first :: rest))) <> [] ->
  reshape_pairs
    (tl (scan_boundaries (-1)%float 0 (first :: rest))
     ++ [(Z.of_nat (List.length (first :: rest)) - 1)%Z])
  = Ok (map run_Z (tl (runs (map sound_id (first :: rest))))).
Proof.
  intros Hfirst Hruns.
  cbn [scan_boundaries]. rewrite Hfirst. cbn [negb].
  replace (Z.of_nat (List.length (first :: rest)) - 1)%Z
    with (Z.of_nat (List.length rest))
    by (cbn [List.length]; lia).
  change (0 + 1)%Z with (Z.of_nat 1).
  pose proof (scan_boundaries_runs rest (-1)%float (sound_id first) 0 0
                (or_intror Hfirst)) as H.
  change (0 + List.length rest) with (List.length rest) in H.
  cbn [map runs] in Hruns |- *.
  destruct (runs_from 0 0 (sound_id first) (map sound_id rest))
    as [|r1 rs'] eqn:Ers; [now apply runs_from_nonempty in Ers|].
  cbn [tl] in Hruns |- *.
  cbn [map flat_pairs concat app] in H. injection H as _ H.
  fold (flat_pairs (map run_Z rs')) in H.
  change (Z.of_nat 1) with 1%Z.
  rewrite (app_last_tl _ (flat_pairs (map run_Z rs')) _ _ H).
  2:{ destruct rs'; [contradiction|discriminate]. }
  set (rs := map run_Z rs').
  unfold reshape_pairs, reshape. cbn [shape flat].
  change [(-1)%Z; 2%Z] with (map Z.of_nat [] ++ (-1)%Z :: map Z.of_nat [2]).
  rewrite infer_shape_unknown. cbv zeta. cbn [app numel].
  rewrite length_flat_pairs.
  replace (List.length rs * 2 * 1) with (List.length rs * (2 * 1)) by lia.
  rewrite Nat.Div0.mod_mul. change (2 * 1) with 2.
  cbn [Nat.ltb Nat.leb Nat.eqb andb as_numpy bind flat].
  now rewrite pair_rows_flat_pairs.
Qed.

Lemma scan_boundaries_all_sentinel : forall rows t,
  forallb (fun a => (sound_id a =? -1)%float) rows = true ->
  scan_boundaries (-1)%float t rows = [].
Proof.
  induction rows as [|a rows IH]; intros t H; [reflexivity|].
  cbn [forallb] in H. apply andb_true_iff in H. destruct H as [Ha H].
  cbn [scan_boundaries]. rewrite Ha. cbn [negb]. now apply IH.
Qed.

(** X17: a stream whose first sound identifier equals [-1.0], the initial
    value of [prev_sound_id], loses its first run: the segments and the
    real durations are those of the runs after the first, one fewer than
    the stream has runs. *)
Theorem trim_sentinel_first_loses_first_run {A} (meg_raw : tensor A)
    (C L : nat) (first : annotation) (rest : list annotation)
    (segs : list (Z * Z * float)) :
  let df_annot := first :: rest in
  shape meg_raw = [C; L] -> wf meg_raw ->
  (sound_id first =? -1)%float = true ->
  tl (runs (map sound_id df_annot)) <> [] ->
  mapM (segment_of_run df_annot) (tl (runs (map sound_id df_annot))) = Ok segs ->
  exists meg_trimmed,
    trim_nosound_regions meg_raw df_annot = Ok (meg_trimmed, map snd segs) /\
    List.length (map snd segs) = List.length (runs (map sound_id df_annot)) - 1 /\
    shape meg_trimmed = [C; list_sum (map (slice_width L) segs)].
Proof.
  intros df_annot Hsh Hwf Hfirst Hruns Hsegs.
  destruct (trim_segments_runs meg_raw C L df_annot Hsh Hwf _ _ Hsegs)
    as (slices & Hm & Hall).
  assert (Hlen : List.length slices = List.length (map snd segs)).
  { rewrite length_map. symmetry. eapply Forall2_length; eassumption. }
  assert (Hcount : List.length segs
                   = List.length (runs (map sound_id df_annot)) - 1).
  { rewrite (mapM_length _ _ _ Hsegs).
    destruct (runs (map sound_id df_annot)); simpl; lia. }
  assert (Hne : slices <> []).
  { intros ->. simpl in Hlen. rewrite length_map in Hlen.
    apply mapM_length in Hsegs. rewrite <- Hlen in Hsegs.
    destruct (tl (runs (map sound_id df_annot))); [contradiction|discriminate]. }
  destruct (cat_axis1_shape slices C (map (slice_width L) segs) Hne)
    as (M & EM & HshM).
  { clear -Hall. induction Hall as [|seg sl segs slices (_ & Hs & _) _ IH];
      simpl; constructor; assumption. }
  exists M. split; [|split; [now rewrite length_map|exact HshM]].
  unfold trim_nosound_regions, df_annot in *. cbn [bind].
  rewrite (starts_ends_sentinel_first first rest Hfirst Hruns).
  cbn [bind]. rewrite Hm. cbn [bind].
  rewrite map_fst_combine_eq, map_snd_combine_eq by assumption.
  rewrite EM. reflexivity.
Qed.

Lemma trim_sentinel_first_loses_first_run_witness :
  exists meg_trimmed,
    trim_nosound_regions sample_meg sample_silent_start
    = Ok (meg_trimmed, map snd sample_silent_segments) /\
    List.length (map snd sample_silent_segments)
    = List.length (runs (map sound_id sample_silent_start)) - 1 /\
    shape meg_trimmed
    = [2; list_sum (map (slice_width 20) sample_silent_segments)].
Proof.
  apply (trim_sentinel_first_loses_first_run sample_meg 2 20
           (sample_annotation 1 0.002 (-1))
           [sample_annotation 4 0.001 (-1); sample_annotation 6 0.001 1;
            sample_annotation 8 0.003 1; sample_annotation 12 0.001 2]%float
           sample_silent_segments); try reflexivity.
  vm_compute. discriminate.
Defined.

(** X18: [trim_nosound_regions] on a stream without a sound: an empty
    stream raises [UnboundLocalError] (the loop variable [t] was never
    bound), and a stream all of whose identifiers equal [-1.0] raises
    [ValueError] at the reshape of a single boundary into pairs. *)
Theorem trim_without_sound_raises {A} (meg_raw : tensor A)
    (df_annot : list annotation) :
  forallb (fun a => (sound_id a =? -1)%float) df_annot = true ->
  trim_nosound_regions meg_raw df_annot
  = Raise (match df_annot with
           | [] => UnboundLocalError
           | _ => ValueError
           end).
Proof.
  intros Hall. unfold trim_nosound_regions.
  rewrite (scan_boundaries_all_sentinel df_annot 0 Hall).
  destruct df_annot as [|a rows]; [reflexivity|].
  cbn [bind tl app]. unfold reshape_pairs, reshape. cbn [shape flat List.length].
  reflexivity.
Qed.

Lemma trim_without_sound_raises_witness :
  trim_nosound_regions sample_meg [] = Raise UnboundLocalError
  /\ trim_nosound_regions sample_meg
       [sample_annotation 1 0.002 (-1); sample_annotation 4 0.001 (-1)]%float
     = Raise ValueError.
Proof.
  split.
  - apply (trim_without_sound_raises sample_meg []). reflexivity.
  - apply (trim_without_sound_raises sample_meg
             [sample_annotation 1 0.002 (-1);
              sample_annotation 4 0.001 (-1)]%float).
    reflexivity.
Defined.

(** * [update_real_durations]: what is stored and when it warns *)

Lemma dict_find_update_other {V} (k k' : string) (v : V) (d : dict V) :
  k' <> k -> dict_find k' (dict_update k v d) = dict_find k' d.
Proof.
  intros Hne. induction d as [|[k0 v0] d IH]; simpl.
  - destruct (String.eqb_spec k k'); [congruence|reflexivity].
  - destruct (String.eqb_spec k0 k) as [->|Hk0]; simpl.
    + destruct (String.eqb_spec k k'); [congruence|reflexivity].
    + destruct (String.eqb_spec k0 k'); [reflexivity|exact IH].
Qed.

Lemma dict_keys_update {V} (k : string) (v : V) (d : dict V) :
  dict_keys (dict_update k v d)
  = match dict_find k d with
    | Some _ => dict_keys d
    | None => dict_keys d ++ [k]
    end.
Proof.
  unfold dict_keys. induction d as [|[k0 v0] d IH]; simpl; [reflexivity|].
  destruct (String.eqb_spec k0 k) as [->|Hk0]; simpl; [reflexivity|].
  rewrite IH. now destruct (dict_find k d).
Qed.

(** [x == x] fails for NaN only, and [isclose(x, x)] with it. *)
Lemma float_eqb_self_nan (x : float) :
  (x =? x)%float = false -> Prim2SF x = S754_nan.
Proof.
  rewrite eqb_spec. intros H.
  destruct (Prim2SF x) as [s|s| |s m e] eqn:E; try reflexivity; exfalso.
  - assert (T : SFeqb (S754_zero s) (S754_zero s) = true)
      by (apply SFeqb_same_number; exact I).
    congruence.
  - assert (T : SFeqb (S754_infinity s) (S754_infinity s) = true)
      by (apply SFeqb_same_number; reflexivity).
    congruence.
  - assert (T : SFeqb (S754_finite s m e) (S754_finite s m e) = true)
      by (apply SFeqb_same_number; repeat split).
    congruence.
Qed.

Lemma isclose_self (x : float) : isclose x x = (x =? x)%float.
Proof.
  unfold isclose. destruct (x =? x)%float eqn:E; [apply orb_true_r|].
  rewrite orb_false_r. apply float_eqb_self_nan in E.
  rewrite leb_spec, abs_spec, sub_spec, E. reflexivity.
Qed.

Lemma allclose_self (l : list float) :
  forallb (fun p => isclose (fst p) (snd p)) (combine l l)
  = forallb (fun x => (x =? x)%float) l.
Proof.
  induction l as [|x l IH]; [reflexivity|].
  cbn [combine forallb fst snd]. now rewrite isclose_self, IH.
Qed.

(** X19: measuring the same real durations again for a task stores them
    and is silent, unless one of them is NaN: [np.allclose] then fails
    and the warning is printed although nothing differs. *)
Theorem update_same_durations (stored : dict (list float))
    (real_durations : list float) (task_idx : nat) :
  dict_find ("task" ++ str_of_nat task_idx)%string stored
  = Some real_durations ->
  update_real_durations stored real_durations task_idx
  = Ok (dict_update ("task" ++ str_of_nat task_idx)%string real_durations stored,
        if forallb (fun x => (x =? x)%float) real_durations then []
        else [Text "Real durations are different";
              Durations real_durations; Durations real_durations]).
Proof.
  intros Hfind. unfold update_real_durations. rewrite Hfind.
  rewrite np_allclose_same_length by reflexivity. cbn [bind].
  rewrite allclose_self.
  now destruct (forallb _ real_durations).
Qed.

Lemma update_same_durations_witness :
  update_real_durations [("task0"%string, [5.0; 3.2]%float)] [5.0; 3.2]%float 0
  = Ok ([("task0"%string, [5.0; 3.2]%float)], [])
  /\ update_real_durations [("task0"%string, [5.0; nan]%float)]
                           [5.0; nan]%float 0
     = Ok ([("task0"%string, [5.0; nan]%float)],
           [Text "Real durations are different";
            Durations [5.0; nan]%float; Durations [5.0; nan]%float]).
Proof.
  split.
  - apply (update_same_durations [("task0"%string, [5.0; 3.2]%float)]
             [5.0; 3.2]%float 0). reflexivity.
  - apply (update_same_durations [("task0"%string, [5.0; nan]%float)]
             [5.0; nan]%float 0). reflexivity.
Defined.

(** X20: when [update_real_durations] returns, it has replaced the entry
    of its task and nothing else: the task maps to the new durations,
    every other key maps to what it did, and the keys keep their order, a
    new task coming last. An earlier measurement of the task is lost, even
    when the warning was printed. *)
Theorem update_overwrites_one_entry (stored stored' : dict (list float))
    (real_durations : list float) (task_idx : nat) (out : list printed) :
  update_real_durations stored real_durations task_idx = Ok (stored', out) ->
  dict_find ("task" ++ str_of_nat task_idx)%string stored'
  = Some real_durations /\
  (forall k, k <> ("task" ++ str_of_nat task_idx)%string ->
             dict_find k stored' = dict_find k stored) /\
  dict_keys stored'
  = match dict_find ("task" ++ str_of_nat task_idx)%string stored with
    | Some _ => dict_keys stored
    | None => dict_keys stored ++ [("task" ++ str_of_nat task_idx)%string]
    end.
Proof.
  unfold update_real_durations. intros H. inv_bind H.
  injection H as <- _. split; [apply dict_find_update|]. split.
  - intros k Hk. now apply dict_find_update_other.
  - apply dict_keys_update.
Qed.

Lemma update_overwrites_one_entry_witness :
  exists stored' out,
    update_real_durations
      [("task0"%string, [5.0; 3.2]%float); ("task1"%string, [7.5]%float)]
      [5.0; 3.3]%float 0 = Ok (stored', out) /\
    dict_find "task0"%string stored' = Some [5.0; 3.3]%float /\
    dict_find "task1"%string stored' = Some [7.5]%float /\
    dict_keys stored' = ["task0"%string; "task1"%string].
Proof.
  do 2 eexists. split; [vm_compute; reflexivity|].
  destruct (update_overwrites_one_entry
              [("task0"%string, [5.0; 3.2]%float); ("task1"%string, [7.5]%float)]
              _ [5.0; 3.3]%float 0 _ eq_refl) as (H1 & H2 & H3).
  split; [exact H1|]. split; [|exact H3].
  apply (H2 "task1"%string). discriminate.
Defined.

(** * [Gwilliams2022Dataset.audio_preproc]: what it needs and what it
      returns *)

Section AudioPreprocFacts.
Variable A : Type.
Variable resample : tensor A -> Z -> Z -> tensor A.

Lemma preproc_files_inv (real_durations : dict (list float))
    (audio_upsample : Z) (task_idx : nat) :
  forall (files : list (tensor A * Z)) (f : nat) ws out,
    preproc_files resample real_durations audio_upsample task_idx f files
    = Ok (ws, out) ->
    List.length ws = List.length files /\
    (files <> [] ->
     exists durs,
       dict_find ("task" ++ str_of_nat task_idx)%string real_durations
       = Some durs /\
       f + List.length files <= List.length durs).
Proof.
  induction files as [|[w sr] files IH]; intros f ws out H.
  - injection H as <- _. split; [reflexivity|congruence].
  - cbn [preproc_files] in H. inv_bind H. inv_bind H. inv_bind H.
    destruct v1 as [w' o']. inv_bind H. destruct v1 as [rest o''].
    injection H as <- _.
    destruct (IH _ _ _ E2) as [Hlen Hd]. split; [simpl; now rewrite Hlen|].
    intros _. exists v. split.
    + unfold dict_get in E. destruct (dict_find _ real_durations); congruence.
    + unfold list_get in E0.
      destruct (nth_error v f) eqn:En; [|discriminate].
      assert (Hf : f < List.length v) by (apply nth_error_Some; congruence).
      destruct files as [|x files']; [simpl; lia|].
      destruct Hd as (durs & Hfind & Hle); [discriminate|].
      unfold dict_get in E. rewrite Hfind in E. injection E as <-.
      simpl in *. lia.
Qed.

Lemma preproc_task_inv (real_durations : dict (list float))
    (audio_upsample : Z) (task_idx : nat) (files : list (tensor A * Z))
    (audio : tensor A) (out : list printed) :
  preproc_task resample real_durations audio_upsample task_idx files
  = Ok (audio, out) ->
  files <> [] /\
  exists durs,
    dict_find ("task" ++ str_of_nat task_idx)%string real_durations
    = Some durs /\
    List.length files <= List.length durs.
Proof.
  unfold preproc_task. intros H. inv_bind H. destruct v as [ws o].
  destruct (preproc_files_inv _ _ _ _ _ _ _ E) as [Hlen Hd].
  inv_bind H.
  assert (Hne : files <> []).
  { intros ->. destruct ws; [discriminate|discriminate]. }
  split; [exact Hne|]. destruct (Hd Hne) as (durs & Hfind & Hle).
  exists durs. split; [exact Hfind|]. simpl in Hle. exact Hle.
Qed.

(** [audio_preproc] returns only when each of the four tasks has at
    least one stimulus file and [real_durations] holds, under the key of
    the task, a duration for every file of it; the dictionary it returns
    has exactly the keys [task0], [task1], [task2], [task3], in this
    order. *)
Lemma audio_preproc_inv (real_durations : dict (list float))
    (audio_upsample : Z) (stimuli : nat -> list (tensor A * Z))
    (Y : dict (tensor A)) (out : list printed) :
  audio_preproc resample real_durations audio_upsample stimuli = Ok (Y, out) ->
  dict_keys Y = ["task0"; "task1"; "task2"; "task3"]%string /\
  forall task_idx, task_idx < 4 ->
    stimuli task_idx <> [] /\
    exists durs,
      dict_find ("task" ++ str_of_nat task_idx)%string real_durations
      = Some durs /\
      List.length (stimuli task_idx) <= List.length durs.
Proof.
  unfold audio_preproc. cbn [seq preproc_tasks]. intros H.
  inv_bind H. destruct v as [a0 o0]. inv_bind H. destruct v as [Y1 o1].
  inv_bind E0. destruct v as [a1 o1']. inv_bind E0. destruct v as [Y2 o2].
  inv_bind E2. destruct v as [a2 o2']. inv_bind E2. destruct v as [Y3 o3].
  inv_bind E4. destruct v as [a3 o3']. inv_bind E4. destruct v as [Y4 o4].
  injection E6 as <- _. injection E4 as <- _. injection E2 as <- _.
  injection E0 as <- _. injection H as <- _.
  split; [reflexivity|].
  intros task_idx Hk.
  destruct task_idx as [|[|[|[|k]]]]; [| | | |lia];
    eapply preproc_task_inv; eassumption.
Qed.

(** X21: [audio_preproc] returns only when each of the four tasks has at
    least one stimulus file and [real_durations] holds, under the key of
    the task, a duration for every file of it; the dictionary it returns
    has exactly the keys [task0], [task1], [task2], [task3], in this
    order. *)
Theorem audio_preproc_returns_four_tasks (real_durations : dict (list float))
    (audio_upsample : Z) (stimuli : nat -> list (tensor A * Z))
    (Y : dict (tensor A)) (out : list printed) :
  audio_preproc resample real_durations audio_upsample stimuli = Ok (Y, out) ->
  dict_keys Y = ["task0"; "task1"; "task2"; "task3"]%string /\
  forall task_idx, task_idx < 4 ->
    stimuli task_idx <> [] /\
    exists durs,
      dict_find ("task" ++ str_of_nat task_idx)%string real_durations
      = Some durs /\
      List.length (stimuli task_idx) <= List.length durs.
Proof. apply audio_preproc_inv. Qed.

(** X22: on what [audio_preproc] returns, the audio lookup of [batchfy]
    succeeds for every key that [brain_preproc] can write: the key of any
    subject and session and of a task below four. *)
Theorem audio_of_every_recording (real_durations : dict (list float))
    (audio_upsample : Z) (stimuli : nat -> list (tensor A * Z))
    (Y : dict (tensor A)) (out : list printed) (su se ta : nat) :
  audio_preproc resample real_durations audio_upsample stimuli = Ok (Y, out) ->
  ta < 4 ->
  exists audio,
    dict_get (Gwilliams2022Dataset.task_of_key
                (Gwilliams2022Dataset.description su se ta)) Y = Ok audio.
Proof.
  intros H Hta.
  unfold Gwilliams2022Dataset.task_of_key. rewrite description_fields.
  cbn [last].
  unfold audio_preproc in H. cbn [seq preproc_tasks] in H.
  inv_bind H. destruct v as [a0 o0]. inv_bind H. destruct v as [Y1 o1].
  inv_bind E0. destruct v as [a1 o1']. inv_bind E0. destruct v as [Y2 o2].
  inv_bind E2. destruct v as [a2 o2']. inv_bind E2. destruct v as [Y3 o3].
  inv_bind E4. destruct v as [a3 o3']. inv_bind E4. destruct v as [Y4 o4].
  injection E6 as <- _. injection E4 as <- _. injection E2 as <- _.
  injection E0 as <- _. injection H as <- _.
  destruct ta as [|[|[|[|k]]]]; [| | | |lia]; eexists; reflexivity.
Qed.
End AudioPreprocFacts.

Lemma audio_preproc_returns_four_tasks_witness :
  exists Y out,
    audio_preproc sample_resample_audio sample_real_durations 4 sample_stimuli
    = Ok (Y, out) /\
    dict_keys Y = ["task0"; "task1"; "task2"; "task3"]%string /\
    forall task_idx, task_idx < 4 ->
      sample_stimuli task_idx <> [] /\
      exists durs,
        dict_find ("task" ++ str_of_nat task_idx)%string sample_real_durations
        = Some durs /\
        List.length (sample_stimuli task_idx) <= List.length durs.
Proof.
  do 2 eexists. split; [vm_compute; reflexivity|].
  eapply (audio_preproc_returns_four_tasks nat sample_resample_audio
            sample_real_durations 4 sample_stimuli).
  vm_compute. reflexivity.
Defined.

Lemma audio_of_every_recording_witness :
  exists audio,
    dict_get (Gwilliams2022Dataset.task_of_key
                (Gwilliams2022Dataset.description 4 1 2))
             sample_audio = Ok audio.
Proof.
  apply (audio_of_every_recording nat sample_resample_audio
           sample_real_durations 4 sample_stimuli sample_audio
           sample_audio_log 4 1 2).
  - reflexivity.
  - lia.
Defined.

(** * [Gwilliams2022Dataset.brain_preproc] and the constructor *)

Lemma In_dict_keys_update {V} (k k' : string) (v : V) (d : dict V) :
  In k' (dict_keys (dict_update k v d)) <-> k' = k \/ In k' (dict_keys d).
Proof.
  rewrite dict_keys_update.
  destruct (dict_find k d) eqn:E.
  - split; [auto|]. intros [->|H]; [|exact H].
    unfold dict_keys. clear -E. induction d as [|[kk vv] d IH]; [discriminate|].
    simpl in *. destruct (String.eqb_spec kk k); [now left|right; auto].
  - rewrite in_app_iff. simpl. intuition.
Qed.

Lemma task_keys_differ (j k : nat) :
  j < 4 -> k < 4 -> j <> k ->
  ("task" ++ str_of_nat j)%string <> ("task" ++ str_of_nat k)%string.
Proof.
  intros Hj Hk Hne.
  destruct j as [|[|[|[|j]]]]; [| | | |lia];
    (destruct k as [|[|[|[|k]]]]; [| | | |lia]);
    try congruence; discriminate.
Qed.

Section GwilliamsPipeline.
Variables A B : Type.
Variable as_float32 : A -> A.
Variable read_raw_bids :
  nat -> nat -> nat -> option (result (tensor A * list annotation)).
Variable resample : tensor A -> float -> result (tensor A).
Variable filter_data : tensor A -> Z -> result (tensor A).
Variable robust_scale : tensor A -> result (tensor A).
Variable resample_audio : tensor B -> Z -> Z -> tensor B.
Variable stimuli : nat -> list (tensor B * Z).

(** A property of the state that every iteration keeps is kept by the
    loop, however it ends. *)
Lemma for_each_keeps {X} (I : Gwilliams2022.state A -> Prop)
    (body : X -> Gwilliams2022.state A
            -> Gwilliams2022.state A * result unit) :
  forall l st st' r,
    (forall x s s' r', In x l -> I s -> body x s = (s', r') -> I s') ->
    I st -> Gwilliams2022.for_each l body st = (st', r) -> I st'.
Proof.
  induction l as [|x l IH]; intros st st' r Hbody Hst H; simpl in H.
  - now injection H as <- _.
  - destruct (body x st) as [s1 [u|e]] eqn:E.
    + apply (IH s1 st' r); [intros; eapply Hbody; eauto; now right| |exact H].
      eapply Hbody; [now left|exact Hst|exact E].
    + injection H as <- _. eapply Hbody; [now left|exact Hst|exact E].
Qed.

(** What a successful iteration establishes, and every iteration keeps,
    holds after a loop that ran to its end over that iteration. *)
Lemma for_each_reaches {X} (Q : Gwilliams2022.state A -> Prop)
    (body : X -> Gwilliams2022.state A
            -> Gwilliams2022.state A * result unit) (x0 : X) :
  forall l st st' u,
    In x0 l ->
    (forall s s' u', body x0 s = (s', Ok u') -> Q s') ->
    (forall x s s' r', Q s -> body x s = (s', r') -> Q s') ->
    Gwilliams2022.for_each l body st = (st', Ok u) -> Q st'.
Proof.
  induction l as [|x l IH]; intros st st' u Hin Hest Hkeep H; [contradiction|].
  simpl in H. destruct (body x st) as [s1 [u1|e]] eqn:E; [|discriminate].
  destruct Hin as [->|Hin].
  - eapply (for_each_keeps Q body l s1 st' (Ok u)); [| |exact H].
    + intros; eapply Hkeep; eauto.
    + eapply Hest; exact E.
  - eapply IH; eauto.
Qed.

(** A loop whose iterations all leave the state alone leaves it alone. *)
Lemma for_each_skips {X}
    (body : X -> Gwilliams2022.state A
            -> Gwilliams2022.state A * result unit) :
  forall l st,
    (forall x, In x l -> body x st = (st, Ok tt)) ->
    Gwilliams2022.for_each l body st = (st, Ok tt).
Proof.
  induction l as [|x l IH]; intros st Hbody; simpl; [reflexivity|].
  rewrite (Hbody x) by now left. apply IH. intros; apply Hbody; now right.
Qed.

(** One iteration: it skips an unreadable recording, and otherwise adds
    the key of the recording to the file and binds [X] to the file; the
    durations of the task are replaced. *)
Lemma preproc_recording_cases (resample_rate num_channels : Z)
    (su se ta : nat) (st st' : Gwilliams2022.state A) (r : result unit) :
  Gwilliams2022.preproc_recording read_raw_bids resample filter_data
    robust_scale resample_rate num_channels su se ta st = (st', r) ->
  (read_raw_bids su se ta = None /\ st' = st /\ r = Ok tt)
  \/ (read_raw_bids su se ta <> None /\
      Gwilliams2022.x_file st' = Gwilliams2022.x_file st /\
      Gwilliams2022.X_local st' = Gwilliams2022.X_local st /\
      (Gwilliams2022.self_real_durations st'
       = Gwilliams2022.self_real_durations st
       \/ exists durs,
           Gwilliams2022.self_real_durations st'
           = dict_update ("task" ++ str_of_nat ta)%string durs
                         (Gwilliams2022.self_real_durations st)) /\
      exists e, r = Raise e)
  \/ (read_raw_bids su se ta <> None /\
      (exists meg_scaled,
         Gwilliams2022.x_file st'
         = dict_update (Gwilliams2022Dataset.description su se ta) meg_scaled
                       (Gwilliams2022.x_file st)) /\
      Gwilliams2022.X_local st' = Some (Gwilliams2022.x_file st') /\
      (exists durs,
         Gwilliams2022.self_real_durations st'
         = dict_update ("task" ++ str_of_nat ta)%string durs
                       (Gwilliams2022.self_real_durations st)) /\
      r = Ok tt).
Proof.
  unfold Gwilliams2022.preproc_recording.
  destruct (read_raw_bids su se ta) as [raw|] eqn:Eread.
  2:{ intros [= <- <-]. left. auto. }
  intros H. right.
  assert (Hstop : forall e0, (st', r) = (st, Raise e0) ->
            Gwilliams2022.x_file st' = Gwilliams2022.x_file st /\
            Gwilliams2022.X_local st' = Gwilliams2022.X_local st /\
            (Gwilliams2022.self_real_durations st'
             = Gwilliams2022.self_real_durations st
             \/ exists durs,
                 Gwilliams2022.self_real_durations st'
                 = dict_update ("task" ++ str_of_nat ta)%string durs
                               (Gwilliams2022.self_real_durations st)) /\
            exists e, r = Raise e).
  { intros e0 [= -> ->]. repeat split; eauto. }
  destruct raw as [[m a]|e0]; cbn [bind] in H;
    [|left; split; [discriminate|apply (Hstop e0); now symmetry]].
  destruct (slice_axis 0 None (Some num_channels) m) as [m'|e0];
    cbn [bind] in H; [|left; split; [discriminate|apply (Hstop e0); now symmetry]].
  destruct (trim_nosound_regions m' a) as [[meg_trimmed real_durations]|e0];
    cbn [bind] in H; [|left; split; [discriminate|apply (Hstop e0); now symmetry]].
  destruct (update_real_durations (Gwilliams2022.self_real_durations st)
              real_durations ta) as [[durations lines]|e0] eqn:Eupd;
    cbn [bind] in H; [|left; split; [discriminate|apply (Hstop e0); now symmetry]].
  assert (Hd : durations
               = dict_update ("task" ++ str_of_nat ta)%string real_durations
                   (Gwilliams2022.self_real_durations st)).
  { unfold update_real_durations in Eupd. inv_bind Eupd.
    now injection Eupd as <- _. }
  destruct (bind (true_div 1000 resample_rate) _) as [meg_scaled|e0].
  - injection H as <- <-. right. split; [discriminate|].
    cbn [Gwilliams2022.x_file Gwilliams2022.X_local
         Gwilliams2022.self_real_durations].
    repeat split; eauto.
  - injection H as <- <-. left. split; [discriminate|].
    cbn [Gwilliams2022.x_file Gwilliams2022.X_local
         Gwilliams2022.self_real_durations].
    repeat split; eauto.
Qed.

(** The three loops keep what every iteration keeps. *)
Lemma loops_keep (I : Gwilliams2022.state A -> Prop)
    (resample_rate num_channels : Z) (n : nat) :
  (forall su se ta s s' r,
     su < n -> se < 2 -> ta < 4 -> I s ->
     Gwilliams2022.preproc_recording read_raw_bids resample filter_data
       robust_scale resample_rate num_channels su se ta s = (s', r) ->
     I s') ->
  forall st st' r,
    I st ->
    Gwilliams2022.for_each (seq 0 n) (fun su =>
      Gwilliams2022.for_each (seq 0 2) (fun se =>
        Gwilliams2022.for_each (seq 0 4) (fun ta =>
          Gwilliams2022.preproc_recording read_raw_bids resample filter_data
            robust_scale resample_rate num_channels su se ta))) st = (st', r) ->
    I st'.
Proof.
  intros Hbody st st' r Hst H.
  eapply (for_each_keeps I); [|exact Hst|exact H].
  intros su s1 s1' r1 Hsu Hs1 H1. apply in_seq in Hsu.
  eapply (for_each_keeps I); [|exact Hs1|exact H1].
  intros se s2 s2' r2 Hse Hs2 H2. apply in_seq in Hse.
  eapply (for_each_keeps I); [|exact Hs2|exact H2].
  intros ta s3 s3' r3 Hta Hs3 H3. apply in_seq in Hta.
  eapply (Hbody su se ta); eauto; lia.
Qed.

(** After the three loops ran to their end, what the iteration of one
    recording establishes, and every iteration keeps, holds. *)
Lemma loops_reach (Q : Gwilliams2022.state A -> Prop)
    (resample_rate num_channels : Z) (n su0 se0 ta0 : nat) :
  su0 < n -> se0 < 2 -> ta0 < 4 ->
  (forall s s' u,
     Gwilliams2022.preproc_recording read_raw_bids resample filter_data
       robust_scale resample_rate num_channels su0 se0 ta0 s = (s', Ok u) ->
     Q s') ->
  (forall su se ta s s' r,
     Q s ->
     Gwilliams2022.preproc_recording read_raw_bids resample filter_data
       robust_scale resample_rate num_channels su se ta s = (s', r) ->
     Q s') ->
  forall st st' u,
    Gwilliams2022.for_each (seq 0 n) (fun su =>
      Gwilliams2022.for_each (seq 0 2) (fun se =>
        Gwilliams2022.for_each (seq 0 4) (fun ta =>
          Gwilliams2022.preproc_recording read_raw_bids resample filter_data
            robust_scale resample_rate num_channels su se ta))) st
    = (st', Ok u) ->
    Q st'.
Proof.
  intros Hsu Hse Hta Hest Hkeep st st' u H.
  assert (Hk3 : forall su se l s s' r,
             Q s ->
             Gwilliams2022.for_each l (fun ta =>
               Gwilliams2022.preproc_recording read_raw_bids resample
                 filter_data robust_scale resample_rate num_channels
                 su se ta) s = (s', r) -> Q s').
  { intros su se l s s' r Hs Hl.
    eapply (for_each_keeps Q); [|exact Hs|exact Hl].
    intros ta s0 s0' r0 _ Hs0 H0.
    exact (Hkeep su se ta s0 s0' r0 Hs0 H0). }
  assert (Hk2 : forall su l s s' r,
             Q s ->
             Gwilliams2022.for_each l (fun se =>
               Gwilliams2022.for_each (seq 0 4) (fun ta =>
                 Gwilliams2022.preproc_recording read_raw_bids resample
                   filter_data robust_scale resample_rate num_channels
                   su se ta)) s = (s', r) -> Q s').
  { intros su l s s' r Hs Hl.
    eapply (for_each_keeps Q); [|exact Hs|exact Hl].
    intros se s0 s0' r0 _ Hs0 H0.
    exact (Hk3 su se (seq 0 4) s0 s0' r0 Hs0 H0). }
  eapply (for_each_reaches Q _ su0); cycle 3;
    [exact H|apply in_seq; lia| |].
  - intros s1 s1' u1 H1.
    eapply (for_each_reaches Q _ se0); cycle 3;
      [exact H1|apply in_seq; lia| |].
    + intros s2 s2' u2 H2.
      eapply (for_each_reaches Q _ ta0); cycle 3;
        [exact H2|apply in_seq; lia| |].
      * exact Hest.
      * intros ta s3 s3' r3 Hs3 H3.
        exact (Hkeep su0 se0 ta s3 s3' r3 Hs3 H3).
    + intros se s2 s2' r2 Hs2 H2.
      exact (Hk3 su0 se (seq 0 4) s2 s2' r2 Hs2 H2).
  - intros su s1 s1' r1 Hs1 H1.
    exact (Hk2 su (seq 0 2) s1 s1' r1 Hs1 H1).
Qed.

(** What holds of the state while [brain_preproc] runs: every key of the
    file is the key of a readable recording of the loops; [X] is unbound
    and the file empty, or [X] is the file; a task has durations only when
    one of its recordings was read. *)
Lemma brain_preproc_invariant (resample_rate num_channels : Z) (n : nat)
    (st st' : Gwilliams2022.state A) (r : result unit) :
  Gwilliams2022.x_file st = [] -> Gwilliams2022.X_local st = None ->
  Gwilliams2022.for_each (seq 0 n) (fun su =>
    Gwilliams2022.for_each (seq 0 2) (fun se =>
      Gwilliams2022.for_each (seq 0 4) (fun ta =>
        Gwilliams2022.preproc_recording read_raw_bids resample filter_data
          robust_scale resample_rate num_channels su se ta))) st = (st', r) ->
  (forall key, In key (dict_keys (Gwilliams2022.x_file st')) ->
     exists su se ta,
       su < n /\ se < 2 /\ ta < 4 /\ read_raw_bids su se ta <> None /\
       key = Gwilliams2022Dataset.description su se ta) /\
  (Gwilliams2022.X_local st' = None /\ Gwilliams2022.x_file st' = []
   \/ Gwilliams2022.X_local st' = Some (Gwilliams2022.x_file st')) /\
  (forall k, k < 4 ->
     dict_find ("task" ++ str_of_nat k)%string
               (Gwilliams2022.self_real_durations st')
     = dict_find ("task" ++ str_of_nat k)%string
                 (Gwilliams2022.self_real_durations st)
     \/ exists su se, su < n /\ se < 2 /\ read_raw_bids su se k <> None).
Proof.
  intros Hx0 Hl0 H.
  eapply (loops_keep
            (fun s =>
               (forall key, In key (dict_keys (Gwilliams2022.x_file s)) ->
                  exists su se ta,
                    su < n /\ se < 2 /\ ta < 4 /\
                    read_raw_bids su se ta <> None /\
                    key = Gwilliams2022Dataset.description su se ta) /\
               (Gwilliams2022.X_local s = None /\ Gwilliams2022.x_file s = []
                \/ Gwilliams2022.X_local s = Some (Gwilliams2022.x_file s)) /\
               (forall k, k < 4 ->
                  dict_find ("task" ++ str_of_nat k)%string
                            (Gwilliams2022.self_real_durations s)
                  = dict_find ("task" ++ str_of_nat k)%string
                              (Gwilliams2022.self_real_durations st)
                  \/ exists su se,
                      su < n /\ se < 2 /\ read_raw_bids su se k <> None)));
    [| |exact H].
  - intros su se ta s s' r' Hsu Hse Hta (K1 & K3 & K4) Hbody.
    assert (Hdur : read_raw_bids su se ta <> None ->
              forall durs k, k < 4 ->
              dict_find ("task" ++ str_of_nat k)%string
                (dict_update ("task" ++ str_of_nat ta)%string durs
                   (Gwilliams2022.self_real_durations s))
              = dict_find ("task" ++ str_of_nat k)%string
                          (Gwilliams2022.self_real_durations st)
              \/ exists su se,
                  su < n /\ se < 2 /\ read_raw_bids su se k <> None).
    { intros Hr durs k Hk. destruct (Nat.eq_dec k ta) as [->|Hne].
      - right. exists su, se. auto.
      - rewrite dict_find_update_other by now apply task_keys_differ.
        now apply K4. }
    destruct (preproc_recording_cases _ _ _ _ _ _ _ _ Hbody)
      as [(_ & -> & _)|[(Hr & Hx & Hl & Hd & _)|(Hr & (m & Hx) & Hl & (durs & Hd) & _)]].
    + auto.
    + rewrite Hx, Hl. split; [exact K1|]. split; [exact K3|].
      intros k Hk. destruct Hd as [->|(durs & ->)]; [now apply K4|].
      now apply Hdur.
    + split; [|split; [now right|]].
      * intros key Hkey. rewrite Hx in Hkey.
        apply In_dict_keys_update in Hkey. destruct Hkey as [->|Hkey].
        -- exists su, se, ta. auto.
        -- now apply K1.
      * intros k Hk. rewrite Hd. now apply Hdur.
  - rewrite Hx0, Hl0. split; [intros key []|]. split; [now left|].
    intros k Hk. now left.
Qed.
(** The keys of the dictionary that [brain_preproc] returns are
    exactly the keys [subjectNN_sess<se>_task<ta>] of the recordings that
    could be read, for the subjects below [num_subjects], the sessions 0
    and 1 and the tasks 0 to 3; the dictionary is the one saved under
    [x_path]. *)
Lemma Gwilliams_brain_preproc_keys_aux (num_subjects resample_rate
    num_channels : Z) (st st' : Gwilliams2022.state A)
    (X : dict (tensor A)) :
  Gwilliams2022.brain_preproc read_raw_bids resample filter_data robust_scale
    num_subjects resample_rate num_channels st = (st', Ok X) ->
  Gwilliams2022.x_file st' = X /\
  forall key,
    In key (dict_keys X) <->
    exists su se ta,
      su < Z.to_nat num_subjects /\ se < 2 /\ ta < 4 /\
      read_raw_bids su se ta <> None /\
      key = Gwilliams2022Dataset.description su se ta.
Proof.
  unfold Gwilliams2022.brain_preproc. intros H.
  destruct (Gwilliams2022.for_each _ _ _) as [s1 [u|e]] eqn:Eloop;
    [|discriminate].
  injection H as <- HX.
  destruct ((fun H1 H2 => brain_preproc_invariant _ _ _ _ _ _ H1 H2 Eloop)
              eq_refl eq_refl)
    as (K1 & K3 & _).
  destruct (Gwilliams2022.X_local s1) as [X1|] eqn:El; [|discriminate].
  injection HX as <-.
  destruct K3 as [[Hn _]|K3]; [discriminate|]. injection K3 as ->.
  split; [reflexivity|]. intros key. split; [apply K1|].
  intros (su & se & ta & Hsu & Hse & Hta & Hr & ->).
  eapply (loops_reach
            (fun s => In (Gwilliams2022Dataset.description su se ta)
                         (dict_keys (Gwilliams2022.x_file s)))
            resample_rate num_channels _ su se ta Hsu Hse Hta);
    [| |exact Eloop].
  - intros s s' u' Hb.
    destruct (preproc_recording_cases _ _ _ _ _ _ _ _ Hb)
      as [(Hn & _)|[(_ & _ & _ & _ & e & He)|(_ & (m & Hx) & _)]];
      [contradiction|discriminate|].
    rewrite Hx. apply In_dict_keys_update. now left.
  - intros su' se' ta' s s' r' Hs Hb.
    destruct (preproc_recording_cases _ _ _ _ _ _ _ _ Hb)
      as [(_ & -> & _)|[(_ & Hx & _)|(_ & (m & Hx) & _)]].
    + exact Hs.
    + now rewrite Hx.
    + rewrite Hx. apply In_dict_keys_update. now right.
Qed.

(** X23: the keys of the dictionary that [brain_preproc] returns are
    exactly the keys [subjectNN_sess<se>_task<ta>] of the recordings that
    could be read, for the subjects below [num_subjects], the sessions 0
    and 1 and the tasks 0 to 3; the dictionary is the one saved under
    [x_path]. *)
Theorem Gwilliams_brain_preproc_keys (num_subjects resample_rate
    num_channels : Z) (st st' : Gwilliams2022.state A)
    (X : dict (tensor A)) :
  Gwilliams2022.brain_preproc read_raw_bids resample filter_data robust_scale
    num_subjects resample_rate num_channels st = (st', Ok X) ->
  Gwilliams2022.x_file st' = X /\
  forall key,
    In key (dict_keys X) <->
    exists su se ta,
      su < Z.to_nat num_subjects /\ se < 2 /\ ta < 4 /\
      read_raw_bids su se ta <> None /\
      key = Gwilliams2022Dataset.description su se ta.
Proof. apply Gwilliams_brain_preproc_keys_aux. Qed.

(** X24: when no recording can be read, and so for [num_subjects <= 0],
    [brain_preproc] raises [UnboundLocalError] at [return X], leaving an
    empty dictionary under [x_path]. *)
Theorem Gwilliams_brain_preproc_nothing_read (num_subjects resample_rate
    num_channels : Z) (st : Gwilliams2022.state A) :
  (forall su se ta,
     su < Z.to_nat num_subjects -> se < 2 -> ta < 4 ->
     read_raw_bids su se ta = None) ->
  Gwilliams2022.brain_preproc read_raw_bids resample filter_data robust_scale
    num_subjects resample_rate num_channels st
  = (Gwilliams2022.State [] None (Gwilliams2022.self_real_durations st)
                         (Gwilliams2022.out st),
     Raise UnboundLocalError).
Proof.
  intros Hnone. unfold Gwilliams2022.brain_preproc.
  rewrite for_each_skips; [reflexivity|].
  intros su Hsu. apply in_seq in Hsu.
  apply for_each_skips. intros se Hse. apply in_seq in Hse.
  apply for_each_skips. intros ta Hta. apply in_seq in Hta.
  unfold Gwilliams2022.preproc_recording.
  now rewrite Hnone by lia.
Qed.

(** X25: a dataset built from scratch for at most 99 subjects carries
    subject indices below [num_subjects] only: the keys that
    [brain_preproc] writes read back, in [batchfy], as the indices of the
    loop. *)
Theorem Gwilliams_init_subject_indices (d d' : Gwilliams2022.disk A B)
    (wav2vec_model : string)
    (num_subjects seq_len resample_rate audio_upsample : Z)
    (ds : dataset A B) (i : Z) (x : tensor A) (y : tensor B) (s : tensor Z) :
  Gwilliams2022.processed_X d = None ->
  (num_subjects <= 99)%Z ->
  Gwilliams2022.init as_float32 read_raw_bids resample filter_data
    robust_scale resample_audio stimuli d wav2vec_model
    num_subjects seq_len resample_rate audio_upsample
  = (d', Gwilliams2022.Returned ds) ->
  getitem ds i = Ok (x, y, s) ->
  exists v, s = Tensor [] [v] /\ (0 <= v < num_subjects)%Z.
Proof.
  intros Hfresh Hnum H Hitem.
  unfold Gwilliams2022.init, Gwilliams2022.make_X in H. rewrite Hfresh in H.
  destruct (Gwilliams2022.brain_preproc _ _ _ _ _ _ _ _) as [st [X|e]] eqn:Eb;
    [|discriminate].
  destruct (Gwilliams2022.make_Y _ _ _ _ _) as [d1 [Y|e|]]; try discriminate.
  destruct (Gwilliams2022Dataset.batchfy _ _ _ _ _) as [ds'|e] eqn:Eds;
    [|discriminate].
  injection H as _ <-.
  destruct (Gwilliams_brain_preproc_keys_aux _ _ _ _ _ _ Eb) as (_ & Hkeys).
  destruct (Gwilliams_batchfy_subject_idxs _ _ _ _ _ _ Eds)
    as (Hwf & (N & Hsh) & Hall).
  apply getitem_subject in Hitem.
  destruct (select0_vector _ _ _ _ Hsh Hwf Hitem) as (v & -> & Hv).
  destruct (Hall v Hv) as (key & z & Hkey & Hz & ->).
  apply Hkeys in Hkey. destruct Hkey as (su & se & ta & Hsu & _ & _ & _ & ->).
  rewrite subject_of_description in Hz by lia. injection Hz as <-.
  exists (Z.of_nat su). split; [now rewrite Z.mul_1_r, Z.mod_small by lia|].
  lia.
Qed.

(** X26: a construction from scratch returns only when every task from 0
    to 3 has a stimulus file and a recording that could be read: without
    a recording of the task, [real_durations] has no entry for it and
    [audio_preproc] raises. *)
Theorem Gwilliams_init_needs_every_task (d d' : Gwilliams2022.disk A B)
    (wav2vec_model : string)
    (num_subjects seq_len resample_rate audio_upsample : Z)
    (ds : dataset A B) :
  Gwilliams2022.processed_X d = None ->
  Gwilliams2022.processed_Y d = None ->
  Gwilliams2022.init as_float32 read_raw_bids resample filter_data
    robust_scale resample_audio stimuli d wav2vec_model
    num_subjects seq_len resample_rate audio_upsample
  = (d', Gwilliams2022.Returned ds) ->
  forall ta, ta < 4 ->
    stimuli ta <> [] /\
    exists su se,
      su < Z.to_nat num_subjects /\ se < 2 /\ read_raw_bids su se ta <> None.
Proof.
  intros HfreshX HfreshY H ta Hta.
  unfold Gwilliams2022.init, Gwilliams2022.make_X in H. rewrite HfreshX in H.
  unfold Gwilliams2022.brain_preproc in H.
  destruct (Gwilliams2022.for_each _ _ _) as [st [u|e]] eqn:Eloop;
    [|discriminate].
  destruct (Gwilliams2022.X_local st) as [X|]; [|discriminate].
  unfold Gwilliams2022.make_Y in H.
  cbn [Gwilliams2022.processed_Y] in H. rewrite HfreshY in H.
  destruct (audio_preproc _ _ _ _) as [[Y o]|e] eqn:Eaudio; [|discriminate].
  destruct (audio_preproc_inv _ _ _ _ _ _ _ Eaudio) as (_ & Hneeds).
  destruct (Hneeds ta Hta) as (Hstim & durs & Hfind & _).
  split; [exact Hstim|].
  destruct ((fun H1 H2 => brain_preproc_invariant _ _ _ _ _ _ H1 H2 Eloop)
              eq_refl eq_refl)
    as (_ & _ & K4).
  destruct (K4 ta Hta) as [Heq|Hread]; [|exact Hread].
  cbn [Gwilliams2022.self_real_durations] in Heq.
  rewrite Hfind in Heq. discriminate.
Qed.

(** X27: an exception in [brain_preproc] leaves the file [x_path] behind,
    with the recordings done so far. The next construction finds it,
    skips the preprocessing whatever its arguments are, and raises
    [FileNotFoundError] at the load of the real durations, which were
    never saved. *)
Theorem Gwilliams_init_after_failed_preprocessing
    (d : Gwilliams2022.disk A B) (wav2vec_model : string)
    (num_subjects seq_len resample_rate audio_upsample : Z)
    (st : Gwilliams2022.state A) (e : exn) :
  Gwilliams2022.processed_X d = None ->
  Gwilliams2022.real_durations_npy d = None ->
  Gwilliams2022.brain_preproc read_raw_bids resample filter_data robust_scale
    num_subjects resample_rate 208 (Gwilliams2022.State [] None [] [])
  = (st, Raise e) ->
  Gwilliams2022.init as_float32 read_raw_bids resample filter_data
    robust_scale resample_audio stimuli d wav2vec_model
    num_subjects seq_len resample_rate audio_upsample
  = (Gwilliams2022.Disk (Some (Gwilliams2022.x_file st))
                        (Gwilliams2022.processed_Y d) None,
     Gwilliams2022.Raised e)
  /\ forall (as_float32' : A -> A)
            (read_raw_bids' :
               nat -> nat -> nat -> option (result (tensor A * list annotation)))
            (resample' : tensor A -> float -> result (tensor A))
            (filter_data' : tensor A -> Z -> result (tensor A))
            (robust_scale' : tensor A -> result (tensor A))
            (wav2vec_model' : string)
            (num_subjects' seq_len' resample_rate' audio_upsample' : Z),
       Gwilliams2022.init as_float32' read_raw_bids' resample' filter_data'
         robust_scale' resample_audio stimuli
         (Gwilliams2022.Disk (Some (Gwilliams2022.x_file st))
                             (Gwilliams2022.processed_Y d) None)
         wav2vec_model' num_subjects' seq_len' resample_rate' audio_upsample'
       = (Gwilliams2022.Disk (Some (Gwilliams2022.x_file st))
                             (Gwilliams2022.processed_Y d) None,
          Gwilliams2022.RaisedFileNotFoundError).
Proof.
  intros HfreshX Hdur Hb. split.
  - unfold Gwilliams2022.init, Gwilliams2022.make_X.
    rewrite HfreshX, Hb, Hdur. reflexivity.
  - intros. reflexivity.
Qed.
End GwilliamsPipeline.

Lemma Gwilliams_brain_preproc_keys_witness :
  exists st' X,
    Gwilliams2022.brain_preproc sample_read_raw_bids sample_resample_meg
      sample_filter_meg sample_scale 1 3 208
      (Gwilliams2022.State [] None [] []) = (st', Ok X) /\
    Gwilliams2022.x_file st' = X /\
    forall key,
      In key (dict_keys X) <->
      exists su se ta,
        su < Z.to_nat 1 /\ se < 2 /\ ta < 4 /\
        sample_read_raw_bids su se ta <> None /\
        key = Gwilliams2022Dataset.description su se ta.
Proof.
  do 2 eexists. split; [vm_compute; reflexivity|].
  eapply (Gwilliams_brain_preproc_keys nat sample_read_raw_bids
            sample_resample_meg sample_filter_meg sample_scale 1 3 208
            (Gwilliams2022.State [] None [] [])).
  vm_compute. reflexivity.
Defined.

Lemma Gwilliams_brain_preproc_nothing_read_witness :
  Gwilliams2022.brain_preproc (fun _ _ _ => None) sample_resample_meg
    sample_filter_meg sample_scale 27 120 208
    (Gwilliams2022.State [] None [] [])
  = (Gwilliams2022.State [] None [] [], Raise UnboundLocalError).
Proof.
  apply (Gwilliams_brain_preproc_nothing_read nat (fun _ _ _ => None)
           sample_resample_meg sample_filter_meg sample_scale 27 120 208
           (Gwilliams2022.State [] None [] [])).
  intros. reflexivity.
Defined.

Lemma Gwilliams_init_subject_indices_witness :
  exists d' ds x y s,
    Gwilliams2022.init (fun x => x) sample_read_raw_bids sample_resample_meg
      sample_filter_meg sample_scale sample_resample_audio sample_stimuli_2k
      sample_empty_disk "base" 1 1 4 3 = (d', Gwilliams2022.Returned ds) /\
    getitem ds 3 = Ok (x, y, s) /\
    exists v, s = Tensor [] [v] /\ (0 <= v < 1)%Z.
Proof.
  do 5 eexists. split; [vm_compute; reflexivity|].
  split; [vm_compute; reflexivity|].
  eapply (Gwilliams_init_subject_indices nat nat (fun x => x)
            sample_read_raw_bids sample_resample_meg sample_filter_meg
            sample_scale sample_resample_audio sample_stimuli_2k
            sample_empty_disk _ "base" 1 1 4 3 _ 3).
  - reflexivity.
  - lia.
  - vm_compute. reflexivity.
  - vm_compute. reflexivity.
Defined.

Lemma Gwilliams_init_needs_every_task_witness :
  exists d' ds,
    Gwilliams2022.init (fun x => x) sample_read_raw_bids sample_resample_meg
      sample_filter_meg sample_scale sample_resample_audio sample_stimuli_2k
      sample_empty_disk "base" 1 1 4 3 = (d', Gwilliams2022.Returned ds) /\
    forall ta, ta < 4 ->
      sample_stimuli_2k ta <> [] /\
      exists su se,
        su < Z.to_nat 1 /\ se < 2 /\ sample_read_raw_bids su se ta <> None.
Proof.
  do 2 eexists. split; [vm_compute; reflexivity|].
  eapply (Gwilliams_init_needs_every_task nat nat (fun x => x)
            sample_read_raw_bids sample_resample_meg sample_filter_meg
            sample_scale sample_resample_audio sample_stimuli_2k
            sample_empty_disk _ "base" 1 1 4 3).
  - reflexivity.
  - reflexivity.
  - vm_compute. reflexivity.
Defined.

Lemma Gwilliams_init_after_failed_preprocessing_witness :
  Gwilliams2022.brain_preproc sample_read_two_sessions sample_resample_meg
    sample_filter_meg sample_scale 1 4 208
    (Gwilliams2022.State [] None [] []) = (sample_failed_state, Raise ValueError) /\
  Gwilliams2022.init (fun x => x) sample_read_two_sessions
    sample_resample_meg sample_filter_meg sample_scale
    sample_resample_audio sample_stimuli_2k sample_empty_disk "base" 1 1 4 3
  = (Gwilliams2022.Disk (Some (Gwilliams2022.x_file sample_failed_state))
                        None None,
     Gwilliams2022.Raised ValueError) /\
  Gwilliams2022.init (fun x => x) sample_read_raw_bids
    sample_resample_meg sample_filter_meg sample_scale
    sample_resample_audio sample_stimuli_2k
    (Gwilliams2022.Disk (Some (Gwilliams2022.x_file sample_failed_state))
                        None None)
    "base" 1 1 4 3
  = (Gwilliams2022.Disk (Some (Gwilliams2022.x_file sample_failed_state))
                        None None,
     Gwilliams2022.RaisedFileNotFoundError).
Proof.
  assert (Hb : Gwilliams2022.brain_preproc sample_read_two_sessions
                 sample_resample_meg sample_filter_meg sample_scale 1 4 208
                 (Gwilliams2022.State [] None [] [])
               = (sample_failed_state, Raise ValueError))
    by (vm_compute; reflexivity).
  split; [exact Hb|].
  destruct (Gwilliams_init_after_failed_preprocessing nat nat (fun x => x)
              sample_read_two_sessions sample_resample_meg sample_filter_meg
              sample_scale sample_resample_audio sample_stimuli_2k
              sample_empty_disk "base" 1 1 4 3 sample_failed_state ValueError
              eq_refl eq_refl Hb) as [H1 H2].
  split; [exact H1|].
  exact (H2 (fun x => x) sample_read_raw_bids sample_resample_meg
            sample_filter_meg sample_scale "base"%string 1%Z 1%Z 4%Z 3%Z).
Defined.

(** * [ToyDataset]: its items *)

Lemma nth_error_concat_uniform {V} (m : nat) : forall (ls : list (list V)) i r,
  Forall (fun l => List.length l = m) ls ->
  i < List.length ls -> r < m ->
  nth_error (concat ls) (i * m + r) = nth_error (nth i ls []) r.
Proof.
  induction ls as [|l ls IH]; intros i r Hall Hi Hr; [simpl in Hi; lia|].
  inversion Hall as [|? ? Hl Hall']; subst. simpl concat.
  destruct i as [|i]; simpl nth.
  - simpl. rewrite nth_error_app1 by lia. reflexivity.
  - rewrite nth_error_app2 by (simpl; lia).
    replace (S i * List.length l + r - List.length l)
      with (i * List.length l + r) by (simpl; lia).
    apply IH; [assumption|simpl in Hi; lia|assumption].
Qed.

Lemma stack_flat {T} (ts : list (tensor T)) (t : tensor T) :
  stack ts = Ok t ->
  exists t0, hd_error ts = Some t0 /\
             shape t = List.length ts :: shape t0 /\
             flat t = concat (map (@flat T) ts).
Proof.
  unfold stack. destruct ts as [|t0 ts']; [discriminate|].
  destruct (forallb _ _); [|discriminate]. intros [= <-].
  exists t0. repeat split.
Qed.

(** An element of a stack is the element of the tensor stacked at that
    position. *)
Lemma stack_get {T} (ts : list (tensor T)) (t : tensor T) (sh : list nat)
    (i : nat) (idx : list nat) (u : tensor T) :
  stack ts = Ok t ->
  Forall (fun v => shape v = sh /\ wf v) ts ->
  nth_error ts i = Some u -> in_bounds sh idx ->
  get t (i :: idx) = get u idx.
Proof.
  intros E Hall Hi Hidx.
  assert (Hlt : i < List.length ts) by (apply nth_error_Some; congruence).
  destruct (stack_flat ts t E) as (t0 & Hhd & Hsh & Hflat).
  assert (Hu : shape u = sh /\ wf u).
  { rewrite Forall_forall in Hall. apply Hall. eapply nth_error_In; eauto. }
  destruct Hu as [Hshu Hwfu].
  assert (Hsh0 : shape t0 = sh).
  { destruct ts as [|t1 ts']; [discriminate|]. injection Hhd as ->.
    inversion Hall as [|? ? [H0 _] _]; exact H0. }
  rewrite Hsh0 in Hsh.
  rewrite !get_in_bounds.
  2:{ rewrite Hshu. exact Hidx. }
  2:{ rewrite Hsh. apply in_bounds_cons. split; assumption. }
  rewrite Hsh, Hflat, Hshu. cbn [ravel].
  rewrite (nth_error_concat_uniform (numel sh)).
  - f_equal. apply (nth_error_nth _ _ (Tensor [] [])) in Hi.
    change (@nil T) with (flat (Tensor (A:=T) [] [])).
    rewrite map_nth. now rewrite Hi.
  - apply Forall_map. eapply Forall_impl; [|exact Hall].
    intros v [Hv Hw]. red in Hw. now rewrite Hw, Hv.
  - now rewrite length_map.
  - now apply ravel_lt.
Qed.

Lemma stack_raises {T} (ts : list (tensor T)) (e : exn) :
  stack ts = Raise e -> e = RuntimeError.
Proof.
  unfold stack. destruct ts as [|t ts']; [congruence|].
  destruct (forallb _ _); congruence.
Qed.

(** X28: [ToyDataset] needs at least one sample and one feature: for
    [num_samples <= 0] or [Y_dim <= 0] the constructor raises
    [RuntimeError], at [torch.rand] of a negative size or at
    [torch.stack] of an empty list. *)
Theorem ToyDataset_needs_samples_and_features {T} (of_int : Z -> T)
    (t_add t_mul : T -> T -> T) (t_cos : T -> T)
    (linspace : T -> T -> nat -> list T)
    (rand : nat -> nat -> list T) (randint : nat -> list Z)
    (num_samples seq_len X_dim Y_dim : Z) :
  List.length (rand 0 0) = 0 ->
  (num_samples <= 0 \/ Y_dim <= 0)%Z ->
  ToyDataset of_int t_add t_mul t_cos linspace rand randint
             num_samples seq_len X_dim Y_dim = Raise RuntimeError.
Proof.
  intros Hrand Hle. unfold ToyDataset.
  destruct ((num_samples <? 0)%Z || (seq_len <? 0)%Z) eqn:Eneg;
    [reflexivity|].
  cbn [bind]. apply orb_false_iff in Eneg. destruct Eneg as [En _].
  apply Z.ltb_ge in En.
  destruct (Z_le_gt_dec num_samples 0) as [Hn|Hn].
  - replace (Z.to_nat num_samples) with 0 by lia.
    apply length_zero_iff_nil in Hrand. rewrite Hrand. reflexivity.
  - destruct Hle as [Hle|Hle]; [lia|].
    replace (Z.to_nat Y_dim) with 0 by lia. cbn [seq map].
    destruct (stack _) as [lin|e] eqn:E; [reflexivity|].
    cbn [bind]. f_equal. exact (stack_raises _ _ E).
Qed.

Lemma ToyDataset_needs_samples_and_features_witness :
  ToyDataset (fun z : Z => z) Z.add Z.mul (fun z => (z + 1000)%Z)
             sample_linspace sample_rand sample_randint 0 4 2 3
  = Raise RuntimeError
  /\ ToyDataset (fun z : Z => z) Z.add Z.mul (fun z => (z + 1000)%Z)
                sample_linspace sample_rand sample_randint 2 4 2 0
     = Raise RuntimeError.
Proof.
  split.
  - apply (ToyDataset_needs_samples_and_features (fun z : Z => z) Z.add Z.mul
             (fun z => (z + 1000)%Z) sample_linspace sample_rand
             sample_randint 0 4 2 3); [reflexivity|lia].
  - apply (ToyDataset_needs_samples_and_features (fun z : Z => z) Z.add Z.mul
             (fun z => (z + 1000)%Z) sample_linspace sample_rand
             sample_randint 2 4 2 0); [reflexivity|lia].
Defined.

(** X29: an item of [ToyDataset]. Feature [e] of sample [i] at position
    [k] is [cos(ramp_i[k] * scale_e)]: the ramp
    [linspace(st_i, st_i + 10, seq_len)] of the sample, with
    [st_i = rand(num_samples)[i] * 10], times one random factor per
    feature, which all samples share; the subject index is entry [i] of
    [randint(33, (num_samples,))]. *)
Theorem ToyDataset_item {T} (of_int : Z -> T) (t_add t_mul : T -> T -> T)
    (t_cos : T -> T) (linspace : T -> T -> nat -> list T)
    (rand : nat -> nat -> list T) (randint : nat -> list Z)
    (N L Yd : nat) (X_dim : Z) (i : nat) :
  (forall a b n, List.length (linspace a b n) = n) ->
  List.length (rand 0 N) = N -> List.length (randint N) = N ->
  0 < Yd -> i < N ->
  exists ds x y,
    ToyDataset of_int t_add t_mul t_cos linspace rand randint
               (Z.of_nat N) (Z.of_nat L) X_dim (Z.of_nat Yd) = Ok ds /\
    getitem ds (Z.of_nat i) = Ok (x, y, Tensor [] [nth i (randint N) 0%Z]) /\
    shape y = [Yd; L] /\
    forall e k, e < Yd -> k < L ->
      get y [e; k]
      = Some (t_cos
                (t_mul
                   (nth k (linspace
                             (t_mul (nth i (rand 0 N) (of_int 0%Z)) (of_int 10%Z))
                             (t_add
                                (t_mul (nth i (rand 0 N) (of_int 0%Z)) (of_int 10%Z))
                                (of_int 10%Z))
                             L)
                        (of_int 0%Z))
                   (hd (of_int 0%Z) (rand (S e) 1)))).
Proof.
  intros Hlin Hrand Hrandint HYd Hi.
  assert (HN : 0 < N) by lia.
  unfold ToyDataset.
  destruct (Z.ltb_spec (Z.of_nat N) 0); [lia|].
  destruct (Z.ltb_spec (Z.of_nat L) 0); [lia|]. cbn [orb bind].
  rewrite !Nat2Z.id.
  set (starts := map (fun v => t_mul v (of_int 10%Z)) (rand 0 N)).
  set (row := fun st => Tensor [L] (linspace st (t_add st (of_int 10%Z)) L)).
  set (rows := map row starts).
  assert (Hrows : List.length rows = N).
  { unfold rows, starts. now rewrite !length_map. }
  assert (Hrows_all : Forall (fun t => shape t = [L] /\ wf t) rows).
  { unfold rows. apply Forall_map, Forall_forall. intros st _. simpl.
    split; [reflexivity|]. red. simpl. rewrite Hlin. lia. }
  destruct (stack_spec rows [L]) as (lin & Elin & Hshlin & Hwflin);
    [intros E; rewrite E in Hrows; simpl in Hrows; lia|exact Hrows_all|].
  rewrite Hrows in Hshlin. rewrite Elin. cbn [bind].
  set (scaled := map (fun k => tmap (fun v => t_mul v (hd (of_int 0%Z) (rand (S k) 1))) lin)
                     (seq 0 Yd)).
  assert (Hscaled : List.length scaled = Yd).
  { unfold scaled. now rewrite length_map, length_seq. }
  assert (Hscaled_all : Forall (fun t => shape t = [N; L] /\ wf t) scaled).
  { unfold scaled. apply Forall_map, Forall_forall. intros k _.
    split; [exact Hshlin | apply wf_tmap, Hwflin]. }
  destruct (stack_spec scaled [N; L]) as (Ypre & EY & HshY & HwfY);
    [intros E; rewrite E in Hscaled; simpl in Hscaled; lia|exact Hscaled_all|].
  rewrite Hscaled in HshY. rewrite EY. cbn [bind].
  destruct (slice_axis_spec 0 None (Some X_dim) Ypre Yd)
    as (X0 & EX0 & HwfX0 & HshX0 & _); [now rewrite HshY | assumption |].
  set (m := slice_index Yd (Some X_dim) Yd) in *.
  rewrite HshY in HshX0. cbn [upd slice_index] in HshX0.
  rewrite Nat.sub_0_r in HshX0.
  rewrite EX0. cbn [bind].
  destruct (permute_102 Ypre Yd N L HshY HwfY)
    as (Yp & EYp & HwfYp & HshYp & HgetYp).
  destruct (permute_102 X0 m N L HshX0 HwfX0)
    as (Xp & EXp & HwfXp & HshXp & _).
  rewrite EYp. cbn [bind]. rewrite EXp. cbn [bind].
  destruct (select0_spec (tmap t_cos Xp) N [m; L] i)
    as (x & Ex & _); [exact HshXp | apply wf_tmap, HwfXp | assumption |].
  destruct (select0_spec (tmap t_cos Yp) N [Yd; L] i)
    as (y & Ey & Hwfy & Hshy & Hgety);
    [exact HshYp | apply wf_tmap, HwfYp | assumption |].
  destruct (select0_spec (Tensor [N] (randint N)) N [] i)
    as (s & Es & Hwfs & Hshs & Hgets);
    [reflexivity | red; simpl; lia | assumption |].
  assert (Hs : s = Tensor [] [nth i (randint N) 0%Z]).
  { apply scalar_tensor; [exact Hshs|exact Hwfs|].
    rewrite (Hgets [] eq_refl). unfold get. cbn [shape flat in_boundsb ravel].
    destruct (Nat.ltb_spec i N); [|lia]. cbn [andb].
    rewrite Nat.add_0_r, Nat.mul_1_r.
    apply nth_error_nth'. lia. }
  eexists. exists x, y. split; [reflexivity|]. split.
  { unfold getitem. cbn [ds_X ds_Y ds_subject_idxs].
    rewrite Ex, Ey, Es. cbn [bind]. now rewrite Hs. }
  split; [exact Hshy|].
  intros e k He Hk.
  rewrite Hgety by solve_bounds. rewrite get_tmap.
  rewrite HgetYp by lia.
  assert (Hnth_scaled : nth_error scaled e
                        = Some (tmap (fun v => t_mul v
                                                (hd (of_int 0%Z) (rand (S e) 1)))
                                     lin)).
  { unfold scaled. rewrite nth_error_map.
    rewrite (nth_error_nth' _ 0) by (rewrite length_seq; lia).
    rewrite seq_nth by lia. reflexivity. }
  rewrite (stack_get scaled Ypre [N; L] e [i; k] _ EY Hscaled_all Hnth_scaled)
    by solve_bounds.
  rewrite get_tmap.
  assert (Hnth_rows : nth_error rows i
                      = Some (row (t_mul (nth i (rand 0 N) (of_int 0%Z))
                                         (of_int 10%Z)))).
  { unfold rows, starts. rewrite !nth_error_map.
    rewrite (nth_error_nth' _ (of_int 0%Z)) by lia. reflexivity. }
  rewrite (stack_get rows lin [L] i [k] _ Elin Hrows_all Hnth_rows)
    by solve_bounds.
  unfold row, get. cbn [shape flat in_boundsb ravel].
  destruct (Nat.ltb_spec k L); [|lia]. cbn [andb].
  rewrite Nat.add_0_r, Nat.mul_1_r.
  rewrite (nth_error_nth' _ (of_int 0%Z)) by (rewrite Hlin; lia).
  reflexivity.
Qed.

Lemma ToyDataset_item_witness :
  exists ds x y,
    ToyDataset (fun z : Z => z) Z.add Z.mul (fun z => (z + 1000)%Z)
               sample_linspace sample_rand sample_randint
               (Z.of_nat 2) (Z.of_nat 4) 2 (Z.of_nat 3) = Ok ds /\
    getitem ds (Z.of_nat 1)
    = Ok (x, y, Tensor [] [nth 1 (sample_randint 2) 0%Z]) /\
    shape y = [3; 4] /\
    forall e k, e < 3 -> k < 4 ->
      get y [e; k]
      = Some ((nth k (sample_linspace
                        (nth 1 (sample_rand 0 2) 0 * 10)
                        (nth 1 (sample_rand 0 2) 0 * 10 + 10) 4) 0
               * hd 0 (sample_rand (S e) 1)) + 1000)%Z.
Proof.
  apply (ToyDataset_item (fun z : Z => z) Z.add Z.mul (fun z => (z + 1000)%Z)
           sample_linspace sample_rand sample_randint 2 4 3 2 1);
    try reflexivity; try lia.
  intros a b n. apply sample_linspace_length.
Defined.

(** * Items of [Gwilliams2022Dataset] *)

Lemma length_concat_blocks {A} (sh : list nat) : forall ts : list (tensor A),
  Forall wf ts -> Forall (fun u => exists d, shape u = d :: sh) ts ->
  List.length (concat (map (@flat A) ts))
  = list_sum (map (fun u => hd 0 (shape u)) ts) * numel sh.
Proof.
  induction ts as [|u ts IH]; intros Hwf Hsh; [reflexivity|].
  inversion Hwf as [|? ? Hu Hwf']; subst.
  inversion Hsh as [|? ? [d Hd] Hsh']; subst.
  cbn [map concat list_sum]. rewrite length_app, IH by assumption.
  red in Hu. rewrite Hu, Hd. cbn [hd numel].
  set (rest := map (fun v : tensor A => hd 0 (shape v)) ts).
  change (list_sum (d :: rest)) with (d + list_sum rest). ring.
Qed.

(** An item of a concatenation along the first axis is an item of the
    tensor whose block holds its position. *)
Lemma select0_cat0 {A} (pre post : list (tensor A)) (u t : tensor A)
    (sh : list nat) (d j : nat) :
  cat0 (pre ++ u :: post) = Ok t ->
  Forall wf (pre ++ u :: post) ->
  shape u = d :: sh -> j < d ->
  select0 (Z.of_nat (list_sum (map (fun v => hd 0 (shape v)) pre) + j)) t
  = select0 (Z.of_nat j) u.
Proof.
  intros Ecat Hwf Hu Hj.
  destruct (cat0_shape _ _ Ecat) as (sh' & Hsh & Hflat & Hall).
  assert (Hsh' : sh' = sh).
  { rewrite Forall_forall in Hall.
    destruct (Hall u) as [d' Hd']; [apply in_elt|]. congruence. }
  subst sh'.
  apply Forall_app in Hwf. destruct Hwf as [Hwf_pre Hwf_rest].
  inversion Hwf_rest as [|? ? Hwf_u Hwf_post]; subst.
  apply Forall_app in Hall. destruct Hall as [Hall_pre Hall_rest].
  set (off := list_sum (map (fun v => hd 0 (shape v)) pre)) in *.
  assert (Htotal : list_sum (map (fun v => hd 0 (shape v)) (pre ++ u :: post))
                   = off + d + list_sum (map (fun v => hd 0 (shape v)) post)).
  { rewrite map_app, list_sum_app. cbn [map]. rewrite Hu. cbn [hd].
    set (restp := map (fun v : tensor A => hd 0 (shape v)) post).
    change (list_sum (d :: restp)) with (d + list_sum restp).
    fold off. lia. }
  unfold select0. rewrite Hsh, Hu, Htotal.
  destruct (Z.ltb_spec (Z.of_nat (off + j)) 0); [lia|].
  destruct (Z.ltb_spec (Z.of_nat j) 0); [lia|].
  destruct (Z.leb_spec 0 (Z.of_nat (off + j))); [|lia].
  destruct (Z.leb_spec 0 (Z.of_nat j)); [|lia].
  destruct (Z.ltb_spec (Z.of_nat (off + j))
              (Z.of_nat (off + d
                         + list_sum (map (fun v => hd 0 (shape v)) post))));
    [|lia].
  destruct (Z.ltb_spec (Z.of_nat j) (Z.of_nat d)); [|lia].
  cbn [andb]. f_equal. f_equal. rewrite !Nat2Z.id.
  rewrite Hflat, map_app, concat_app. cbn [map concat].
  pose proof (length_concat_blocks sh pre Hwf_pre Hall_pre) as Hlen.
  fold off in Hlen.
  rewrite skipn_app, Hlen.
  rewrite (skipn_all2 (concat (map (@flat A) pre))) by (rewrite Hlen; nia).
  cbn [app].
  replace ((off + j) * numel sh - off * numel sh) with (j * numel sh) by nia.
  red in Hwf_u. rewrite Hu in Hwf_u. cbn [numel] in Hwf_u.
  rewrite skipn_app, firstn_app, length_skipn, Hwf_u.
  replace (numel sh - (d * numel sh - j * numel sh)) with 0 by nia.
  cbn [firstn]. now rewrite app_nil_r.
Qed.

Lemma dict_get_In {V} (k : string) (v : V) (d : dict V) :
  dict_get k d = Ok v -> In (k, v) d.
Proof.
  unfold dict_get. induction d as [|[k0 v0] d IH]; simpl; [discriminate|].
  destruct (String.eqb_spec k0 k) as [->|Hne].
  - intros [= ->]. now left.
  - intros H. right. now apply IH.
Qed.

Lemma dict_get_unique {V} (k : string) (v : V) (d : dict V) :
  NoDup (dict_keys d) -> In (k, v) d -> dict_get k d = Ok v.
Proof.
  unfold dict_get, dict_keys.
  induction d as [|[k0 v0] d IH]; simpl; intros Hnd Hin; [contradiction|].
  inversion Hnd as [|? ? Hnotin Hnd']; subst.
  destruct Hin as [[= -> ->]|Hin].
  - now rewrite String.eqb_refl.
  - destruct (String.eqb_spec k0 k) as [->|Hne]; [|now apply IH].
    exfalso. apply Hnotin. apply in_map_iff. now exists (k, v).
Qed.

(** What one iteration of the loop of [batchfy] returns, on recordings
    and audio of two axes. *)
Lemma batchfy_key_item {A B} (f : A -> A) (W W' : nat)
    (Xs : dict (tensor A)) (Ys : dict (tensor B)) (key : string)
    (Xi : tensor A) (Yi : tensor B) (si : tensor Z) :
  0 < W -> 0 < W' ->
  Forall (fun kv => wf (snd kv) /\
                    exists C L, shape (snd kv) = [C; L] /\ 0 < C) Xs ->
  Forall (fun kv => wf (snd kv) /\
                    exists Ch L, shape (snd kv) = [Ch; L]) Ys ->
  Gwilliams2022Dataset.batchfy_key f (Z.of_nat W) (Z.of_nat W') Xs Ys key
  = Ok (Xi, Yi, si) ->
  exists Xk Xw Yk z n,
    dict_get key Xs = Ok Xk /\
    Gwilliams2022Dataset.window_brain (Z.of_nat W) Xk = Ok Xw /\
    dict_get (Gwilliams2022Dataset.task_of_key key) Ys = Ok Yk /\
    Gwilliams2022Dataset.window_audio (Z.of_nat W') Yk = Ok Yi /\
    Gwilliams2022Dataset.subject_of_key key = Ok z /\
    Xi = tmap f Xw /\ si = Tensor [n] (repeat ((z * 1) mod 256)%Z n) /\
    (wf Xw /\ wf Yi) /\
    py_len Xw = Ok (Z.of_nat n) /\
    hd 0 (shape Xi) = n /\ hd 0 (shape Yi) = n /\ hd 0 (shape si) = n.
Proof.
  intros HW HW' HXs HYs H.
  unfold Gwilliams2022Dataset.batchfy_key in H.
  inv_bind H. inv_bind H. inv_bind H. inv_bind H. inv_bind H. inv_bind H.
  inv_bind H. inv_bind H. injection H as <- <- <-.
  rename v into Xk, v0 into Xw, v1 into Yk, v2 into Yw, v6 into z.
  destruct (shape_at_inv _ _ _ E3) as (n & Hn & ->).
  destruct (shape_at_inv _ _ _ E4) as (m & Hm & ->).
  unfold py_assert in E5.
  destruct (Z.eqb_spec (Z.of_nat n) (Z.of_nat m)) as [Enm|]; [|discriminate].
  apply Nat2Z.inj in Enm. subst m.
  rewrite Forall_forall in HXs, HYs.
  destruct (HXs _ (dict_get_In _ _ _ E)) as (HwfX & C & L & HshX & HC).
  destruct (HYs _ (dict_get_In _ _ _ E1)) as (HwfY & Ch & L' & HshY).
  cbn [snd] in *.
  destruct (window_brain_spec Xk C L W HshX HwfX HC HW)
    as (Xw' & EX' & HwfXw & _).
  destruct (window_audio_spec Yk Ch L' W' HshY HwfY HW')
    as (Yw' & EY' & HwfYw & _).
  assert (Xw' = Xw) by congruence. assert (Yw' = Yw) by congruence.
  subst Xw' Yw'.
  exists Xk, Xw, Yk, z, n.
  repeat (split; [first [assumption|reflexivity]|]).
  split.
  { unfold Gwilliams2022Dataset.scalar_times_ones_uint8.
    now rewrite Nat2Z.id. }
  split; [auto|]. split; [now apply py_len_shape_at|].
  split; [|split].
  - cbn [tmap shape]. destruct (shape Xw); [discriminate|].
    cbn in Hn |- *. congruence.
  - destruct (shape Yw); [discriminate|]. cbn in Hm |- *. congruence.
  - unfold Gwilliams2022Dataset.scalar_times_ones_uint8.
    cbn [shape hd]. now rewrite Nat2Z.id.
Qed.

Lemma Forall2_app_split {V U} (R : V -> U -> Prop) (l1 l2 : list V) :
  forall l', Forall2 R (l1 ++ l2) l' ->
  exists l1' l2', l' = l1' ++ l2' /\ Forall2 R l1 l1' /\ Forall2 R l2 l2'.
Proof.
  induction l1 as [|a l1 IH]; intros l' H.
  - exists [], l'. repeat split; [constructor|exact H].
  - inversion H as [|? b ? l'' Hab Hrest]; subst.
    destruct (IH _ Hrest) as (l1' & l2' & -> & H1 & H2).
    exists (b :: l1'), l2'. repeat split; [constructor; assumption|assumption].
Qed.

(** X30: an item of the dataset that [Gwilliams2022Dataset.batchfy]
    builds, for recordings and audio of two axes under distinct keys. The
    items follow the order of the keys; after the windows of the
    recordings before it, window [j] of a recording is the item that
    holds samples [j * meg_len ..] of its channels (converted to
    float32), row [j] of the windows of the audio of its task, and its
    subject index modulo 256. *)
Theorem Gwilliams_item_is_window {A B} (as_float32 : A -> A) (W W' : nat)
    (pre post : dict (tensor A)) (key : string) (X : tensor A)
    (Ys : dict (tensor B)) (Y : tensor B) (ds : dataset A B)
    (C L Ch L' j : nat) :
  Gwilliams2022Dataset.batchfy as_float32 (Z.of_nat W) (Z.of_nat W')
    (pre ++ (key, X) :: post) Ys = Ok ds ->
  0 < W -> 0 < W' ->
  NoDup (dict_keys (pre ++ (key, X) :: post)) ->
  Forall (fun kv => wf (snd kv) /\
                    exists C L, shape (snd kv) = [C; L] /\ 0 < C)
         (pre ++ (key, X) :: post) ->
  Forall (fun kv => wf (snd kv) /\
                    exists Ch L, shape (snd kv) = [Ch; L]) Ys ->
  shape X = [C; L] ->
  dict_find (Gwilliams2022Dataset.task_of_key key) Ys = Some Y ->
  shape Y = [Ch; L'] ->
  j < (if L mod W =? 0 then 0 else L / W) ->
  exists counts x y z,
    Forall2 (fun kv m =>
               exists Xw,
                 Gwilliams2022Dataset.window_brain (Z.of_nat W) (snd kv)
                 = Ok Xw /\
                 py_len Xw = Ok (Z.of_nat m))
            pre counts /\
    Gwilliams2022Dataset.subject_of_key key = Ok z /\
    getitem ds (Z.of_nat (list_sum counts + j))
    = Ok (x, y, Tensor [] [((z * 1) mod 256)%Z]) /\
    shape x = [C; W] /\
    (forall c k, c < C -> k < W ->
       get x [c; k] = option_map as_float32 (get X [c; j * W + k])) /\
    shape y = [W'] /\
    (forall k, k < W' ->
       get y [k]
       = get Y [j / (if L' mod W' =? 0 then 0 else L' / W');
                (j mod (if L' mod W' =? 0 then 0 else L' / W')) * W' + k]).
Proof.
  intros H HW HW' Hnd HXs HYs HshX Hfind HshY Hj.
  set (Xs := pre ++ (key, X) :: post) in *.
  set (n := if L mod W =? 0 then 0 else L / W) in *.
  set (n' := if L' mod W' =? 0 then 0 else L' / W') in *.
  unfold Gwilliams2022Dataset.batchfy in H.
  inv_bind H. inv_bind H. inv_bind H. inv_bind H. injection H as <-.
  rename v into items, v0 into Xall, v1 into Yall, v2 into sall.
  apply mapM_Forall2 in E.
  assert (Hkeys : dict_keys Xs = dict_keys pre ++ key :: dict_keys post).
  { unfold Xs, dict_keys. now rewrite map_app. }
  rewrite Hkeys in E.
  destruct (Forall2_app_split _ _ _ _ E) as (ip & rest & -> & Hpre & Hrest).
  inversion Hrest as [|? it ? iq Hit Hpost]; subst. clear Hrest.
  destruct it as [[Xi Yi] si].
  (* every item *)
  assert (Hfacts : forall k0 it0,
             Gwilliams2022Dataset.batchfy_key as_float32 (Z.of_nat W)
               (Z.of_nat W') Xs Ys k0 = Ok it0 ->
             exists Xk Xw,
               dict_get k0 Xs = Ok Xk /\
               Gwilliams2022Dataset.window_brain (Z.of_nat W) Xk = Ok Xw /\
               py_len Xw = Ok (Z.of_nat (hd 0 (shape (fst (fst it0))))) /\
               (wf (fst (fst it0)) /\ wf (snd (fst it0)) /\ wf (snd it0)) /\
               hd 0 (shape (snd (fst it0))) = hd 0 (shape (fst (fst it0))) /\
               hd 0 (shape (snd it0)) = hd 0 (shape (fst (fst it0)))).
  { intros k0 [[Xi0 Yi0] si0] Hk0.
    destruct (batchfy_key_item _ _ _ _ _ _ _ _ _ HW HW' HXs HYs Hk0)
      as (Xk & Xw & Yk & z & m & H1 & H2 & _ & _ & _ & -> & -> & (Hw1 & Hw2)
          & Hlen & Hh1 & Hh2 & Hh3).
    exists Xk, Xw. cbn [fst snd]. rewrite Hh1.
    repeat split; trivial.
    - now apply wf_tmap.
    - red. cbn [shape flat numel]. rewrite repeat_length. lia. }
  assert (Hall : Forall (fun it0 =>
             (wf (fst (fst it0)) /\ wf (snd (fst it0)) /\ wf (snd it0)) /\
             hd 0 (shape (snd (fst it0))) = hd 0 (shape (fst (fst it0))) /\
             hd 0 (shape (snd it0)) = hd 0 (shape (fst (fst it0))))
           (ip ++ (Xi, Yi, si) :: iq)).
  { apply Forall2_In_right in E. eapply Forall_impl; [|exact E].
    intros it0 (k0 & _ & Hk0).
    destruct (Hfacts k0 it0 Hk0) as (_ & _ & _ & _ & _ & Hw & Hh).
    auto. }
  set (counts := map (fun it0 : tensor A * tensor B * tensor Z =>
                        hd 0 (shape (fst (fst it0)))) ip).
  assert (Hcounts : Forall2 (fun kv m =>
             exists Xw,
               Gwilliams2022Dataset.window_brain (Z.of_nat W) (snd kv)
               = Ok Xw /\
               py_len Xw = Ok (Z.of_nat m)) pre counts).
  { unfold counts.
    assert (Hgen : forall (l : dict (tensor A)) ip0,
               Forall2 (fun a b =>
                          Gwilliams2022Dataset.batchfy_key as_float32
                            (Z.of_nat W) (Z.of_nat W') Xs Ys a = Ok b)
                       (dict_keys l) ip0 ->
               (forall kv, In kv l -> In kv Xs) ->
               Forall2 (fun kv m =>
                          exists Xw,
                            Gwilliams2022Dataset.window_brain (Z.of_nat W)
                              (snd kv) = Ok Xw /\
                            py_len Xw = Ok (Z.of_nat m))
                       l (map (fun it0 : tensor A * tensor B * tensor Z =>
                                 hd 0 (shape (fst (fst it0)))) ip0)).
    { induction l as [|[k0 X0] l IH]; intros ip0 Hl Hin;
        inversion Hl as [|? it0 ? ip' Hit0 Hl']; subst; [constructor|].
      cbn [map]. constructor.
      - destruct (Hfacts k0 it0 Hit0) as (Xk & Xw & Hget & Hwin & Hlen & _).
        rewrite (dict_get_unique k0 X0 Xs Hnd) in Hget
          by (apply Hin; now left).
        injection Hget as <-. exists Xw. auto.
      - apply IH; [exact Hl'|]. intros kv Hkv. apply Hin. now right. }
    apply Hgen; [exact Hpre|].
    intros kv Hkv. unfold Xs. apply in_or_app. now left. }
  (* the item of the recording *)
  destruct (batchfy_key_item _ _ _ _ _ _ _ _ _ HW HW' HXs HYs Hit)
    as (Xk & Xw & Yk & z & m & H1 & H2 & H3 & H4 & Hz & -> & -> & (HwfXw & HwfYi)
        & Hlen & Hh1 & Hh2 & Hh3).
  rewrite (dict_get_unique key X Xs Hnd) in H1
    by (unfold Xs; apply in_elt).
  injection H1 as <-.
  unfold dict_get in H3. rewrite Hfind in H3. injection H3 as <-.
  assert (HwfX : wf X /\ 0 < C).
  { rewrite Forall_forall in HXs.
    destruct (HXs (key, X)) as (Hw & C0 & L0 & Hs0 & HC0);
      [unfold Xs; apply in_elt|].
    cbn [snd] in *. rewrite HshX in Hs0. injection Hs0 as -> ->. auto. }
  destruct HwfX as [HwfX HC].
  assert (HwfY : wf Y).
  { rewrite Forall_forall in HYs.
    destruct (HYs (Gwilliams2022Dataset.task_of_key key, Y)) as (Hw & _);
      [|exact Hw].
    apply dict_get_In. unfold dict_get. now rewrite Hfind. }
  destruct (window_brain_spec X C L W HshX HwfX HC HW)
    as (Xw' & EXw & _ & HshXw & HgetXw).
  assert (Xw' = Xw) by congruence. subst Xw'. fold n in HshXw, HgetXw.
  destruct (window_audio_spec Y Ch L' W' HshY HwfY HW')
    as (Yw' & EYw & _ & HshYi & HgetYi).
  assert (Yw' = Yi) by congruence. subst Yw'. fold n' in HshYi, HgetYi.
  assert (Hm : m = n).
  { rewrite <- Hh1. cbn [tmap shape]. now rewrite HshXw. }
  clear Hh1 Hh3. rewrite Hm in *. clear Hm m.
  assert (Hnn' : Ch * n' = n).
  { rewrite HshYi in Hh2. exact Hh2. }
  assert (Hn' : 0 < n') by (destruct n'; [lia|lia]).
  (* the three selections *)
  assert (Hsum : forall (g : tensor A * tensor B * tensor Z -> nat),
             (forall it0, In it0 ip -> g it0 = hd 0 (shape (fst (fst it0)))) ->
             list_sum (map g ip) = list_sum counts).
  { intros g Hg. unfold counts. f_equal. apply map_ext_in. exact Hg. }
  apply Forall_app in Hall. destruct Hall as [Hall_ip Hall_rest].
  inversion Hall_rest as [|? ? _ Hall_iq]; subst. clear Hall_rest.
  assert (Hwf3 : Forall wf (map (fun it0 => fst (fst it0))
                                (ip ++ (tmap as_float32 Xw, Yi,
                                        Tensor [n] (repeat ((z * 1) mod 256)%Z n))
                                    :: iq))
                 /\ Forall wf (map (fun it0 => snd (fst it0))
                                   (ip ++ (tmap as_float32 Xw, Yi,
                                           Tensor [n] (repeat ((z * 1) mod 256)%Z n))
                                       :: iq))
                 /\ Forall wf (map snd
                                   (ip ++ (tmap as_float32 Xw, Yi,
                                           Tensor [n] (repeat ((z * 1) mod 256)%Z n))
                                       :: iq))).
  { assert (Hw : Forall (fun it0 : tensor A * tensor B * tensor Z =>
                           wf (fst (fst it0)) /\ wf (snd (fst it0))
                           /\ wf (snd it0))
                        (ip ++ (tmap as_float32 Xw, Yi,
                                Tensor [n] (repeat ((z * 1) mod 256)%Z n)) :: iq)).
    { apply Forall_app. split.
      - eapply Forall_impl; [|exact Hall_ip]. intros it0 [Hw _]. exact Hw.
      - constructor.
        + cbn [fst snd]. split; [now apply wf_tmap|]. split; [exact HwfYi|].
          red. cbn [shape flat numel]. rewrite repeat_length. lia.
        + eapply Forall_impl; [|exact Hall_iq]. intros it0 [Hw _]. exact Hw. }
    repeat split; apply Forall_map; (eapply Forall_impl; [|exact Hw]);
      intros it0 (Ha & Hb & Hc); assumption. }
  destruct Hwf3 as (HwfXs & HwfYs & Hwfss).
  rewrite map_app in E0, E1, E2, HwfXs, HwfYs, Hwfss.
  cbn [map fst snd] in E0, E1, E2, HwfXs, HwfYs, Hwfss.
  pose proof (select0_cat0 _ _ _ _ [C; W] n j E0 HwfXs
                (eq_trans (f_equal _ eq_refl) HshXw) Hj) as SX.
  pose proof (select0_cat0 _ _ _ _ [W'] n j E1 HwfYs
                (eq_trans HshYi (f_equal (fun a => [a; W']) Hnn')) Hj) as SY.
  pose proof (select0_cat0 _ _ _ _ [] n j E2 Hwfss eq_refl Hj) as Ss.
  rewrite map_map in SX, SY, Ss.
  rewrite (Hsum _ (fun it0 _ => eq_refl)) in SX.
  rewrite (Hsum (fun it0 => hd 0 (shape (snd (fst it0))))) in SY.
  2:{ intros it0 Hin. rewrite Forall_forall in Hall_ip.
      now destruct (Hall_ip it0 Hin) as (_ & Hq & _). }
  rewrite (Hsum (fun it0 => hd 0 (shape (snd it0)))) in Ss.
  2:{ intros it0 Hin. rewrite Forall_forall in Hall_ip.
      now destruct (Hall_ip it0 Hin) as (_ & _ & Hq). }
  destruct (select0_spec (tmap as_float32 Xw) n [C; W] j)
    as (x & Ex & _ & Hshx & Hgetx); [exact HshXw|now apply wf_tmap|exact Hj|].
  destruct (select0_spec Yi n [W'] j)
    as (y & Ey & _ & Hshy & Hgety);
    [now rewrite HshYi, Hnn'|exact HwfYi|exact Hj|].
  destruct (select0_spec (Tensor [n] (repeat ((z * 1) mod 256)%Z n)) n [] j)
    as (sj & Esj & Hwfsj & Hshsj & Hgetsj);
    [reflexivity|red; cbn [shape flat numel]; rewrite repeat_length; lia
     |exact Hj|].
  assert (Hsj : sj = Tensor [] [((z * 1) mod 256)%Z]).
  { apply scalar_tensor; [exact Hshsj|exact Hwfsj|].
    rewrite (Hgetsj [] eq_refl). unfold get.
    cbn [shape flat in_boundsb ravel].
    destruct (Nat.ltb_spec j n); [|lia]. cbn [andb].
    rewrite Nat.add_0_r, Nat.mul_1_r.
    now apply nth_error_repeat. }
  exists counts, x, y, z.
  split; [exact Hcounts|]. split; [exact Hz|]. split.
  { unfold getitem. cbn [ds_X ds_Y ds_subject_idxs].
    rewrite SX, SY, Ss, Ex, Ey, Esj. cbn [bind]. now rewrite Hsj. }
  split; [exact Hshx|]. split.
  { intros c k Hc Hk. rewrite Hgetx by solve_bounds. rewrite get_tmap.
    now rewrite HgetXw. }
  split; [exact Hshy|].
  intros k Hk. rewrite Hgety by solve_bounds.
  assert (Hq : j / n' < Ch).
  { apply Nat.Div0.div_lt_upper_bound. rewrite Nat.mul_comm. lia. }
  assert (Hr : j mod n' < n') by (apply Nat.mod_upper_bound; lia).
  rewrite <- (HgetYi (j / n') (j mod n') k Hq Hr Hk).
  do 3 f_equal. rewrite (Nat.div_mod_eq j n') at 1. lia.
Qed.

Lemma Gwilliams_item_is_window_witness :
  exists ds counts x y z,
    Gwilliams2022Dataset.batchfy (fun v : nat => v) (Z.of_nat 3) (Z.of_nat 2)
      sample_Xs sample_Ys = Ok ds /\
    Forall2 (fun kv m =>
               exists Xw,
                 Gwilliams2022Dataset.window_brain (Z.of_nat 3) (snd kv)
                 = Ok Xw /\
                 py_len Xw = Ok (Z.of_nat m))
            [("subject01_sess0_task0"%string, Tensor [2; 7] (seq 0 14))]
            counts /\
    Gwilliams2022Dataset.subject_of_key "subject02_sess0_task0" = Ok z /\
    getitem ds (Z.of_nat (list_sum counts + 1))
    = Ok (x, y, Tensor [] [((z * 1) mod 256)%Z]) /\
    shape x = [2; 3] /\
    (forall c k, c < 2 -> k < 3 ->
       get x [c; k]
       = option_map (fun v : nat => v)
                    (get (Tensor [2; 8] (seq 50 16)) [c; 1 * 3 + k])) /\
    shape y = [2] /\
    (forall k, k < 2 ->
       get y [k]
       = get (Tensor [1; 5] (seq 100 5))
             [1 / (if 5 mod 2 =? 0 then 0 else 5 / 2);
              (1 mod (if 5 mod 2 =? 0 then 0 else 5 / 2)) * 2 + k]).
Proof.
  eexists.
  assert (Hds : Gwilliams2022Dataset.batchfy (fun v : nat => v) (Z.of_nat 3)
                  (Z.of_nat 2) sample_Xs sample_Ys = Ok _)
    by (vm_compute; reflexivity).
  destruct (Gwilliams_item_is_window (fun v : nat => v) 3 2
              [("subject01_sess0_task0"%string, Tensor [2; 7] (seq 0 14))] []
              "subject02_sess0_task0" (Tensor [2; 8] (seq 50 16))
              sample_Ys (Tensor [1; 5] (seq 100 5)) _ 2 8 1 5 1 Hds)
    as (counts & x & y & z & H);
    try reflexivity; try (simpl; lia).
  - repeat constructor; simpl; intuition discriminate.
  - repeat constructor; simpl; try reflexivity; try (do 2 eexists; split;
      [reflexivity|lia]).
  - repeat constructor; simpl; try reflexivity; do 2 eexists; reflexivity.
  - exists counts, x, y, z. split; [exact Hds|exact H].
Defined.
